(** * NLP-QUERY-HUB: the SQL generation and safety pipeline of [app.py]

    A shallow embedding of the pure text functions of [src/venv/app.py]
    ([clean_sql_from_model], [is_sql_safe], [get_schema_hint], the prompt
    f-string), of the model client's response decoding, of the DuckDB
    executor with its connection life cycle, and of the Streamlit script's
    history log, followed by the properties the specification states about
    them.

    A Python [str] is a sequence of code points, and so is a [string] here:
    a character is its code point, a number.  Python's character predicates
    ([str.isspace], the regex classes [\s] and [\w], [str.lower],
    [str.isprintable], the breaks of [str.splitlines]) are tables of the
    Unicode character database (version 14.0.0, as CPython 3.11 ships it),
    written out below as sorted lists of ranges. *)

From Stdlib Require Import Strings.Byte.
From Stdlib Require Import Lists.List Bool.Bool Arith.Arith NArith.NArith ZArith.ZArith.
From Stdlib Require Import micromega.Lia.
From Stdlib Require Import Floats.PrimFloat.
Import ListNotations.

Local Open Scope bool_scope.

(** ** Python strings *)

Module PyStr.

(** A character is a code point. *)
Definition char : Set := N.

Inductive string : Set :=
| EmptyString
| String (c : char) (r : string).

(** Literals: a text between double quotes is read character by character
    (ASCII only; other characters are written as their code points), and a
    character literal is one ASCII character or three decimal digits. *)
Definition digit_of_byte (b : Byte.byte) : option N :=
  let n := Byte.to_N b in
  if N.leb 48 n && N.leb n 57 then Some (n - 48)%N else None.

Definition char_of_bytes (bs : list Byte.byte) : option N :=
  match bs with
  | [b] => if N.ltb (Byte.to_N b) 128 then Some (Byte.to_N b) else None
  | [a; b; c] =>
      match digit_of_byte a, digit_of_byte b, digit_of_byte c with
      | Some x, Some y, Some z => Some (100 * x + 10 * y + z)%N
      | _, _, _ => None
      end
  | _ => None
  end.

Definition bytes_of_char (c : N) : option (list Byte.byte) :=
  if N.leb 32 c && N.leb c 126
  then match Byte.of_N c with Some b => Some [b] | None => None end
  else None.

Fixpoint string_of_bytes (bs : list Byte.byte) : option string :=
  match bs with
  | [] => Some EmptyString
  | b :: rest =>
      if N.ltb (Byte.to_N b) 128
      then match string_of_bytes rest with
           | Some r => Some (String (Byte.to_N b) r)
           | None => None
           end
      else None
  end.

Fixpoint bytes_of_string (s : string) : option (list Byte.byte) :=
  match s with
  | EmptyString => Some []
  | String c r =>
      match (if N.ltb c 128 then Byte.of_N c else None), bytes_of_string r with
      | Some b, Some rest => Some (b :: rest)
      | _, _ => None
      end
  end.

Declare Scope pychar_scope.
Delimit Scope pychar_scope with char.
Bind Scope pychar_scope with char.
String Notation N char_of_bytes bytes_of_char : pychar_scope.

Declare Scope pystr_scope.
Delimit Scope pystr_scope with string.
Bind Scope pystr_scope with string.
String Notation string string_of_bytes bytes_of_string : pystr_scope.

Local Open Scope pystr_scope.

Definition char_eqb (a b : char) : bool := N.eqb a b.

Fixpoint string_eqb (a b : string) : bool :=
  match a, b with
  | EmptyString, EmptyString => true
  | String x r, String y t => char_eqb x y && string_eqb r t
  | _, _ => false
  end.

Fixpoint append (a b : string) : string :=
  match a with
  | EmptyString => b
  | String c r => String c (append r b)
  end.

Infix "++" := append (right associativity, at level 60) : pystr_scope.

Fixpoint strlen (s : string) : nat :=
  match s with
  | EmptyString => O
  | String _ r => S (strlen r)
  end.

(** *** The character tables *)

(** Membership in a sorted list of ranges; the scan stops at the first range
    that begins after the character. *)
Fixpoint in_ranges (c : N) (l : list (N * N)) : bool :=
  match l with
  | [] => false
  | (lo, hi) :: rest =>
      if N.ltb c lo then false
      else if N.leb c hi then true
      else in_ranges c rest
  end.

(** A case mapping as a sorted list of runs [(lo, hi, stride, target)]: the
    characters [lo], [lo + stride], ..., [hi] map to [target],
    [target + stride], ... *)
Fixpoint mapped (c : N) (l : list (N * N * N * N)) : option N :=
  match l with
  | [] => None
  | (lo, hi, stride, target) :: rest =>
      if N.ltb c lo then None
      else if N.leb c hi
           then if N.eqb (N.modulo (c - lo) stride) 0 then Some (target + (c - lo))%N else None
           else mapped c rest
  end.

Arguments in_ranges c l : simpl nomatch.
Arguments mapped c l : simpl nomatch.

(** The tables. *)
Definition SPACE : list (N * N) :=
  [
  (9,13); (28,32); (133,133); (160,160); (5760,5760); (8192,8202); (8232,8233); (8239,8239);
  (8287,8287); (12288,12288)
  ]%N.

Definition LINEBREAK : list (N * N) :=
  [
  (10,13); (28,30); (133,133); (8232,8233)
  ]%N.

Definition ALNUM : list (N * N) :=
  [
  (48,57); (65,90); (97,122); (170,170); (178,179); (181,181); (185,186); (188,190); (192,214);
  (216,246); (248,705); (710,721); (736,740); (748,748); (750,750); (880,884); (886,887);
  (890,893); (895,895); (902,902); (904,906); (908,908); (910,929); (931,1013); (1015,1153);
  (1162,1327); (1329,1366); (1369,1369); (1376,1416); (1488,1514); (1519,1522); (1568,1610);
  (1632,1641); (1646,1647); (1649,1747); (1749,1749); (1765,1766); (1774,1788); (1791,1791);
  (1808,1808); (1810,1839); (1869,1957); (1969,1969); (1984,2026); (2036,2037); (2042,2042);
  (2048,2069); (2074,2074); (2084,2084); (2088,2088); (2112,2136); (2144,2154); (2160,2183);
  (2185,2190); (2208,2249); (2308,2361); (2365,2365); (2384,2384); (2392,2401); (2406,2415);
  (2417,2432); (2437,2444); (2447,2448); (2451,2472); (2474,2480); (2482,2482); (2486,2489);
  (2493,2493); (2510,2510); (2524,2525); (2527,2529); (2534,2545); (2548,2553); (2556,2556);
  (2565,2570); (2575,2576); (2579,2600); (2602,2608); (2610,2611); (2613,2614); (2616,2617);
  (2649,2652); (2654,2654); (2662,2671); (2674,2676); (2693,2701); (2703,2705); (2707,2728);
  (2730,2736); (2738,2739); (2741,2745); (2749,2749); (2768,2768); (2784,2785); (2790,2799);
  (2809,2809); (2821,2828); (2831,2832); (2835,2856); (2858,2864); (2866,2867); (2869,2873);
  (2877,2877); (2908,2909); (2911,2913); (2918,2927); (2929,2935); (2947,2947); (2949,2954);
  (2958,2960); (2962,2965); (2969,2970); (2972,2972); (2974,2975); (2979,2980); (2984,2986);
  (2990,3001); (3024,3024); (3046,3058); (3077,3084); (3086,3088); (3090,3112); (3114,3129);
  (3133,3133); (3160,3162); (3165,3165); (3168,3169); (3174,3183); (3192,3198); (3200,3200);
  (3205,3212); (3214,3216); (3218,3240); (3242,3251); (3253,3257); (3261,3261); (3293,3294);
  (3296,3297); (3302,3311); (3313,3314); (3332,3340); (3342,3344); (3346,3386); (3389,3389);
  (3406,3406); (3412,3414); (3416,3425); (3430,3448); (3450,3455); (3461,3478); (3482,3505);
  (3507,3515); (3517,3517); (3520,3526); (3558,3567); (3585,3632); (3634,3635); (3648,3654);
  (3664,3673); (3713,3714); (3716,3716); (3718,3722); (3724,3747); (3749,3749); (3751,3760);
  (3762,3763); (3773,3773); (3776,3780); (3782,3782); (3792,3801); (3804,3807); (3840,3840);
  (3872,3891); (3904,3911); (3913,3948); (3976,3980); (4096,4138); (4159,4169); (4176,4181);
  (4186,4189); (4193,4193); (4197,4198); (4206,4208); (4213,4225); (4238,4238); (4240,4249);
  (4256,4293); (4295,4295); (4301,4301); (4304,4346); (4348,4680); (4682,4685); (4688,4694);
  (4696,4696); (4698,4701); (4704,4744); (4746,4749); (4752,4784); (4786,4789); (4792,4798);
  (4800,4800); (4802,4805); (4808,4822); (4824,4880); (4882,4885); (4888,4954); (4969,4988);
  (4992,5007); (5024,5109); (5112,5117); (5121,5740); (5743,5759); (5761,5786); (5792,5866);
  (5870,5880); (5888,5905); (5919,5937); (5952,5969); (5984,5996); (5998,6000); (6016,6067);
  (6103,6103); (6108,6108); (6112,6121); (6128,6137); (6160,6169); (6176,6264); (6272,6276);
  (6279,6312); (6314,6314); (6320,6389); (6400,6430); (6470,6509); (6512,6516); (6528,6571);
  (6576,6601); (6608,6618); (6656,6678); (6688,6740); (6784,6793); (6800,6809); (6823,6823);
  (6917,6963); (6981,6988); (6992,7001); (7043,7072); (7086,7141); (7168,7203); (7232,7241);
  (7245,7293); (7296,7304); (7312,7354); (7357,7359); (7401,7404); (7406,7411); (7413,7414);
  (7418,7418); (7424,7615); (7680,7957); (7960,7965); (7968,8005); (8008,8013); (8016,8023);
  (8025,8025); (8027,8027); (8029,8029); (8031,8061); (8064,8116); (8118,8124); (8126,8126);
  (8130,8132); (8134,8140); (8144,8147); (8150,8155); (8160,8172); (8178,8180); (8182,8188);
  (8304,8305); (8308,8313); (8319,8329); (8336,8348); (8450,8450); (8455,8455); (8458,8467);
  (8469,8469); (8473,8477); (8484,8484); (8486,8486); (8488,8488); (8490,8493); (8495,8505);
  (8508,8511); (8517,8521); (8526,8526); (8528,8585); (9312,9371); (9450,9471); (10102,10131);
  (11264,11492); (11499,11502); (11506,11507); (11517,11517); (11520,11557); (11559,11559);
  (11565,11565); (11568,11623); (11631,11631); (11648,11670); (11680,11686); (11688,11694);
  (11696,11702); (11704,11710); (11712,11718); (11720,11726); (11728,11734); (11736,11742);
  (11823,11823); (12293,12295); (12321,12329); (12337,12341); (12344,12348); (12353,12438);
  (12445,12447); (12449,12538); (12540,12543); (12549,12591); (12593,12686); (12690,12693);
  (12704,12735); (12784,12799); (12832,12841); (12872,12879); (12881,12895); (12928,12937);
  (12977,12991); (13312,19903); (19968,42124); (42192,42237); (42240,42508); (42512,42539);
  (42560,42606); (42623,42653); (42656,42735); (42775,42783); (42786,42888); (42891,42954);
  (42960,42961); (42963,42963); (42965,42969); (42994,43009); (43011,43013); (43015,43018);
  (43020,43042); (43056,43061); (43072,43123); (43138,43187); (43216,43225); (43250,43255);
  (43259,43259); (43261,43262); (43264,43301); (43312,43334); (43360,43388); (43396,43442);
  (43471,43481); (43488,43492); (43494,43518); (43520,43560); (43584,43586); (43588,43595);
  (43600,43609); (43616,43638); (43642,43642); (43646,43695); (43697,43697); (43701,43702);
  (43705,43709); (43712,43712); (43714,43714); (43739,43741); (43744,43754); (43762,43764);
  (43777,43782); (43785,43790); (43793,43798); (43808,43814); (43816,43822); (43824,43866);
  (43868,43881); (43888,44002); (44016,44025); (44032,55203); (55216,55238); (55243,55291);
  (63744,64109); (64112,64217); (64256,64262); (64275,64279); (64285,64285); (64287,64296);
  (64298,64310); (64312,64316); (64318,64318); (64320,64321); (64323,64324); (64326,64433);
  (64467,64829); (64848,64911); (64914,64967); (65008,65019); (65136,65140); (65142,65276);
  (65296,65305); (65313,65338); (65345,65370); (65382,65470); (65474,65479); (65482,65487);
  (65490,65495); (65498,65500); (65536,65547); (65549,65574); (65576,65594); (65596,65597);
  (65599,65613); (65616,65629); (65664,65786); (65799,65843); (65856,65912); (65930,65931);
  (66176,66204); (66208,66256); (66273,66299); (66304,66339); (66349,66378); (66384,66421);
  (66432,66461); (66464,66499); (66504,66511); (66513,66517); (66560,66717); (66720,66729);
  (66736,66771); (66776,66811); (66816,66855); (66864,66915); (66928,66938); (66940,66954);
  (66956,66962); (66964,66965); (66967,66977); (66979,66993); (66995,67001); (67003,67004);
  (67072,67382); (67392,67413); (67424,67431); (67456,67461); (67463,67504); (67506,67514);
  (67584,67589); (67592,67592); (67594,67637); (67639,67640); (67644,67644); (67647,67669);
  (67672,67702); (67705,67742); (67751,67759); (67808,67826); (67828,67829); (67835,67867);
  (67872,67897); (67968,68023); (68028,68047); (68050,68096); (68112,68115); (68117,68119);
  (68121,68149); (68160,68168); (68192,68222); (68224,68255); (68288,68295); (68297,68324);
  (68331,68335); (68352,68405); (68416,68437); (68440,68466); (68472,68497); (68521,68527);
  (68608,68680); (68736,68786); (68800,68850); (68858,68899); (68912,68921); (69216,69246);
  (69248,69289); (69296,69297); (69376,69415); (69424,69445); (69457,69460); (69488,69505);
  (69552,69579); (69600,69622); (69635,69687); (69714,69743); (69745,69746); (69749,69749);
  (69763,69807); (69840,69864); (69872,69881); (69891,69926); (69942,69951); (69956,69956);
  (69959,69959); (69968,70002); (70006,70006); (70019,70066); (70081,70084); (70096,70106);
  (70108,70108); (70113,70132); (70144,70161); (70163,70187); (70272,70278); (70280,70280);
  (70282,70285); (70287,70301); (70303,70312); (70320,70366); (70384,70393); (70405,70412);
  (70415,70416); (70419,70440); (70442,70448); (70450,70451); (70453,70457); (70461,70461);
  (70480,70480); (70493,70497); (70656,70708); (70727,70730); (70736,70745); (70751,70753);
  (70784,70831); (70852,70853); (70855,70855); (70864,70873); (71040,71086); (71128,71131);
  (71168,71215); (71236,71236); (71248,71257); (71296,71338); (71352,71352); (71360,71369);
  (71424,71450); (71472,71483); (71488,71494); (71680,71723); (71840,71922); (71935,71942);
  (71945,71945); (71948,71955); (71957,71958); (71960,71983); (71999,71999); (72001,72001);
  (72016,72025); (72096,72103); (72106,72144); (72161,72161); (72163,72163); (72192,72192);
  (72203,72242); (72250,72250); (72272,72272); (72284,72329); (72349,72349); (72368,72440);
  (72704,72712); (72714,72750); (72768,72768); (72784,72812); (72818,72847); (72960,72966);
  (72968,72969); (72971,73008); (73030,73030); (73040,73049); (73056,73061); (73063,73064);
  (73066,73097); (73112,73112); (73120,73129); (73440,73458); (73648,73648); (73664,73684);
  (73728,74649); (74752,74862); (74880,75075); (77712,77808); (77824,78894); (82944,83526);
  (92160,92728); (92736,92766); (92768,92777); (92784,92862); (92864,92873); (92880,92909);
  (92928,92975); (92992,92995); (93008,93017); (93019,93025); (93027,93047); (93053,93071);
  (93760,93846); (93952,94026); (94032,94032); (94099,94111); (94176,94177); (94179,94179);
  (94208,100343); (100352,101589); (101632,101640); (110576,110579); (110581,110587);
  (110589,110590); (110592,110882); (110928,110930); (110948,110951); (110960,111355);
  (113664,113770); (113776,113788); (113792,113800); (113808,113817); (119520,119539);
  (119648,119672); (119808,119892); (119894,119964); (119966,119967); (119970,119970);
  (119973,119974); (119977,119980); (119982,119993); (119995,119995); (119997,120003);
  (120005,120069); (120071,120074); (120077,120084); (120086,120092); (120094,120121);
  (120123,120126); (120128,120132); (120134,120134); (120138,120144); (120146,120485);
  (120488,120512); (120514,120538); (120540,120570); (120572,120596); (120598,120628);
  (120630,120654); (120656,120686); (120688,120712); (120714,120744); (120746,120770);
  (120772,120779); (120782,120831); (122624,122654); (123136,123180); (123191,123197);
  (123200,123209); (123214,123214); (123536,123565); (123584,123627); (123632,123641);
  (124896,124902); (124904,124907); (124909,124910); (124912,124926); (124928,125124);
  (125127,125135); (125184,125251); (125259,125259); (125264,125273); (126065,126123);
  (126125,126127); (126129,126132); (126209,126253); (126255,126269); (126464,126467);
  (126469,126495); (126497,126498); (126500,126500); (126503,126503); (126505,126514);
  (126516,126519); (126521,126521); (126523,126523); (126530,126530); (126535,126535);
  (126537,126537); (126539,126539); (126541,126543); (126545,126546); (126548,126548);
  (126551,126551); (126553,126553); (126555,126555); (126557,126557); (126559,126559);
  (126561,126562); (126564,126564); (126567,126570); (126572,126578); (126580,126583);
  (126585,126588); (126590,126590); (126592,126601); (126603,126619); (126625,126627);
  (126629,126633); (126635,126651); (127232,127244); (130032,130041); (131072,173791);
  (173824,177976); (177984,178205); (178208,183969); (183984,191456); (194560,195101);
  (196608,201546)
  ]%N.

Definition PRINTABLE : list (N * N) :=
  [
  (32,126); (161,172); (174,887); (890,895); (900,906); (908,908); (910,929); (931,1327);
  (1329,1366); (1369,1418); (1421,1423); (1425,1479); (1488,1514); (1519,1524); (1542,1563);
  (1565,1756); (1758,1805); (1808,1866); (1869,1969); (1984,2042); (2045,2093); (2096,2110);
  (2112,2139); (2142,2142); (2144,2154); (2160,2190); (2200,2273); (2275,2435); (2437,2444);
  (2447,2448); (2451,2472); (2474,2480); (2482,2482); (2486,2489); (2492,2500); (2503,2504);
  (2507,2510); (2519,2519); (2524,2525); (2527,2531); (2534,2558); (2561,2563); (2565,2570);
  (2575,2576); (2579,2600); (2602,2608); (2610,2611); (2613,2614); (2616,2617); (2620,2620);
  (2622,2626); (2631,2632); (2635,2637); (2641,2641); (2649,2652); (2654,2654); (2662,2678);
  (2689,2691); (2693,2701); (2703,2705); (2707,2728); (2730,2736); (2738,2739); (2741,2745);
  (2748,2757); (2759,2761); (2763,2765); (2768,2768); (2784,2787); (2790,2801); (2809,2815);
  (2817,2819); (2821,2828); (2831,2832); (2835,2856); (2858,2864); (2866,2867); (2869,2873);
  (2876,2884); (2887,2888); (2891,2893); (2901,2903); (2908,2909); (2911,2915); (2918,2935);
  (2946,2947); (2949,2954); (2958,2960); (2962,2965); (2969,2970); (2972,2972); (2974,2975);
  (2979,2980); (2984,2986); (2990,3001); (3006,3010); (3014,3016); (3018,3021); (3024,3024);
  (3031,3031); (3046,3066); (3072,3084); (3086,3088); (3090,3112); (3114,3129); (3132,3140);
  (3142,3144); (3146,3149); (3157,3158); (3160,3162); (3165,3165); (3168,3171); (3174,3183);
  (3191,3212); (3214,3216); (3218,3240); (3242,3251); (3253,3257); (3260,3268); (3270,3272);
  (3274,3277); (3285,3286); (3293,3294); (3296,3299); (3302,3311); (3313,3314); (3328,3340);
  (3342,3344); (3346,3396); (3398,3400); (3402,3407); (3412,3427); (3430,3455); (3457,3459);
  (3461,3478); (3482,3505); (3507,3515); (3517,3517); (3520,3526); (3530,3530); (3535,3540);
  (3542,3542); (3544,3551); (3558,3567); (3570,3572); (3585,3642); (3647,3675); (3713,3714);
  (3716,3716); (3718,3722); (3724,3747); (3749,3749); (3751,3773); (3776,3780); (3782,3782);
  (3784,3789); (3792,3801); (3804,3807); (3840,3911); (3913,3948); (3953,3991); (3993,4028);
  (4030,4044); (4046,4058); (4096,4293); (4295,4295); (4301,4301); (4304,4680); (4682,4685);
  (4688,4694); (4696,4696); (4698,4701); (4704,4744); (4746,4749); (4752,4784); (4786,4789);
  (4792,4798); (4800,4800); (4802,4805); (4808,4822); (4824,4880); (4882,4885); (4888,4954);
  (4957,4988); (4992,5017); (5024,5109); (5112,5117); (5120,5759); (5761,5788); (5792,5880);
  (5888,5909); (5919,5942); (5952,5971); (5984,5996); (5998,6000); (6002,6003); (6016,6109);
  (6112,6121); (6128,6137); (6144,6157); (6159,6169); (6176,6264); (6272,6314); (6320,6389);
  (6400,6430); (6432,6443); (6448,6459); (6464,6464); (6468,6509); (6512,6516); (6528,6571);
  (6576,6601); (6608,6618); (6622,6683); (6686,6750); (6752,6780); (6783,6793); (6800,6809);
  (6816,6829); (6832,6862); (6912,6988); (6992,7038); (7040,7155); (7164,7223); (7227,7241);
  (7245,7304); (7312,7354); (7357,7367); (7376,7418); (7424,7957); (7960,7965); (7968,8005);
  (8008,8013); (8016,8023); (8025,8025); (8027,8027); (8029,8029); (8031,8061); (8064,8116);
  (8118,8132); (8134,8147); (8150,8155); (8157,8175); (8178,8180); (8182,8190); (8208,8231);
  (8240,8286); (8304,8305); (8308,8334); (8336,8348); (8352,8384); (8400,8432); (8448,8587);
  (8592,9254); (9280,9290); (9312,11123); (11126,11157); (11159,11507); (11513,11557);
  (11559,11559); (11565,11565); (11568,11623); (11631,11632); (11647,11670); (11680,11686);
  (11688,11694); (11696,11702); (11704,11710); (11712,11718); (11720,11726); (11728,11734);
  (11736,11742); (11744,11869); (11904,11929); (11931,12019); (12032,12245); (12272,12283);
  (12289,12351); (12353,12438); (12441,12543); (12549,12591); (12593,12686); (12688,12771);
  (12784,12830); (12832,42124); (42128,42182); (42192,42539); (42560,42743); (42752,42954);
  (42960,42961); (42963,42963); (42965,42969); (42994,43052); (43056,43065); (43072,43127);
  (43136,43205); (43214,43225); (43232,43347); (43359,43388); (43392,43469); (43471,43481);
  (43486,43518); (43520,43574); (43584,43597); (43600,43609); (43612,43714); (43739,43766);
  (43777,43782); (43785,43790); (43793,43798); (43808,43814); (43816,43822); (43824,43883);
  (43888,44013); (44016,44025); (44032,55203); (55216,55238); (55243,55291); (63744,64109);
  (64112,64217); (64256,64262); (64275,64279); (64285,64310); (64312,64316); (64318,64318);
  (64320,64321); (64323,64324); (64326,64450); (64467,64911); (64914,64967); (64975,64975);
  (65008,65049); (65056,65106); (65108,65126); (65128,65131); (65136,65140); (65142,65276);
  (65281,65470); (65474,65479); (65482,65487); (65490,65495); (65498,65500); (65504,65510);
  (65512,65518); (65532,65533); (65536,65547); (65549,65574); (65576,65594); (65596,65597);
  (65599,65613); (65616,65629); (65664,65786); (65792,65794); (65799,65843); (65847,65934);
  (65936,65948); (65952,65952); (66000,66045); (66176,66204); (66208,66256); (66272,66299);
  (66304,66339); (66349,66378); (66384,66426); (66432,66461); (66463,66499); (66504,66517);
  (66560,66717); (66720,66729); (66736,66771); (66776,66811); (66816,66855); (66864,66915);
  (66927,66938); (66940,66954); (66956,66962); (66964,66965); (66967,66977); (66979,66993);
  (66995,67001); (67003,67004); (67072,67382); (67392,67413); (67424,67431); (67456,67461);
  (67463,67504); (67506,67514); (67584,67589); (67592,67592); (67594,67637); (67639,67640);
  (67644,67644); (67647,67669); (67671,67742); (67751,67759); (67808,67826); (67828,67829);
  (67835,67867); (67871,67897); (67903,67903); (67968,68023); (68028,68047); (68050,68099);
  (68101,68102); (68108,68115); (68117,68119); (68121,68149); (68152,68154); (68159,68168);
  (68176,68184); (68192,68255); (68288,68326); (68331,68342); (68352,68405); (68409,68437);
  (68440,68466); (68472,68497); (68505,68508); (68521,68527); (68608,68680); (68736,68786);
  (68800,68850); (68858,68903); (68912,68921); (69216,69246); (69248,69289); (69291,69293);
  (69296,69297); (69376,69415); (69424,69465); (69488,69513); (69552,69579); (69600,69622);
  (69632,69709); (69714,69749); (69759,69820); (69822,69826); (69840,69864); (69872,69881);
  (69888,69940); (69942,69959); (69968,70006); (70016,70111); (70113,70132); (70144,70161);
  (70163,70206); (70272,70278); (70280,70280); (70282,70285); (70287,70301); (70303,70313);
  (70320,70378); (70384,70393); (70400,70403); (70405,70412); (70415,70416); (70419,70440);
  (70442,70448); (70450,70451); (70453,70457); (70459,70468); (70471,70472); (70475,70477);
  (70480,70480); (70487,70487); (70493,70499); (70502,70508); (70512,70516); (70656,70747);
  (70749,70753); (70784,70855); (70864,70873); (71040,71093); (71096,71133); (71168,71236);
  (71248,71257); (71264,71276); (71296,71353); (71360,71369); (71424,71450); (71453,71467);
  (71472,71494); (71680,71739); (71840,71922); (71935,71942); (71945,71945); (71948,71955);
  (71957,71958); (71960,71989); (71991,71992); (71995,72006); (72016,72025); (72096,72103);
  (72106,72151); (72154,72164); (72192,72263); (72272,72354); (72368,72440); (72704,72712);
  (72714,72758); (72760,72773); (72784,72812); (72816,72847); (72850,72871); (72873,72886);
  (72960,72966); (72968,72969); (72971,73014); (73018,73018); (73020,73021); (73023,73031);
  (73040,73049); (73056,73061); (73063,73064); (73066,73102); (73104,73105); (73107,73112);
  (73120,73129); (73440,73464); (73648,73648); (73664,73713); (73727,74649); (74752,74862);
  (74864,74868); (74880,75075); (77712,77810); (77824,78894); (82944,83526); (92160,92728);
  (92736,92766); (92768,92777); (92782,92862); (92864,92873); (92880,92909); (92912,92917);
  (92928,92997); (93008,93017); (93019,93025); (93027,93047); (93053,93071); (93760,93850);
  (93952,94026); (94031,94087); (94095,94111); (94176,94180); (94192,94193); (94208,100343);
  (100352,101589); (101632,101640); (110576,110579); (110581,110587); (110589,110590);
  (110592,110882); (110928,110930); (110948,110951); (110960,111355); (113664,113770);
  (113776,113788); (113792,113800); (113808,113817); (113820,113823); (118528,118573);
  (118576,118598); (118608,118723); (118784,119029); (119040,119078); (119081,119154);
  (119163,119274); (119296,119365); (119520,119539); (119552,119638); (119648,119672);
  (119808,119892); (119894,119964); (119966,119967); (119970,119970); (119973,119974);
  (119977,119980); (119982,119993); (119995,119995); (119997,120003); (120005,120069);
  (120071,120074); (120077,120084); (120086,120092); (120094,120121); (120123,120126);
  (120128,120132); (120134,120134); (120138,120144); (120146,120485); (120488,120779);
  (120782,121483); (121499,121503); (121505,121519); (122624,122654); (122880,122886);
  (122888,122904); (122907,122913); (122915,122916); (122918,122922); (123136,123180);
  (123184,123197); (123200,123209); (123214,123215); (123536,123566); (123584,123641);
  (123647,123647); (124896,124902); (124904,124907); (124909,124910); (124912,124926);
  (124928,125124); (125127,125142); (125184,125259); (125264,125273); (125278,125279);
  (126065,126132); (126209,126269); (126464,126467); (126469,126495); (126497,126498);
  (126500,126500); (126503,126503); (126505,126514); (126516,126519); (126521,126521);
  (126523,126523); (126530,126530); (126535,126535); (126537,126537); (126539,126539);
  (126541,126543); (126545,126546); (126548,126548); (126551,126551); (126553,126553);
  (126555,126555); (126557,126557); (126559,126559); (126561,126562); (126564,126564);
  (126567,126570); (126572,126578); (126580,126583); (126585,126588); (126590,126590);
  (126592,126601); (126603,126619); (126625,126627); (126629,126633); (126635,126651);
  (126704,126705); (126976,127019); (127024,127123); (127136,127150); (127153,127167);
  (127169,127183); (127185,127221); (127232,127405); (127462,127490); (127504,127547);
  (127552,127560); (127568,127569); (127584,127589); (127744,128727); (128733,128748);
  (128752,128764); (128768,128883); (128896,128984); (128992,129003); (129008,129008);
  (129024,129035); (129040,129095); (129104,129113); (129120,129159); (129168,129197);
  (129200,129201); (129280,129619); (129632,129645); (129648,129652); (129656,129660);
  (129664,129670); (129680,129708); (129712,129722); (129728,129733); (129744,129753);
  (129760,129767); (129776,129782); (129792,129938); (129940,129994); (130032,130041);
  (131072,173791); (173824,177976); (177984,178205); (178208,183969); (183984,191456);
  (194560,195101); (196608,201546); (917760,917999)
  ]%N.

Definition CASE_IGNORABLE : list (N * N) :=
  [
  (39,39); (46,46); (58,58); (94,94); (96,96); (168,168); (173,173); (175,175); (180,180);
  (183,184); (688,879); (884,885); (890,890); (900,901); (903,903); (1155,1161); (1369,1369);
  (1375,1375); (1425,1469); (1471,1471); (1473,1474); (1476,1477); (1479,1479); (1524,1524);
  (1536,1541); (1552,1562); (1564,1564); (1600,1600); (1611,1631); (1648,1648); (1750,1757);
  (1759,1768); (1770,1773); (1807,1807); (1809,1809); (1840,1866); (1958,1968); (2027,2037);
  (2042,2042); (2045,2045); (2070,2093); (2137,2139); (2184,2184); (2192,2193); (2200,2207);
  (2249,2306); (2362,2362); (2364,2364); (2369,2376); (2381,2381); (2385,2391); (2402,2403);
  (2417,2417); (2433,2433); (2492,2492); (2497,2500); (2509,2509); (2530,2531); (2558,2558);
  (2561,2562); (2620,2620); (2625,2626); (2631,2632); (2635,2637); (2641,2641); (2672,2673);
  (2677,2677); (2689,2690); (2748,2748); (2753,2757); (2759,2760); (2765,2765); (2786,2787);
  (2810,2815); (2817,2817); (2876,2876); (2879,2879); (2881,2884); (2893,2893); (2901,2902);
  (2914,2915); (2946,2946); (3008,3008); (3021,3021); (3072,3072); (3076,3076); (3132,3132);
  (3134,3136); (3142,3144); (3146,3149); (3157,3158); (3170,3171); (3201,3201); (3260,3260);
  (3263,3263); (3270,3270); (3276,3277); (3298,3299); (3328,3329); (3387,3388); (3393,3396);
  (3405,3405); (3426,3427); (3457,3457); (3530,3530); (3538,3540); (3542,3542); (3633,3633);
  (3636,3642); (3654,3662); (3761,3761); (3764,3772); (3782,3782); (3784,3789); (3864,3865);
  (3893,3893); (3895,3895); (3897,3897); (3953,3966); (3968,3972); (3974,3975); (3981,3991);
  (3993,4028); (4038,4038); (4141,4144); (4146,4151); (4153,4154); (4157,4158); (4184,4185);
  (4190,4192); (4209,4212); (4226,4226); (4229,4230); (4237,4237); (4253,4253); (4348,4348);
  (4957,4959); (5906,5908); (5938,5939); (5970,5971); (6002,6003); (6068,6069); (6071,6077);
  (6086,6086); (6089,6099); (6103,6103); (6109,6109); (6155,6159); (6211,6211); (6277,6278);
  (6313,6313); (6432,6434); (6439,6440); (6450,6450); (6457,6459); (6679,6680); (6683,6683);
  (6742,6742); (6744,6750); (6752,6752); (6754,6754); (6757,6764); (6771,6780); (6783,6783);
  (6823,6823); (6832,6862); (6912,6915); (6964,6964); (6966,6970); (6972,6972); (6978,6978);
  (7019,7027); (7040,7041); (7074,7077); (7080,7081); (7083,7085); (7142,7142); (7144,7145);
  (7149,7149); (7151,7153); (7212,7219); (7222,7223); (7288,7293); (7376,7378); (7380,7392);
  (7394,7400); (7405,7405); (7412,7412); (7416,7417); (7468,7530); (7544,7544); (7579,7679);
  (8125,8125); (8127,8129); (8141,8143); (8157,8159); (8173,8175); (8189,8190); (8203,8207);
  (8216,8217); (8228,8228); (8231,8231); (8234,8238); (8288,8292); (8294,8303); (8305,8305);
  (8319,8319); (8336,8348); (8400,8432); (11388,11389); (11503,11505); (11631,11631);
  (11647,11647); (11744,11775); (11823,11823); (12293,12293); (12330,12333); (12337,12341);
  (12347,12347); (12441,12446); (12540,12542); (40981,40981); (42232,42237); (42508,42508);
  (42607,42610); (42612,42621); (42623,42623); (42652,42655); (42736,42737); (42752,42785);
  (42864,42864); (42888,42890); (42994,42996); (43000,43001); (43010,43010); (43014,43014);
  (43019,43019); (43045,43046); (43052,43052); (43204,43205); (43232,43249); (43263,43263);
  (43302,43309); (43335,43345); (43392,43394); (43443,43443); (43446,43449); (43452,43453);
  (43471,43471); (43493,43494); (43561,43566); (43569,43570); (43573,43574); (43587,43587);
  (43596,43596); (43632,43632); (43644,43644); (43696,43696); (43698,43700); (43703,43704);
  (43710,43711); (43713,43713); (43741,43741); (43756,43757); (43763,43764); (43766,43766);
  (43867,43871); (43881,43883); (44005,44005); (44008,44008); (44013,44013); (64286,64286);
  (64434,64450); (65024,65039); (65043,65043); (65056,65071); (65106,65106); (65109,65109);
  (65279,65279); (65287,65287); (65294,65294); (65306,65306); (65342,65342); (65344,65344);
  (65392,65392); (65438,65439); (65507,65507); (65529,65531); (66045,66045); (66272,66272);
  (66422,66426); (67456,67461); (67463,67504); (67506,67514); (68097,68099); (68101,68102);
  (68108,68111); (68152,68154); (68159,68159); (68325,68326); (68900,68903); (69291,69292);
  (69446,69456); (69506,69509); (69633,69633); (69688,69702); (69744,69744); (69747,69748);
  (69759,69761); (69811,69814); (69817,69818); (69821,69821); (69826,69826); (69837,69837);
  (69888,69890); (69927,69931); (69933,69940); (70003,70003); (70016,70017); (70070,70078);
  (70089,70092); (70095,70095); (70191,70193); (70196,70196); (70198,70199); (70206,70206);
  (70367,70367); (70371,70378); (70400,70401); (70459,70460); (70464,70464); (70502,70508);
  (70512,70516); (70712,70719); (70722,70724); (70726,70726); (70750,70750); (70835,70840);
  (70842,70842); (70847,70848); (70850,70851); (71090,71093); (71100,71101); (71103,71104);
  (71132,71133); (71219,71226); (71229,71229); (71231,71232); (71339,71339); (71341,71341);
  (71344,71349); (71351,71351); (71453,71455); (71458,71461); (71463,71467); (71727,71735);
  (71737,71738); (71995,71996); (71998,71998); (72003,72003); (72148,72151); (72154,72155);
  (72160,72160); (72193,72202); (72243,72248); (72251,72254); (72263,72263); (72273,72278);
  (72281,72283); (72330,72342); (72344,72345); (72752,72758); (72760,72765); (72767,72767);
  (72850,72871); (72874,72880); (72882,72883); (72885,72886); (73009,73014); (73018,73018);
  (73020,73021); (73023,73029); (73031,73031); (73104,73105); (73109,73109); (73111,73111);
  (73459,73460); (78896,78904); (92912,92916); (92976,92982); (92992,92995); (94031,94031);
  (94095,94111); (94176,94177); (94179,94180); (110576,110579); (110581,110587); (110589,110590);
  (113821,113822); (113824,113827); (118528,118573); (118576,118598); (119143,119145);
  (119155,119170); (119173,119179); (119210,119213); (119362,119364); (121344,121398);
  (121403,121452); (121461,121461); (121476,121476); (121499,121503); (121505,121519);
  (122880,122886); (122888,122904); (122907,122913); (122915,122916); (122918,122922);
  (123184,123197); (123566,123566); (123628,123631); (125136,125142); (125252,125259);
  (127995,127999); (917505,917505); (917536,917631); (917760,917999)
  ]%N.

Definition CASED : list (N * N) :=
  [
  (65,90); (97,122); (170,170); (181,181); (186,186); (192,214); (216,246); (248,442); (444,447);
  (452,659); (661,687); (880,883); (886,887); (891,893); (895,895); (902,902); (904,906);
  (908,908); (910,929); (931,1013); (1015,1153); (1162,1327); (1329,1366); (1376,1416);
  (4256,4293); (4295,4295); (4301,4301); (4304,4346); (4349,4351); (5024,5109); (5112,5117);
  (7296,7304); (7312,7354); (7357,7359); (7424,7467); (7531,7543); (7545,7578); (7680,7957);
  (7960,7965); (7968,8005); (8008,8013); (8016,8023); (8025,8025); (8027,8027); (8029,8029);
  (8031,8061); (8064,8116); (8118,8124); (8126,8126); (8130,8132); (8134,8140); (8144,8147);
  (8150,8155); (8160,8172); (8178,8180); (8182,8188); (8450,8450); (8455,8455); (8458,8467);
  (8469,8469); (8473,8477); (8484,8484); (8486,8486); (8488,8488); (8490,8493); (8495,8500);
  (8505,8505); (8508,8511); (8517,8521); (8526,8526); (8544,8575); (8579,8580); (9398,9449);
  (11264,11387); (11390,11492); (11499,11502); (11506,11507); (11520,11557); (11559,11559);
  (11565,11565); (42560,42605); (42624,42651); (42786,42863); (42865,42887); (42891,42894);
  (42896,42954); (42960,42961); (42963,42963); (42965,42969); (42997,42998); (43002,43002);
  (43824,43866); (43872,43880); (43888,43967); (64256,64262); (64275,64279); (65313,65338);
  (65345,65370); (66560,66639); (66736,66771); (66776,66811); (66928,66938); (66940,66954);
  (66956,66962); (66964,66965); (66967,66977); (66979,66993); (66995,67001); (67003,67004);
  (68736,68786); (68800,68850); (71840,71903); (93760,93823); (119808,119892); (119894,119964);
  (119966,119967); (119970,119970); (119973,119974); (119977,119980); (119982,119993);
  (119995,119995); (119997,120003); (120005,120069); (120071,120074); (120077,120084);
  (120086,120092); (120094,120121); (120123,120126); (120128,120132); (120134,120134);
  (120138,120144); (120146,120485); (120488,120512); (120514,120538); (120540,120570);
  (120572,120596); (120598,120628); (120630,120654); (120656,120686); (120688,120712);
  (120714,120744); (120746,120770); (120772,120779); (122624,122633); (122635,122654);
  (125184,125251); (127280,127305); (127312,127337); (127344,127369)
  ]%N.

Definition LOWER : list (N * N * N * N) :=
  [
  (65,90,1,97); (192,214,1,224); (216,222,1,248); (256,302,2,257); (306,310,2,307);
  (313,327,2,314); (330,374,2,331); (376,376,1,255); (377,381,2,378); (385,385,1,595);
  (386,388,2,387); (390,390,1,596); (391,391,1,392); (393,394,1,598); (395,395,1,396);
  (398,398,1,477); (399,399,1,601); (400,400,1,603); (401,401,1,402); (403,403,1,608);
  (404,404,1,611); (406,406,1,617); (407,407,1,616); (408,408,1,409); (412,412,1,623);
  (413,413,1,626); (415,415,1,629); (416,420,2,417); (422,422,1,640); (423,423,1,424);
  (425,425,1,643); (428,428,1,429); (430,430,1,648); (431,431,1,432); (433,434,1,650);
  (435,437,2,436); (439,439,1,658); (440,440,1,441); (444,444,1,445); (452,452,1,454);
  (453,453,1,454); (455,455,1,457); (456,456,1,457); (458,458,1,460); (459,475,2,460);
  (478,494,2,479); (497,497,1,499); (498,500,2,499); (502,502,1,405); (503,503,1,447);
  (504,542,2,505); (544,544,1,414); (546,562,2,547); (570,570,1,11365); (571,571,1,572);
  (573,573,1,410); (574,574,1,11366); (577,577,1,578); (579,579,1,384); (580,580,1,649);
  (581,581,1,652); (582,590,2,583); (880,882,2,881); (886,886,1,887); (895,895,1,1011);
  (902,902,1,940); (904,906,1,941); (908,908,1,972); (910,911,1,973); (913,929,1,945);
  (931,939,1,963); (975,975,1,983); (984,1006,2,985); (1012,1012,1,952); (1015,1015,1,1016);
  (1017,1017,1,1010); (1018,1018,1,1019); (1021,1023,1,891); (1024,1039,1,1104);
  (1040,1071,1,1072); (1120,1152,2,1121); (1162,1214,2,1163); (1216,1216,1,1231);
  (1217,1229,2,1218); (1232,1326,2,1233); (1329,1366,1,1377); (4256,4293,1,11520);
  (4295,4295,1,11559); (4301,4301,1,11565); (5024,5103,1,43888); (5104,5109,1,5112);
  (7312,7354,1,4304); (7357,7359,1,4349); (7680,7828,2,7681); (7838,7838,1,223);
  (7840,7934,2,7841); (7944,7951,1,7936); (7960,7965,1,7952); (7976,7983,1,7968);
  (7992,7999,1,7984); (8008,8013,1,8000); (8025,8031,2,8017); (8040,8047,1,8032);
  (8072,8079,1,8064); (8088,8095,1,8080); (8104,8111,1,8096); (8120,8121,1,8112);
  (8122,8123,1,8048); (8124,8124,1,8115); (8136,8139,1,8050); (8140,8140,1,8131);
  (8152,8153,1,8144); (8154,8155,1,8054); (8168,8169,1,8160); (8170,8171,1,8058);
  (8172,8172,1,8165); (8184,8185,1,8056); (8186,8187,1,8060); (8188,8188,1,8179);
  (8486,8486,1,969); (8490,8490,1,107); (8491,8491,1,229); (8498,8498,1,8526); (8544,8559,1,8560);
  (8579,8579,1,8580); (9398,9423,1,9424); (11264,11311,1,11312); (11360,11360,1,11361);
  (11362,11362,1,619); (11363,11363,1,7549); (11364,11364,1,637); (11367,11371,2,11368);
  (11373,11373,1,593); (11374,11374,1,625); (11375,11375,1,592); (11376,11376,1,594);
  (11378,11378,1,11379); (11381,11381,1,11382); (11390,11391,1,575); (11392,11490,2,11393);
  (11499,11501,2,11500); (11506,11506,1,11507); (42560,42604,2,42561); (42624,42650,2,42625);
  (42786,42798,2,42787); (42802,42862,2,42803); (42873,42875,2,42874); (42877,42877,1,7545);
  (42878,42886,2,42879); (42891,42891,1,42892); (42893,42893,1,613); (42896,42898,2,42897);
  (42902,42920,2,42903); (42922,42922,1,614); (42923,42923,1,604); (42924,42924,1,609);
  (42925,42925,1,620); (42926,42926,1,618); (42928,42928,1,670); (42929,42929,1,647);
  (42930,42930,1,669); (42931,42931,1,43859); (42932,42946,2,42933); (42948,42948,1,42900);
  (42949,42949,1,642); (42950,42950,1,7566); (42951,42953,2,42952); (42960,42960,1,42961);
  (42966,42968,2,42967); (42997,42997,1,42998); (65313,65338,1,65345); (66560,66599,1,66600);
  (66736,66771,1,66776); (66928,66938,1,66967); (66940,66954,1,66979); (66956,66962,1,66995);
  (66964,66965,1,67003); (68736,68786,1,68800); (71840,71871,1,71872); (93760,93791,1,93792);
  (125184,125217,1,125218)
  ]%N.


(** [str.isspace] on one character, which is also the regex class [\s]
    and what [str.strip()] removes. *)
Definition is_space (c : char) : bool := in_ranges c SPACE.

(** The characters [str.splitlines] breaks at: LF, VT, FF, CR, FS, GS, RS,
    NEL, LINE SEPARATOR and PARAGRAPH SEPARATOR. *)
Definition is_linebreak (c : char) : bool := in_ranges c LINEBREAK.

(** [str.isalnum] on one character. *)
Definition is_alnum (c : char) : bool := in_ranges c ALNUM.

(** The regex class [\w] for a [str] pattern: alphanumeric or underscore. *)
Definition is_word (c : char) : bool := is_alnum c || char_eqb c "_".

(** [str.isprintable] on one character. *)
Definition is_printable (c : char) : bool := in_ranges c PRINTABLE.

(** The two properties the final-sigma rule of [str.lower] looks at. The
    rule skips the case-ignorable characters before it asks whether a
    character is cased, so [is_cased] is only ever asked about characters
    that are not case-ignorable, and [CASED] lists those. *)
Definition is_case_ignorable (c : char) : bool := in_ranges c CASE_IGNORABLE.
Definition is_cased (c : char) : bool := in_ranges c CASED.

(** The lower case of one character away from any context: one character,
    except for U+0130, whose lower case is [i] and a combining dot. *)
Definition lower_full (c : char) : string :=
  if N.eqb c 304 then String 105%N (String 775%N EmptyString)
  else String (match mapped c LOWER with Some t => t | None => c end) EmptyString.

(** What follows a capital sigma: the case-ignorable characters are skipped,
    and the sigma is not final when a cased character comes next. *)
Fixpoint followed_by_cased (s : string) : bool :=
  match s with
  | EmptyString => false
  | String c r => if is_case_ignorable c then followed_by_cased r else is_cased c
  end.

(** [str.lower]: every character gives its lower case, and a capital sigma
    (U+03A3) gives the final sigma (U+03C2) when a cased character stands
    before it, case-ignorable characters apart, and none after it, and the
    small sigma (U+03C3) otherwise. [after_cased] says that the last
    character before this one that is not case-ignorable is cased. *)
Fixpoint lower_from (after_cased : bool) (s : string) : string :=
  match s with
  | EmptyString => EmptyString
  | String c r =>
      (if N.eqb c 931
       then String (if after_cased && negb (followed_by_cased r) then 962%N else 963%N)
                   EmptyString
       else lower_full c)
      ++ lower_from (if is_case_ignorable c then after_cased else is_cased c) r
  end.

Definition lower (s : string) : string := lower_from false s.

(** [s.startswith(p)] *)
Fixpoint startswith (s p : string) {struct p} : bool :=
  match p with
  | EmptyString => true
  | String pc pr =>
      match s with
      | EmptyString => false
      | String sc sr => char_eqb sc pc && startswith sr pr
      end
  end.

(** [s[n:]] *)
Fixpoint drop (n : nat) (s : string) : string :=
  match n, s with
  | O, _ => s
  | S _, EmptyString => EmptyString
  | S k, String _ r => drop k r
  end.

Definition is_empty (s : string) : bool :=
  match s with EmptyString => true | _ => false end.

Definition head (s : string) : option char :=
  match s with EmptyString => None | String c _ => Some c end.

(** The characters removed from the left end while [p] holds. *)
Fixpoint lstrip_by (p : char -> bool) (s : string) : string :=
  match s with
  | EmptyString => EmptyString
  | String c r => if p c then lstrip_by p r else s
  end.

(** The characters removed from the right end while [p] holds: the tail is
    stripped first, and the head goes too when nothing is left after it. *)
Fixpoint rstrip_by (p : char -> bool) (s : string) : string :=
  match s with
  | EmptyString => EmptyString
  | String c r =>
      let r' := rstrip_by p r in
      if p c && is_empty r' then EmptyString else String c r'
  end.

(** [s.strip()] *)
Definition strip (s : string) : string := rstrip_by is_space (lstrip_by is_space s).

Definition is_semicolon (c : char) : bool := char_eqb c ";".

(** [s.rstrip(';')] *)
Definition rstrip_semicolon (s : string) : string := rstrip_by is_semicolon s.

(** [sub in s] for a non-empty needle, as a scan over the start positions. *)
Fixpoint contains (sub s : string) : bool :=
  startswith s sub ||
  match s with
  | EmptyString => false
  | String _ r => contains sub r
  end.

(** The regex assertion [\b] between two neighbouring positions: exactly one
    side is a word character; outside the string counts as a non-word
    character. *)
Definition is_word_opt (o : option char) : bool :=
  match o with Some c => is_word c | None => false end.

Definition word_boundary (prev next : option char) : bool :=
  xorb (is_word_opt prev) (is_word_opt next).

Definition is_lower_letter (k : char) : bool := N.leb 97 k && N.leb k 122.

(** One literal character [p] of a pattern compiled with [re.IGNORECASE]
    against the character [c] of the text, for the pattern characters of
    this program, which are ASCII and, when letters, lower case. A character
    that is no letter matches itself only. A letter matches itself and its
    capital, and three letters match more: [s] the long s (U+017F), [i] the
    dotted capital (U+0130) and the dotless small i (U+0131), [k] the Kelvin
    sign (U+212A). *)
Definition ci_match (c p : char) : bool :=
  char_eqb c p
  || (is_lower_letter p
      && (char_eqb c (p - 32)%N
          || (char_eqb p "s" && char_eqb c 383%N)
          || (char_eqb p "i" && (char_eqb c 304%N || char_eqb c 305%N))
          || (char_eqb p "k" && char_eqb c 8490%N))).

(** A character of the text against a character of a lower-case text after
    [str.lower]: the lower case of the one is the other. *)
Definition lower_match (c p : char) : bool :=
  string_eqb (lower_full c) (String p EmptyString).

(** A literal tried at the start of [s], character by character under the
    comparison [m]. *)
Fixpoint startswith_by (m : char -> char -> bool) (s p : string) {struct p} : bool :=
  match p with
  | EmptyString => true
  | String pc pr =>
      match s with
      | EmptyString => false
      | String sc sr => m sc pc && startswith_by m sr pr
      end
  end.

(** A literal of a pattern compiled with [re.IGNORECASE], tried at the start
    of [s]. *)
Abbreviation startswith_ci := (startswith_by ci_match).

(** [sep.join(parts)] *)
Fixpoint join (sep : string) (parts : list string) : string :=
  match parts with
  | [] => EmptyString
  | [p] => p
  | p :: rest => p ++ sep ++ join sep rest
  end.

End PyStr.
Import PyStr.
Local Open Scope pystr_scope.
(** ** The safety gate *)

(** The keyword alternatives of [DENY_PATTERN], in the pattern's order. *)
Definition DENY_KEYWORDS : list string :=
  [ "insert"; "update"; "delete"; "drop"; "truncate"; "alter"; "create";
    "grant"; "revoke"; "replace"; "exec"; "call"; "copy"; "vacuum" ].

(** One keyword alternative of [\b(...)\b] tried at a position: the
    character before it is [prev], the text from the position on is [s]. *)
Definition keyword_at (prev : option char) (s : string) (kw : string) : bool :=
  word_boundary prev (head s)
  && startswith_ci s kw
  && word_boundary (head (drop (pred (strlen kw)) s))
                   (head (drop (strlen kw) s)).

(** [DENY_PATTERN] tried at one position: [;], then [--], then the keyword
    group between two word boundaries. *)
Definition deny_at (prev : option char) (s : string) : bool :=
  startswith s ";" || startswith s "--" || existsb (keyword_at prev s) DENY_KEYWORDS.

(** [DENY_PATTERN.search(s)] as a truth value: the pattern is tried at every
    position from left to right, the end of the text included. *)
Fixpoint deny_scan (prev : option char) (s : string) : bool :=
  deny_at prev s ||
  match s with
  | EmptyString => false
  | String c r => deny_scan (Some c) r
  end.

Definition DENY_PATTERN_search (s : string) : bool := deny_scan None s.

(** The candidate the gate checks: [sql_text.strip()], then
    [.rstrip(';').strip()]. *)
Definition gate_candidate (sql_text : string) : string :=
  strip (rstrip_semicolon (strip sql_text)).

Definition is_sql_safe (sql_text : string) : bool :=
  if is_empty sql_text then false
  else
    let s := gate_candidate sql_text in
    if negb (startswith (lower s) "select") then false
    else if DENY_PATTERN_search s then false
    else if contains ";" s then false
    else true.

(** ** The extractor *)

(** Line 44, [re.sub] of the pattern [^```(?:sql)?\s*] by the empty string
    under [re.IGNORECASE]: the pattern is
    anchored at the start of the text, so there is at most one match; the
    optional tag and the white space after it are taken greedily. *)
Definition sub_opening_fence (t : string) : string :=
  if startswith t "```" then
    let r := drop 3 t in
    let r := if startswith_ci r "sql" then drop 3 r else r in
    lstrip_by is_space r
  else t.

(** The assertion [$] without [re.MULTILINE]: at the end of the text, or
    just before a line feed that is the last character. *)
Definition at_dollar (rest : string) : bool :=
  match rest with
  | EmptyString => true
  | String c EmptyString => char_eqb c "010"
  | _ => false
  end.

(** The three backquotes and [$] of the closing-fence pattern tried at the
    start of [t]; the length of the match. *)
Definition fence_end (t : string) : option nat :=
  if startswith t "```" && at_dollar (drop 3 t) then Some 3 else None.

(** [\s*```$] tried at the start of [t]: the white-space run is consumed
    whole (a shorter run would leave a white-space character where the first
    backquote has to be); the length of the match. *)
Fixpoint closing_fence_len (t : string) : option nat :=
  match t with
  | EmptyString => None
  | String c r =>
      if is_space c then
        match closing_fence_len r with
        | Some n => Some (S n)
        | None => None
        end
      else fence_end t
  end.

(** [re.sub] with an empty replacement: the text is scanned from the left,
    every match is dropped and the scan goes on after it; [skip] counts the
    characters of the current match still to drop. *)
Fixpoint sub_closing_fence_from (skip : nat) (t : string) : string :=
  match t with
  | EmptyString => EmptyString
  | String c r =>
      match skip with
      | S k => sub_closing_fence_from k r
      | O =>
          match closing_fence_len t with
          | Some (S k) => sub_closing_fence_from k r
          | _ => String c (sub_closing_fence_from 0 r)
          end
      end
  end.

(** Line 45, [re.sub] of the pattern [\s*```$] by the empty string. *)
Definition sub_closing_fence (t : string) : string := sub_closing_fence_from 0 t.

(** Lines 44-45: both substitutions, then [.strip()]. *)
Definition strip_fences (t : string) : string :=
  strip (sub_closing_fence (sub_opening_fence t)).

(** Line 47: [t.rstrip(';').strip()]. *)
Definition strip_terminator (t : string) : string := strip (rstrip_semicolon t).

(** Line 49, [re.search] under [re.IGNORECASE | re.DOTALL] of one group
    made of the keyword [select], the assertion [\b] and any characters: the
    leftmost position where the keyword and the boundary after it match;
    with [re.DOTALL] the group runs to the end of the text. *)
Fixpoint search_select (t : string) : option string :=
  if startswith_ci t "select" && word_boundary (head (drop 5 t)) (head (drop 6 t))
  then Some t
  else
    match t with
    | EmptyString => None
    | String _ r => search_select r
    end.

(** Line 50: [m.group(1).strip() if m else t]. *)
Definition select_anchor (t : string) : string :=
  match search_select t with
  | Some g => strip g
  | None => t
  end.

(** [str.splitlines()]: a line ends at each break, CR LF is one break
    ([after_cr] says that the previous character was a CR that ended a line),
    and a last line is kept only when it has characters. *)
Fixpoint splitlines_from (after_cr : bool) (s : string) : list string :=
  match s with
  | EmptyString => []
  | String c r =>
      if after_cr && char_eqb c "010" then splitlines_from false r
      else if is_linebreak c then EmptyString :: splitlines_from (char_eqb c "013") r
      else
        match splitlines_from false r with
        | [] => [String c EmptyString]
        | l :: ls => String c l :: ls
        end
  end.

Definition splitlines (s : string) : list string := splitlines_from false s.

(** Line 52: the lines of [candidate.splitlines()] whose [strip()] is not
    empty, each stripped, joined by one space. *)
Definition collapse_lines (candidate : string) : string :=
  join " " (map strip (filter (fun line => negb (is_empty (strip line))) (splitlines candidate))).

Definition clean_sql_from_model (text : string) : string :=
  if is_empty text then EmptyString
  else
    let t := strip text in
    let t := strip_fences t in
    let t := strip_terminator t in
    let candidate := select_anchor t in
    collapse_lines candidate.

(** A fenced code block around [body]: the opening fence with its tag, a
    line break, the body, a line break, the closing fence. *)
Definition fenced (tag body : string) : string :=
  "```" ++ tag ++ String "010" body ++ String "010" "```".

(** The end of a fenced block: a line break and the closing fence. *)
Definition closing_fence : string := String "010" "```".

(** The tags the opening-fence pattern knows: none, or [sql] in any case. *)
Definition fence_tag (tag : string) : Prop := tag = EmptyString \/ lower tag = "sql".

(** ** Exceptions and JSON values *)

(** A Python exception: the name of its class and [str(e)]. *)
Record exn := Exn { exn_class : string; exn_str : string }.

Inductive result (A : Type) : Type :=
| Ok (a : A)
| Raise (e : exn).
Arguments Ok {A} a.
Arguments Raise {A} e.

Definition bind {A B : Type} (r : result A) (k : A -> result B) : result B :=
  match r with
  | Ok a => k a
  | Raise e => Raise e
  end.

(** [try: r except Exception: handler] *)
Definition try_except {A : Type} (r : result A) (handler : exn -> result A) : result A :=
  match r with
  | Ok a => Ok a
  | Raise e => handler e
  end.

Notation "x <- r ;; k" := (bind r (fun x => k))
  (at level 61, r at next level, right associativity).

Set Warnings "-register-all".

(** What [json.loads] builds: [None], [bool], [int], [float], [str], [list]
    and [dict] with string keys (the items of the dict, one per key). *)
Inductive json : Type :=
| JNull
| JBool (b : bool)
| JInt (n : Z)
| JFloat (f : float)
| JStr (s : string)
| JArr (items : list json)
| JObj (fields : list (string * json)).

Fixpoint lookup_field (k : string) (fields : list (string * json)) : option json :=
  match fields with
  | [] => None
  | (k', v) :: rest => if string_eqb k k' then Some v else lookup_field k rest
  end.

(** [v[k]] for a string key [k]: only a dict can answer; a list, a string
    and the scalars raise [TypeError]. *)
Definition getitem_key (v : json) (k : string) : result json :=
  match v with
  | JObj fields =>
      match lookup_field k fields with
      | Some x => Ok x
      | None => Raise (Exn "KeyError" k)
      end
  | _ => Raise (Exn "TypeError" "indices must be integers or the object is not subscriptable")
  end.

(** [v[0]]: the first item of a list, the first character of a string; a
    dict decoded from JSON has no key [0]. *)
Definition getitem_0 (v : json) : result json :=
  match v with
  | JArr (x :: _) => Ok x
  | JArr [] => Raise (Exn "IndexError" "list index out of range")
  | JStr (String c _) => Ok (JStr (String c EmptyString))
  | JStr EmptyString => Raise (Exn "IndexError" "string index out of range")
  | JObj _ => Raise (Exn "KeyError" "0")
  | _ => Raise (Exn "TypeError" "object is not subscriptable")
  end.

(** Python truthiness of a decoded value. *)
Definition truthy (v : json) : bool :=
  match v with
  | JNull => false
  | JBool b => b
  | JInt n => negb (Z.eqb n 0)
  | JFloat f => negb (PrimFloat.eqb f 0%float)
  | JStr s => negb (is_empty s)
  | JArr items => match items with [] => false | _ => true end
  | JObj fields => match fields with [] => false | _ => true end
  end.

(** ** The model client *)

Definition LM_CHAT_MODEL : string := "qwen2.5-1.5b-instruct".

Record Payload := {
  p_model : string;
  p_content : string;
  p_temperature : float;
  p_max_tokens : Z
}.

(** What [requests.post] does: it raises (connection refused, timeout), or
    it returns a response with a status code and a body that [r.json()]
    decodes or rejects. *)
Inductive http_reply : Type :=
| TransportFailure (e : exn)
| HttpResponse (status_code : Z) (body : result json).

(** [r.raise_for_status()] of the requests library: [HTTPError] for the
    status codes 400 to 599. *)
Definition raise_for_status (status_code : Z) : result unit :=
  if (Z.leb 400 status_code && Z.ltb status_code 600)%bool
  then Raise (Exn "HTTPError" "client or server error")
  else Ok tt.

(** [data["choices"][0]["message"]["content"]] *)
Definition chat_content (data : json) : result json :=
  c <- getitem_key data "choices" ;;
  c0 <- getitem_0 c ;;
  m <- getitem_key c0 "message" ;;
  getitem_key m "content".

(** [data["choices"][0]["text"]] *)
Definition flat_text (data : json) : result json :=
  c <- getitem_key data "choices" ;;
  c0 <- getitem_0 c ;;
  getitem_key c0 "text".

Definition call_lmstudio_chat (post : Payload -> http_reply) (prompt : string)
    (max_tokens : Z) (temperature : float) : result json :=
  let payload := {| p_model := LM_CHAT_MODEL; p_content := prompt;
                    p_temperature := temperature; p_max_tokens := max_tokens |} in
  match post payload with
  | TransportFailure e => Raise e
  | HttpResponse status_code body =>
      _ <- raise_for_status status_code ;;
      data <- body ;;
      try_except (chat_content data) (fun _ => flat_text data)
  end.

(** ** Schema and prompt *)

(** A DataFrame: the columns with the name of their dtype, and the rows. *)
Record Dataset := {
  columns : list (string * string);
  rows : list (list string)
}.

(** [df.dtypes.astype(str).to_dict()] and [types[col]]: in a dict the last
    item of a key wins. *)
Fixpoint dtype_of (col : string) (cols : list (string * string)) : string :=
  match cols with
  | [] => EmptyString
  | (c, ty) :: rest =>
      if existsb (fun p => string_eqb col (fst p)) rest then dtype_of col rest
      else if string_eqb col c then ty else EmptyString
  end.

Definition get_schema_hint (df : Dataset) : string :=
  let cols := join ", " (map (fun col => col ++ " (" ++ dtype_of col (columns df) ++ ")")
                             (map fst (columns df))) in
  "data(" ++ cols ++ ")".

Definition hex_digit (n : N) : char :=
  if N.ltb n 10 then (48 + n)%N else (87 + n)%N.

(** The last [n] hexadecimal digits of [v], lower case. *)
Fixpoint hex_digits (n : nat) (v : N) : string :=
  match n with
  | O => EmptyString
  | S k => hex_digits k (N.div v 16) ++ String (hex_digit (N.modulo v 16)) EmptyString
  end.

(** One character of [repr(s)] for the chosen quote: the quote and the
    backslash get a backslash, TAB, LF and CR their letter, the other
    characters that are not printable an escape of two, four or eight
    hexadecimal digits by their size. *)
Definition repr_char (quote c : char) : string :=
  if char_eqb c quote || char_eqb c "092" then String "092" (String c EmptyString)
  else if char_eqb c "009" then String "092" "t"
  else if char_eqb c "010" then String "092" "n"
  else if char_eqb c "013" then String "092" "r"
  else if is_printable c then String c EmptyString
  else if N.ltb c 256 then String "092" (String "x" (hex_digits 2 c))
  else if N.ltb c 65536 then String "092" (String "u" (hex_digits 4 c))
  else String "092" (String "U" (hex_digits 8 c)).

Fixpoint repr_body (quote : char) (s : string) : string :=
  match s with
  | EmptyString => EmptyString
  | String c r => repr_char quote c ++ repr_body quote r
  end.

(** [repr(s)]: single quotes, unless the text has a single quote and no
    double quote. *)
Definition repr (s : string) : string :=
  let quote : char :=
    if contains "'" s && negb (contains (String "034" EmptyString) s)
    then "034"%char else "'"%char in
  String quote (repr_body quote s ++ String quote EmptyString).

Definition nl : string := String "010" EmptyString.

(** The f-string of lines 126-132. *)
Definition build_prompt (schema_hint user_q : string) : string :=
  "You are an SQL writer for a single table named 'data' in PostgreSQL/DuckDB. Convert the user's request into ONE valid SELECT SQL statement only. Use only this table. Return only the SELECT statement (no explanation, no trailing semicolon)."
  ++ nl ++ nl ++ "Schema: " ++ schema_hint
  ++ nl ++ nl ++ "User request: " ++ repr user_q
  ++ nl ++ "SQL:" ++ nl.

(** ** The query executor *)

(** The DuckDB calls the executor makes, each of which may raise:
    [duckdb.connect()], [con.register('data', df)] and
    [con.execute(sql_text).df()]. *)
Record Engine := {
  duckdb_connect : option exn;
  con_register : Dataset -> option exn;
  con_execute : Dataset -> string -> result Dataset
}.

(** The connections of the process: the handle the next [connect] returns
    and the handles that are open. *)
Record Db := {
  next_handle : nat;
  open_handles : list nat
}.

Definition db_connect (db : Db) : nat * Db :=
  (next_handle db,
   {| next_handle := S (next_handle db);
      open_handles := next_handle db :: open_handles db |}).

Definition db_close (con : nat) (db : Db) : Db :=
  {| next_handle := next_handle db;
     open_handles := filter (fun h => negb (Nat.eqb h con)) (open_handles db) |}.

(** [execute_sql_on_df]: the whole body is one [try]; [con.close()] is its
    fourth statement, and the [except] branch only builds the error pair. *)
Definition execute_sql_on_df (eng : Engine) (df : Dataset) (sql_text : string)
    (db : Db) : Db * (option Dataset * option string) :=
  match duckdb_connect eng with
  | Some e => (db, (None, Some (exn_str e)))
  | None =>
      let (con, db1) := db_connect db in
      match con_register eng df with
      | Some e => (db1, (None, Some (exn_str e)))
      | None =>
          match con_execute eng df sql_text with
          | Raise e => (db1, (None, Some (exn_str e)))
          | Ok result_df => (db_close con db1, (Some result_df, None))
          end
      end
  end.

(** ** The Streamlit script: one submission and the history *)

Record LogEntry := {
  id : nat;
  user_query : string;
  generated_sql : string;
  executed : bool;
  error_text : option string;
  created_at : string
}.

(** What one run of the script sees of the outside: the completion service,
    the SQL engine and the clock. *)
Record Env := {
  post : Payload -> http_reply;
  engine : Engine;
  now : string
}.

(** [st.session_state.history] and the connections of the process. *)
Record Session := {
  history : list LogEntry;
  db : Db
}.

Inductive Event : Type :=
| EvWarning (msg : string)
| EvWrite (user_q : string)
| EvModelCall (prompt : string)
| EvCode (sql : string)
| EvError (msg : string)
| EvInfo (msg : string)
| EvSuccess (msg : string)
| EvDataframe (result_df : Dataset).

(** [clean_sql_from_model(lm_out)] on what the client returned: a falsy
    value gives the empty string before any method is called, a string is
    cleaned, and any other value has no [strip]. *)
Definition clean_lm_out (lm_out : json) : result string :=
  if negb (truthy lm_out) then Ok EmptyString
  else
    match lm_out with
    | JStr text => Ok (clean_sql_from_model text)
    | _ => Raise (Exn "AttributeError" "object has no attribute 'strip'")
    end.

(** Python truthiness of [err] in [if err:]. *)
Definition err_truthy (err : option string) : bool :=
  match err with
  | Some msg => negb (is_empty msg)
  | None => false
  end.

(** Lines 118-169: the button handler, with [st.stop()] ending the run. *)
Definition submit (env : Env) (df : Dataset) (user_input : string)
    (st : Session) : Session * list Event :=
  if is_empty (strip user_input) then (st, [EvWarning "Please enter a query."])
  else
    let user_q := strip user_input in
    let prompt := build_prompt (get_schema_hint df) user_q in
    let ev0 := [EvWrite user_q; EvModelCall prompt] in
    match (lm_out <- call_lmstudio_chat (post env) prompt 256 0%float ;;
           clean_lm_out lm_out) with
    | Raise e => (st, (ev0 ++ [EvError ("LM Studio error: " ++ exn_str e)])%list)
    | Ok sql_candidate =>
        let ev1 := (ev0 ++ [EvCode sql_candidate])%list in
        if negb (is_sql_safe sql_candidate)
        then (st, (ev1 ++ [EvError "Generated SQL failed safety checks."])%list)
        else
          let '(db', (result_df, err)) :=
            execute_sql_on_df (engine env) df sql_candidate (db st) in
          let ev2 :=
            if err_truthy err
            then [EvError ("SQL execution error: " ++ match err with Some m => m | None => EmptyString end)]
            else ([EvSuccess "Query executed successfully."]
                  ++ match result_df with Some r => [EvDataframe r] | None => [] end)%list in
          let log_entry :=
            {| id := List.length (history st) + 1;
               user_query := user_q;
               generated_sql := sql_candidate;
               executed := match err with None => true | Some _ => false end;
               error_text := err;
               created_at := now env |} in
          ({| history := (history st ++ [log_entry])%list; db := db' |},
           (ev1 ++ [EvInfo "Executing SQL on your data..."] ++ ev2
                ++ [EvSuccess "Query logged to history."])%list)
    end.

Record Submission := {
  sub_env : Env;
  sub_df : Dataset;
  sub_input : string
}.

(** Lines 97-98 and the reruns of the script: the history starts empty and
    every click of the button runs [submit] on the session it finds. *)
Definition new_session : Session :=
  {| history := []; db := {| next_handle := 0; open_handles := [] |} |}.

Fixpoint run_from (st : Session) (subs : list Submission) : Session :=
  match subs with
  | [] => st
  | s :: rest => run_from (fst (submit (sub_env s) (sub_df s) (sub_input s) st)) rest
  end.

Definition run (subs : list Submission) : Session := run_from new_session subs.

(** The prompt a run of the script sent to the model, if it sent one. *)
Fixpoint prompt_sent (evs : list Event) : option string :=
  match evs with
  | [] => None
  | EvModelCall p :: _ => Some p
  | _ :: rest => prompt_sent rest
  end.

(** ** Vocabulary of the specification *)

Fixpoint all_chars (p : char -> bool) (s : string) : bool :=
  match s with
  | EmptyString => true
  | String c r => p c && all_chars p r
  end.

Fixpoint last_char (s : string) : option char :=
  match s with
  | EmptyString => None
  | String c r => match r with EmptyString => Some c | _ => last_char r end
  end.

(** [s.endswith(suf)], as a scan over the tails of [s]. *)
Fixpoint endswith (s suf : string) : bool :=
  string_eqb s suf ||
  match s with
  | EmptyString => false
  | String _ r => endswith r suf
  end.

(** [sub] occurs in [s]. *)
Definition occurs (sub s : string) : Prop :=
  exists pre post, s = pre ++ sub ++ post.

(** [s] begins with a case variant of [kw]. *)
Definition begins_with_variant (kw s : string) : Prop :=
  exists v rest, s = v ++ rest /\ lower v = kw.

(** [s] has a case variant of [kw] as a whole word: no word character
    stands right before it or right after it. *)
Definition whole_word (kw s : string) : Prop :=
  exists pre w post,
    s = pre ++ w ++ post /\ lower w = kw
    /\ is_word_opt (last_char pre) = false
    /\ is_word_opt (head post) = false.

(** [w] is [kw] for the comparison [m], character by character. *)
Fixpoint matches_by (m : char -> char -> bool) (w kw : string) : bool :=
  match w, kw with
  | EmptyString, EmptyString => true
  | String c r, String k t => m c k && matches_by m r t
  | _, _ => false
  end.

(** [s] begins with [kw] as the pattern's case-insensitive matching takes
    it, and [s] has [kw] as a whole word in that sense. *)
Definition begins_with_ci (kw s : string) : Prop :=
  exists v rest, s = v ++ rest /\ matches_by ci_match v kw = true.

Definition whole_word_ci (kw s : string) : Prop :=
  exists pre w post,
    s = pre ++ w ++ post /\ matches_by ci_match w kw = true
    /\ is_word_opt (last_char pre) = false
    /\ is_word_opt (head post) = false.

(** [kw] somewhere in [s] under the comparison [m]. *)
Fixpoint contains_by (m : char -> char -> bool) (kw s : string) : bool :=
  startswith_by m s kw ||
  match s with
  | EmptyString => false
  | String _ r => contains_by m kw r
  end.

(** A text of ASCII characters. *)
Definition ascii_text (s : string) : Prop :=
  all_chars (fun c => N.ltb c 128) s = true.

(** The statuses with which the service succeeded. *)
Definition success_status (status_code : Z) : Prop := (200 <= status_code < 300)%Z.

(** A decoded value that is a text. *)
Definition is_text (v : json) : Prop := exists s, v = JStr s.

(** The specification's trimming step, in its words: one trailing statement
    terminator is removed when there is one. *)
Fixpoint trim_one_terminator (s : string) : string :=
  match s with
  | EmptyString => EmptyString
  | String c r =>
      match r with
      | EmptyString => if is_semicolon c then EmptyString else s
      | _ => String c (trim_one_terminator r)
      end
  end.

(** The response shapes of the completion service, as the interface
    describes them: [choices[0].message.content] and [choices[0].text]. *)
Definition first_choice (data choice : json) : Prop :=
  exists fields others,
    data = JObj fields /\ lookup_field "choices" fields = Some (JArr (choice :: others)).

Definition chat_shape (data v : json) : Prop :=
  exists choice cfields mfields,
    first_choice data choice /\ choice = JObj cfields
    /\ lookup_field "message" cfields = Some (JObj mfields)
    /\ lookup_field "content" mfields = Some v.

Definition flat_shape (data v : json) : Prop :=
  exists choice cfields,
    first_choice data choice /\ choice = JObj cfields
    /\ lookup_field "text" cfields = Some v.

(** The character right before a position that comes after [pre], when the
    text before [pre] ended with [prev]. *)
Definition last_or (prev : option char) (pre : string) : option char :=
  match last_char pre with
  | Some c => Some c
  | None => prev
  end.

(** The keyword group of [DENY_PATTERN] on its own: tried at one position,
    and searched from left to right. *)
Definition keyword_hit (prev : option char) (s : string) : bool :=
  existsb (keyword_at prev s) DENY_KEYWORDS.

Fixpoint keyword_scan (prev : option char) (s : string) : bool :=
  keyword_hit prev s ||
  match s with
  | EmptyString => false
  | String c r => keyword_scan (Some c) r
  end.

(** A pattern literal made of lower-case ASCII letters, and a text without
    any word character. *)
Definition word_keyword (kw : string) : Prop :=
  all_chars is_lower_letter kw = true /\ kw <> "".

Definition non_word (w : string) : Prop :=
  all_chars (fun c => negb (is_word c)) w = true.

(** The status codes for which the service did not succeed: the client and
    server errors the HTTP library reports. *)
Definition error_status (status_code : Z) : Prop := (400 <= status_code < 600)%Z.

(** The invariant of the history: the ids count from 1 in the order of the
    entries, and an entry is marked executed exactly when it has no error
    text. *)
Definition log_invariant (h : list LogEntry) : Prop :=
  map id h = seq 1 (List.length h)
  /\ Forall (fun e => executed e = true <-> error_text e = None) h.

(** Checking a property on every character of a range, and of a table. *)
Fixpoint all_upto (n : nat) (lo : N) (P : N -> bool) : bool :=
  match n with
  | O => true
  | S k => P lo && all_upto k (N.succ lo) P
  end.

Definition ranges_all (P : N -> bool) (l : list (N * N)) : bool :=
  forallb (fun r => all_upto (N.to_nat (snd r - fst r + 1)) (fst r) P) l.

(** The runs of a case mapping that reach an ASCII character: the capital
    letters and the Kelvin sign. *)
Definition ascii_runs_known (l : list (N * N * N * N)) : bool :=
  forallb (fun e =>
             match e with
             | (lo, hi, stride, target) =>
                 if N.ltb target 128
                 then (N.eqb lo 65 && N.eqb hi 90 && N.eqb stride 1 && N.eqb target 97)
                      || (N.eqb lo 8490 && N.eqb hi 8490 && N.eqb target 107)
                 else true
             end) l.

(** A pattern of ASCII characters without the letter [i], the one letter
    that the lower case of a longer character (U+0130) begins with. *)
Definition plain_pattern (p : string) : Prop :=
  all_chars (fun k => N.ltb k 128 && negb (N.eqb k 105)) p = true.

(** ** A test double of the SQL engine *)

(** An engine that knows the statements [SELECT <column> FROM data] and
    raises a binder error on everything else, as DuckDB does for a column
    the table does not have. *)
Definition project_column (df : Dataset) (sql_text : string) : result Dataset :=
  match find (fun c => string_eqb sql_text ("SELECT " ++ fst c ++ " FROM data"))
             (combine (map fst (columns df)) (seq 0 (List.length (columns df)))) with
  | Some (name, i) =>
      Ok {| columns := [(name, dtype_of name (columns df))];
            rows := map (fun row => [nth i row EmptyString]) (rows df) |}
  | None => Raise (Exn "BinderException" "Binder Error: Referenced column not found in FROM clause!")
  end.

Definition projection_engine : Engine :=
  {| duckdb_connect := None;
     con_register := fun _ => None;
     con_execute := project_column |}.

Definition sample_df : Dataset :=
  {| columns := [("id", "int64"); ("name", "object")];
     rows := [["1"; "ann"]; ["2"; "bob"]; ["3"; "cy"]] |}.

(** ** Sample runs *)

(** The same columns as [sample_df] with other rows. *)
Definition other_rows_df : Dataset :=
  {| columns := [("id", "int64"); ("name", "object")];
     rows := [["7"; "dee"]] |}.

Definition chat_reply (content : json) : json :=
  JObj [("choices", JArr [JObj [("message", JObj [("role", JStr "assistant");
                                                   ("content", content)])]])].

(** A service that is down, and services that answer with a fixed
    completion. *)
Definition env_down : Env :=
  {| post := fun _ => TransportFailure (Exn "ConnectionError" "connection refused");
     engine := projection_engine;
     now := "2025-01-01T09:00:00" |}.

Definition env_answering (content : string) (clock : string) : Env :=
  {| post := fun _ => HttpResponse 200 (Ok (chat_reply (JStr content)));
     engine := projection_engine;
     now := clock |}.

Definition sample_submissions : list Submission :=
  [ {| sub_env := env_down; sub_df := sample_df; sub_input := "all ids" |};
    {| sub_env := env_answering (fenced "sql" "SELECT id FROM data;") "2025-01-01T09:01:00";
       sub_df := sample_df; sub_input := " all ids " |};
    {| sub_env := env_answering "DROP TABLE data" "2025-01-01T09:02:00";
       sub_df := sample_df; sub_input := "remove everything" |};
    {| sub_env := env_answering "SELECT ghost FROM data" "2025-01-01T09:03:00";
       sub_df := sample_df; sub_input := "the ghost column" |} ].

(** ** Vocabulary of the further properties *)

Definition no_linebreak (s : string) : Prop :=
  all_chars (fun c => negb (is_linebreak c)) s = true.

(** A text with characters whose two ends are not white space. *)
Definition trimmed_text (s : string) : Prop :=
  s <> EmptyString
  /\ (forall c, head s = Some c -> is_space c = false)
  /\ (forall c, last_char s = Some c -> is_space c = false).

(** One column of the schema descriptor. *)
Definition schema_entry (col : string * string) : string :=
  fst col ++ " (" ++ snd col ++ ")".

(** Every open handle was returned by an earlier [connect]. *)
Definition db_wf (db : Db) : Prop :=
  Forall (fun h => h < next_handle db) (open_handles db).

Definition failed_entries (h : list LogEntry) : nat :=
  List.length (filter (fun e => negb (executed e)) h).

(** What lines 136-137 compute: the client's answer, cleaned. *)
Definition candidate_of (env : Env) (df : Dataset) (user_input : string) : result string :=
  lm_out <- call_lmstudio_chat (post env)
              (build_prompt (get_schema_hint df) (strip user_input)) 256 0%float ;;
  clean_lm_out lm_out.

(** An engine that runs whatever it is given: it answers every statement
    with the registered table. *)
Definition permissive_engine : Engine :=
  {| duckdb_connect := None;
     con_register := fun _ => None;
     con_execute := fun df sql_text =>
       if is_sql_safe sql_text then project_column df sql_text else Ok df |}.

(** The SQL a run of the script displayed, if it displayed one. *)
Fixpoint code_shown (evs : list Event) : option string :=
  match evs with
  | [] => None
  | EvCode sql :: _ => Some sql
  | _ :: rest => code_shown rest
  end.

(** The entry line 160 builds for a candidate and the executor's answer. *)
Definition entry_for (env : Env) (st : Session) (user_q sql : string)
    (err : option string) : LogEntry :=
  {| id := List.length (history st) + 1;
     user_query := user_q;
     generated_sql := sql;
     executed := match err with None => true | Some _ => false end;
     error_text := err;
     created_at := now env |}.

(** An entry whose statement the gate approved and whose request is
    trimmed. *)
Definition approved_entry (e : LogEntry) : Prop :=
  is_sql_safe (generated_sql e) = true /\ trimmed_text (user_query e).

(** The open connections are accounted for by the failed entries. *)
Definition connections_accounted (st : Session) : Prop :=
  db_wf (db st)
  /\ List.length (open_handles (db st)) <= failed_entries (history st).
(** * Properties *)

(** ** Characters *)

Lemma char_eqb_eq (a b : char) : char_eqb a b = true <-> a = b.
Proof. apply N.eqb_eq. Qed.

Lemma char_eqb_refl (a : char) : char_eqb a a = true.
Proof. apply N.eqb_refl. Qed.

Lemma char_eqb_spec (a b : char) : reflect (a = b) (char_eqb a b).
Proof. apply N.eqb_spec. Qed.

Lemma string_eqb_eq (a b : string) : string_eqb a b = true <-> a = b.
Proof.
  revert b; induction a as [|x r IH]; intros [|y t]; simpl; split; try easy.
  - intros H. apply andb_true_iff in H as [Hx Hr].
    apply char_eqb_eq in Hx. apply IH in Hr. now subst.
  - intros [= -> ->]. rewrite char_eqb_refl. now apply IH.
Qed.

Lemma string_eqb_refl (a : string) : string_eqb a a = true.
Proof. now apply string_eqb_eq. Qed.

Lemma string_eqb_spec (a b : string) : reflect (a = b) (string_eqb a b).
Proof.
  destruct (string_eqb a b) eqn:E; constructor.
  - now apply string_eqb_eq.
  - intros H. apply string_eqb_eq in H. congruence.
Qed.

(** ** Character tables *)

Lemma all_upto_sound (n : nat) (lo : N) (P : N -> bool) :
  all_upto n lo P = true -> forall c, (lo <= c < lo + N.of_nat n)%N -> P c = true.
Proof.
  revert lo; induction n as [|n IH]; intros lo H c Hc; [lia |].
  simpl in H. apply andb_true_iff in H as [H0 H1].
  destruct (N.eq_dec c lo) as [-> | Hne]; [assumption |].
  apply (IH _ H1). lia.
Qed.

Lemma in_ranges_cons (c lo hi : N) (rest : list (N * N)) :
  in_ranges c ((lo, hi) :: rest) =
  if N.ltb c lo then false else if N.leb c hi then true else in_ranges c rest.
Proof. reflexivity. Qed.

Lemma mapped_cons (c lo hi stride target : N) (rest : list (N * N * N * N)) :
  mapped c ((lo, hi, stride, target) :: rest) =
  if N.ltb c lo then None
  else if N.leb c hi
       then if N.eqb (N.modulo (c - lo) stride) 0 then Some (target + (c - lo))%N else None
       else mapped c rest.
Proof. reflexivity. Qed.

Lemma in_ranges_sound (c : N) (l : list (N * N)) :
  in_ranges c l = true -> exists lo hi, In (lo, hi) l /\ (lo <= c <= hi)%N.
Proof.
  induction l as [|[lo hi] rest IH]; [discriminate |].
  rewrite in_ranges_cons.
  destruct (N.ltb_spec c lo); [discriminate |].
  destruct (N.leb_spec c hi).
  - intros _. exists lo, hi. split; [now left | lia].
  - intros H'. destruct (IH H') as (lo' & hi' & Hin & Hc).
    exists lo', hi'. split; [now right | assumption].
Qed.

Lemma ranges_all_sound (P : N -> bool) (l : list (N * N)) :
  ranges_all P l = true -> forall c, in_ranges c l = true -> P c = true.
Proof.
  intros H c Hc. destruct (in_ranges_sound _ _ Hc) as (lo & hi & Hin & Hlo).
  unfold ranges_all in H. rewrite forallb_forall in H.
  apply (all_upto_sound _ _ _ (H _ Hin)). simpl. lia.
Qed.

Lemma mapped_sound (c t : N) (l : list (N * N * N * N)) :
  mapped c l = Some t ->
  exists lo hi stride target,
    In (lo, hi, stride, target) l /\ (lo <= c <= hi)%N /\ t = (target + (c - lo))%N.
Proof.
  induction l as [|[[[lo hi] stride] target] rest IH]; [discriminate |].
  rewrite mapped_cons.
  destruct (N.ltb_spec c lo); [discriminate |].
  destruct (N.leb_spec c hi).
  - destruct (N.eqb _ 0); [| discriminate]. intros [= <-].
    exists lo, hi, stride, target. split; [now left | split; [lia | reflexivity]].
  - intros H'. destruct (IH H') as (lo' & hi' & s' & t' & Hin & Hc).
    exists lo', hi', s', t'. split; [now right | assumption].
Qed.

Lemma space_not_word (c : char) : is_space c = true -> is_word c = false.
Proof.
  intros H. apply negb_true_iff.
  revert c H. apply (ranges_all_sound (fun c => negb (is_word c))). vm_compute. reflexivity.
Qed.

Lemma linebreak_is_space (c : char) : is_linebreak c = true -> is_space c = true.
Proof. revert c. apply (ranges_all_sound is_space). vm_compute. reflexivity. Qed.

Lemma linebreak_not_printable (c : char) : is_linebreak c = true -> is_printable c = false.
Proof.
  intros H. apply negb_true_iff.
  revert c H. apply (ranges_all_sound (fun c => negb (is_printable c))). vm_compute. reflexivity.
Qed.

Lemma semicolon_not_word (c : char) : is_semicolon c = true -> is_word c = false.
Proof. intros H. apply char_eqb_eq in H. now subst. Qed.

Lemma semicolon_not_space (c : char) : is_semicolon c = true -> is_space c = false.
Proof. intros H. apply char_eqb_eq in H. now subst. Qed.

Lemma lower_letter_cases (P : N -> bool) :
  all_upto 26 97 P = true -> forall k, is_lower_letter k = true -> P k = true.
Proof.
  intros H k Hk. apply (all_upto_sound _ _ _ H).
  unfold is_lower_letter in Hk. apply andb_true_iff in Hk as [H1 H2].
  apply N.leb_le in H1, H2. simpl. lia.
Qed.

Lemma lower_letter_word (k : char) : is_lower_letter k = true -> is_word k = true.
Proof. apply lower_letter_cases. vm_compute. reflexivity. Qed.

(** The characters a case-insensitive pattern letter takes are word
    characters, and none is white space. *)
Lemma ci_match_word (c k : char) :
  ci_match c k = true -> is_lower_letter k = true -> is_word c = true.
Proof.
  intros H Hk. unfold ci_match in H. rewrite Hk in H. simpl in H.
  repeat (apply orb_true_iff in H as [H | H]).
  - apply char_eqb_eq in H. subst. now apply lower_letter_word.
  - apply char_eqb_eq in H. subst c. revert k Hk.
    apply (lower_letter_cases (fun k => is_word (k - 32)%N)). vm_compute. reflexivity.
  - apply andb_true_iff in H as [_ H]. apply char_eqb_eq in H. now subst.
  - apply andb_true_iff in H as [_ H]. apply orb_true_iff in H as [H | H];
      apply char_eqb_eq in H; now subst.
  - apply andb_true_iff in H as [_ H]. apply char_eqb_eq in H. now subst.
Qed.

Lemma lower_ascii_sources : ascii_runs_known LOWER = true.
Proof. vm_compute. reflexivity. Qed.

(** Only a character itself, its capital and, for [k], the Kelvin sign have
    an ASCII character as their lower case. *)
Lemma lower_match_cases (c k : char) :
  lower_match c k = true -> (k < 128)%N ->
  c = k \/ ((65 <= c <= 90)%N /\ k = (c + 32)%N) \/ (c = 8490%N /\ k = 107%N).
Proof.
  unfold lower_match, lower_full. intros H Hk.
  destruct (N.eqb_spec c 304); [simpl in H; now rewrite andb_false_r in H |].
  simpl in H. rewrite andb_true_r in H. apply char_eqb_eq in H.
  destruct (mapped c LOWER) as [t|] eqn:E; [| now left].
  subst t. destruct (mapped_sound _ _ _ E) as (lo & hi & st & tg & Hin & Hc & Ht).
  pose proof lower_ascii_sources as Hall. unfold ascii_runs_known in Hall.
  rewrite forallb_forall in Hall. specialize (Hall _ Hin). simpl in Hall.
  destruct (N.ltb_spec tg 128); [| lia].
  apply orb_true_iff in Hall as [Hall | Hall].
  - repeat (apply andb_true_iff in Hall as [Hall ?]).
    apply N.eqb_eq in Hall. repeat match goal with
    | X : N.eqb _ _ = true |- _ => apply N.eqb_eq in X end.
    subst. right. left. split; lia.
  - repeat (apply andb_true_iff in Hall as [Hall ?]).
    apply N.eqb_eq in Hall. repeat match goal with
    | X : N.eqb _ _ = true |- _ => apply N.eqb_eq in X end.
    subst. right. right. split; lia.
Qed.

(** The lower-case comparison of [str.lower] is within the pattern's
    case-insensitive comparison. *)
Lemma lower_match_ci (c k : char) :
  lower_match c k = true -> is_lower_letter k = true -> ci_match c k = true.
Proof.
  intros H Hk. pose proof Hk as Hk'. unfold is_lower_letter in Hk'.
  apply andb_true_iff in Hk' as [H1 H2]. apply N.leb_le in H1, H2.
  destruct (lower_match_cases c k H ltac:(lia)) as [-> | [[Hc ->] | [-> ->]]].
  - unfold ci_match. now rewrite char_eqb_refl.
  - unfold ci_match. rewrite Hk.
    replace (c + 32 - 32)%N with c by lia. rewrite (char_eqb_refl c).
    now rewrite orb_true_r.
  - reflexivity.
Qed.

Lemma lower_match_word (c k : char) :
  lower_match c k = true -> is_lower_letter k = true -> is_word c = true.
Proof. intros H Hk. apply (ci_match_word c k); [now apply lower_match_ci | assumption]. Qed.

(** ** Strings: append, prefixes and the two ends *)

Section Strings.

Lemma append_nil_r (s : string) : s ++ "" = s.
Proof. induction s as [|c r IH]; simpl; [reflexivity | now rewrite IH]. Qed.

Lemma append_assoc (a b c : string) : (a ++ b) ++ c = a ++ (b ++ c).
Proof. induction a as [|x r IH]; simpl; [reflexivity | now rewrite IH]. Qed.

Lemma length_append (a b : string) :
  strlen (a ++ b) = strlen a + strlen b.
Proof. induction a as [|x r IH]; simpl; [reflexivity | now rewrite IH]. Qed.

Lemma is_empty_true (s : string) : is_empty s = true -> s = "".
Proof. destruct s; [reflexivity | discriminate]. Qed.

Lemma drop_append (a b : string) : drop (strlen a) (a ++ b) = b.
Proof. induction a as [|x r IH]; simpl; [now destruct b | exact IH]. Qed.

Lemma startswith_append (p rest : string) : startswith (p ++ rest) p = true.
Proof.
  induction p as [|c r IH]; simpl; [reflexivity |].
  now rewrite char_eqb_refl, IH.
Qed.

Lemma startswith_split (s p : string) :
  startswith s p = true -> exists rest, s = p ++ rest.
Proof.
  revert s; induction p as [|c r IH]; intros s H; simpl in *.
  - now exists s.
  - destruct s as [|d t]; [discriminate |].
    apply andb_true_iff in H as [Hc Hr].
    apply char_eqb_eq in Hc; subst d.
    destruct (IH _ Hr) as [rest ->]. now exists rest.
Qed.

(** *** Literals under a comparison of characters *)

Variable m : char -> char -> bool.
Hypothesis m_word : forall c k, m c k = true -> is_lower_letter k = true -> is_word c = true.

Lemma matches_by_length (w kw : string) : matches_by m w kw = true -> strlen w = strlen kw.
Proof.
  revert kw; induction w as [|c r IH]; intros [|k t]; simpl; try easy.
  intros H. apply andb_true_iff in H as [_ H]. now rewrite (IH _ H).
Qed.

Lemma startswith_by_split (s kw : string) :
  startswith_by m s kw = true ->
  exists w rest, s = w ++ rest /\ matches_by m w kw = true.
Proof.
  revert s; induction kw as [|k r IH]; intros s H; simpl in *.
  - exists "", s. now split.
  - destruct s as [|d t]; [discriminate |].
    apply andb_true_iff in H as [Hc Hr].
    destruct (IH _ Hr) as (w & rest & -> & Hw).
    exists (String d w), rest. split; [reflexivity |].
    simpl. now rewrite Hc, Hw.
Qed.

Lemma startswith_by_variant (w rest kw : string) :
  matches_by m w kw = true -> startswith_by m (w ++ rest) kw = true.
Proof.
  revert kw; induction w as [|c r IH]; intros [|k t]; simpl; try easy.
  intros H. apply andb_true_iff in H as [Hc Hr]. now rewrite Hc, IH.
Qed.

(** A pattern made of letters is blind to non-word characters appended to
    the text. *)
Lemma startswith_by_append (a w kw : string) :
  all_chars is_lower_letter kw = true ->
  all_chars (fun c => negb (is_word c)) w = true ->
  startswith_by m (a ++ w) kw = startswith_by m a kw.
Proof.
  revert a; induction kw as [|k r IH]; intros a Hkw Hw; simpl in *; [reflexivity |].
  apply andb_true_iff in Hkw as [Hk Hr].
  destruct a as [|d t]; simpl.
  - destruct w as [|x w']; [reflexivity |]. simpl in Hw.
    apply andb_true_iff in Hw as [Hx _].
    destruct (m x k) eqn:E; [| reflexivity].
    rewrite (m_word _ _ E Hk) in Hx. discriminate.
  - now rewrite IH.
Qed.

Lemma startswith_by_app (a b kw : string) :
  startswith_by m a kw = true -> startswith_by m (a ++ b) kw = true.
Proof.
  revert a; induction kw as [|k r IH]; intros a H; [reflexivity |].
  destruct a as [|c t]; [discriminate |]. simpl in *.
  apply andb_true_iff in H as [Hc Ht]. now rewrite Hc, IH.
Qed.

(** After a match of a pattern made of letters the last matched character
    is a word character. *)
Lemma is_word_last_matched (s kw : string) :
  kw <> "" -> all_chars is_lower_letter kw = true -> startswith_by m s kw = true ->
  is_word_opt (head (drop (pred (strlen kw)) s)) = true.
Proof.
  revert s; induction kw as [|k r IH]; intros s Hne Hkw H; [congruence |].
  simpl in Hkw. apply andb_true_iff in Hkw as [Hk Hr].
  destruct s as [|d t]; [discriminate |]. simpl in H.
  apply andb_true_iff in H as [Hd Ht].
  destruct r as [|k' r'].
  - simpl. now apply (m_word d k).
  - change (pred (strlen (String k (String k' r')))) with (S (pred (strlen (String k' r')))).
    simpl drop. apply IH; [discriminate | assumption | assumption].
Qed.

Lemma is_word_first_matched (s kw : string) :
  word_keyword kw -> startswith_by m s kw = true -> is_word_opt (head s) = true.
Proof.
  intros [Hkw Hne] H. destruct kw as [|k r]; [congruence |].
  destruct s as [|d t]; [discriminate |]. simpl in *.
  apply andb_true_iff in Hkw as [Hk _]. apply andb_true_iff in H as [Hd _].
  now apply (m_word d k).
Qed.

End Strings.

Lemma is_word_head_drop_append (a w : string) (n : nat) :
  all_chars (fun c => negb (is_word c)) w = true ->
  is_word_opt (head (drop n (a ++ w))) = is_word_opt (head (drop n a)).
Proof.
  revert n; induction a as [|d t IH]; intros n Hw.
  - simpl. replace (drop n "") with "" by now destruct n.
    simpl. revert n; induction w as [|x w' IHw]; intros n.
    + now destruct n.
    + simpl in Hw. apply andb_true_iff in Hw as [Hx Hw'].
      destruct n as [|n]; simpl.
      * now apply negb_true_iff in Hx.
      * now apply IHw.
  - destruct n as [|n]; simpl; [reflexivity | now apply IH].
Qed.

Section Ends.

(** *** The right end *)

Variable p : char -> bool.

Lemma rstrip_by_split (s : string) :
  exists w, s = rstrip_by p s ++ w /\ all_chars p w = true.
Proof.
  induction s as [|c r (w & Hw & Hall)]; simpl.
  - exists "". now split.
  - destruct (p c && is_empty (rstrip_by p r)) eqn:E.
    + apply andb_true_iff in E as [Hc He]. apply is_empty_true in He.
      rewrite He in Hw. simpl in Hw. subst r.
      exists (String c w). split; [reflexivity |]. simpl. now rewrite Hc.
    + exists w. split; [| assumption]. simpl. now rewrite <- Hw.
Qed.

Lemma rstrip_by_last (s : string) (c : char) :
  last_char (rstrip_by p s) = Some c -> p c = false.
Proof.
  induction s as [|d r IH]; simpl; [discriminate |].
  destruct (p d) eqn:Hd; simpl.
  - destruct (rstrip_by p r) as [|e t] eqn:Er; simpl; [discriminate |].
    exact IH.
  - destruct (rstrip_by p r) as [|e t] eqn:Er; simpl.
    + intros [= <-]. exact Hd.
    + exact IH.
Qed.

Lemma rstrip_by_head (s : string) :
  rstrip_by p s <> "" -> head (rstrip_by p s) = head s.
Proof.
  destruct s as [|d r]; simpl; [congruence |].
  destruct (p d && is_empty (rstrip_by p r)); [congruence | reflexivity].
Qed.

Lemma rstrip_by_append_all (s w : string) :
  all_chars p w = true -> rstrip_by p (s ++ w) = rstrip_by p s.
Proof.
  intros Hw. induction s as [|d r IH]; simpl.
  - induction w as [|x w' IHw]; simpl; [reflexivity |].
    simpl in Hw. apply andb_true_iff in Hw as [Hx Hw'].
    now rewrite (IHw Hw'), Hx.
  - now rewrite IH.
Qed.

Lemma rstrip_by_fixed (s : string) :
  (forall c, last_char s = Some c -> p c = false) -> rstrip_by p s = s.
Proof.
  induction s as [|d r IH]; intros H; simpl; [reflexivity |].
  destruct r as [|e t].
  - simpl. rewrite (H d eq_refl). reflexivity.
  - rewrite IH by exact H.
    now rewrite andb_false_r.
Qed.

Lemma rstrip_by_idem (s : string) : rstrip_by p (rstrip_by p s) = rstrip_by p s.
Proof. apply rstrip_by_fixed. intros c. apply rstrip_by_last. Qed.

(** *** The left end *)

Lemma lstrip_by_head (s : string) (c : char) :
  head (lstrip_by p s) = Some c -> p c = false.
Proof.
  induction s as [|d r IH]; simpl; [discriminate |].
  destruct (p d) eqn:Hd; [exact IH |].
  simpl. now intros [= <-].
Qed.

Lemma lstrip_by_fixed (s : string) :
  (forall c, head s = Some c -> p c = false) -> lstrip_by p s = s.
Proof.
  destruct s as [|d r]; intros H; simpl; [reflexivity |].
  now rewrite (H d eq_refl).
Qed.

Lemma lstrip_by_split (s : string) :
  exists w, s = w ++ lstrip_by p s /\ all_chars p w = true.
Proof.
  induction s as [|d r (w & Hw & Hall)]; simpl.
  - exists "". now split.
  - destruct (p d) eqn:Hd.
    + exists (String d w). simpl. rewrite Hd. split; [now rewrite <- Hw | assumption].
    + exists "". now split.
Qed.

End Ends.

(** ** [str.lower] and the two comparisons *)

Section Lower.

Lemma lower_full_single (c : char) :
  c <> 304%N -> exists t, lower_full c = String t "".
Proof.
  intros H. unfold lower_full. destruct (N.eqb_spec c 304); [contradiction |].
  now eexists.
Qed.

Lemma lower_match_full (c k : char) :
  lower_match c k = true <-> lower_full c = String k "".
Proof. unfold lower_match. apply string_eqb_eq. Qed.

Lemma lower_from_cons (b : bool) (c : char) (r : string) :
  lower_from b (String c r) =
  (if N.eqb c 931
   then String (if b && negb (followed_by_cased r) then 962%N else 963%N) ""
   else lower_full c)
  ++ lower_from (if is_case_ignorable c then b else is_cased c) r.
Proof. reflexivity. Qed.

Lemma lower_match_sigma (k : char) : (k < 128)%N -> lower_match 931%N k = false.
Proof.
  intros H. destruct (lower_match 931%N k) eqn:E; [| reflexivity].
  apply lower_match_full in E. vm_compute in E. injection E as <-. lia.
Qed.

(** On an ASCII text without the letter [i], the prefix test on the lowered
    text is the prefix test under the lower-case comparison. *)
Lemma startswith_lower_from (b : bool) (s p : string) :
  plain_pattern p ->
  startswith (lower_from b s) p = startswith_by lower_match s p.
Proof.
  revert b s; induction p as [|k p' IH]; intros b s Hp; [reflexivity |].
  unfold plain_pattern in Hp. simpl in Hp.
  apply andb_true_iff in Hp as [Hk Hp']. apply andb_true_iff in Hk as [Hk Hi].
  apply N.ltb_lt in Hk. apply negb_true_iff, N.eqb_neq in Hi.
  destruct s as [|c r]; [reflexivity |].
  rewrite lower_from_cons. cbn [startswith_by].
  destruct (N.eqb_spec c 931) as [-> | Hsigma].
  - rewrite (lower_match_sigma k Hk). simpl.
    destruct (b && negb (followed_by_cased r));
      (match goal with |- char_eqb ?x k && _ = false =>
         destruct (char_eqb_spec x k) as [E|]; [subst k; lia | reflexivity] end).
  - unfold lower_match at 1. unfold lower_full.
    destruct (N.eqb_spec c 304) as [-> | H304].
    + cbn [append startswith string_eqb].
      destruct (char_eqb_spec "i" k) as [E|]; [congruence | reflexivity].
    + cbn [append startswith string_eqb]. rewrite andb_true_r.
      now rewrite (IH _ r Hp').
Qed.

(** For an ASCII text [kw], the texts whose lower case is [kw] are those
    that are [kw] under the lower-case comparison. *)
Lemma lower_from_matches (b : bool) (w kw : string) :
  ascii_text kw ->
  lower_from b w = kw <-> matches_by lower_match w kw = true.
Proof.
  revert b kw; induction w as [|c r IH]; intros b kw Hkw.
  - simpl. destruct kw; split; easy.
  - rewrite lower_from_cons. split.
    + destruct (N.eqb_spec c 931) as [-> | Hsigma].
      * intros E. destruct kw as [|k t]; [discriminate |].
        unfold ascii_text in Hkw. simpl in Hkw, E.
        apply andb_true_iff in Hkw as [Hk _]. apply N.ltb_lt in Hk.
        injection E as E _. destruct (b && negb (followed_by_cased r)); subst k; lia.
      * unfold lower_full. destruct (N.eqb_spec c 304) as [-> | H304].
        -- intros E. simpl in E. destruct kw as [|k [|k' t]]; try discriminate.
           unfold ascii_text in Hkw. simpl in Hkw.
           apply andb_true_iff in Hkw as [_ Hkw]. apply andb_true_iff in Hkw as [Hk _].
           apply N.ltb_lt in Hk. injection E as _ E _. subst k'. lia.
        -- intros E. simpl in E. destruct kw as [|k t]; [discriminate |].
           injection E as Ek Et. unfold ascii_text in Hkw. simpl in Hkw.
           apply andb_true_iff in Hkw as [_ Ht].
           simpl. apply andb_true_iff. split.
           ++ apply lower_match_full. unfold lower_full.
              destruct (N.eqb_spec c 304); [contradiction | now rewrite Ek].
           ++ now apply (IH (if is_case_ignorable c then b else is_cased c) t Ht).
    + destruct kw as [|k t]; [discriminate |]. simpl.
      intros H. apply andb_true_iff in H as [Hc Hr].
      unfold ascii_text in Hkw. simpl in Hkw.
      apply andb_true_iff in Hkw as [Hk Ht]. apply N.ltb_lt in Hk.
      destruct (N.eqb_spec c 931) as [-> | Hsigma].
      * rewrite (lower_match_sigma k Hk) in Hc. discriminate.
      * apply lower_match_full in Hc. rewrite Hc. simpl.
        f_equal. now apply (IH (if is_case_ignorable c then b else is_cased c) t Ht).
Qed.

Lemma lower_matches (w kw : string) :
  ascii_text kw -> lower w = kw <-> matches_by lower_match w kw = true.
Proof. apply lower_from_matches. Qed.

Lemma word_keyword_ascii (kw : string) : word_keyword kw -> ascii_text kw.
Proof.
  intros [H _]. unfold ascii_text. revert H.
  induction kw as [|k r IH]; simpl; [easy |].
  intros H. apply andb_true_iff in H as [Hk Hr]. rewrite (IH Hr), andb_true_r.
  unfold is_lower_letter in Hk. apply andb_true_iff in Hk as [_ Hk].
  apply N.leb_le in Hk. apply N.ltb_lt. lia.
Qed.

Lemma matches_lower_ci (w kw : string) :
  all_chars is_lower_letter kw = true ->
  matches_by lower_match w kw = true -> matches_by ci_match w kw = true.
Proof.
  revert kw; induction w as [|c r IH]; intros [|k t]; simpl; try easy.
  intros Hkw H. apply andb_true_iff in Hkw as [Hk Ht]. apply andb_true_iff in H as [Hc Hr].
  now rewrite (lower_match_ci _ _ Hc Hk), (IH _ Ht Hr).
Qed.

End Lower.
(** ** Substrings *)

Lemma contains_occurs (sub s : string) : contains sub s = true <-> occurs sub s.
Proof.
  split.
  - induction s as [|c r IH]; simpl; intros H.
    + rewrite orb_false_r in H. apply startswith_split in H as [rest ->].
      exists "", rest. reflexivity.
    + apply orb_true_iff in H as [H | H].
      * apply startswith_split in H as [rest ->]. exists "", rest. reflexivity.
      * destruct (IH H) as (pre & post & ->). exists (String c pre), post. reflexivity.
  - intros (pre & post & ->). induction pre as [|c r IH].
    + simpl append. destruct (sub ++ post) eqn:E; simpl;
        rewrite <- E, startswith_append; reflexivity.
    + simpl. rewrite IH. apply orb_true_r.
Qed.

Lemma contains_append_r (sub a w : string) :
  contains sub a = true -> contains sub (a ++ w) = true.
Proof.
  rewrite !contains_occurs. intros (pre & post & ->).
  exists pre, (post ++ w). now rewrite !append_assoc.
Qed.

Lemma contains_append_l (sub w b : string) :
  contains sub b = true -> contains sub (w ++ b) = true.
Proof.
  rewrite !contains_occurs. intros (pre & post & ->).
  exists (w ++ pre), post. now rewrite !append_assoc.
Qed.

Lemma contains_rstrip_by (p : char -> bool) (sub s : string) :
  contains sub (rstrip_by p s) = true -> contains sub s = true.
Proof.
  intros H. destruct (rstrip_by_split p s) as (w & E & _).
  rewrite E. now apply contains_append_r.
Qed.

Lemma contains_lstrip_by (p : char -> bool) (sub s : string) :
  contains sub (lstrip_by p s) = true -> contains sub s = true.
Proof.
  intros H. destruct (lstrip_by_split p s) as (w & E & _).
  rewrite E. now apply contains_append_l.
Qed.

(** ** The deny pattern *)

Section DenyPattern.

Lemma all_chars_impl (p q : char -> bool) (w : string) :
  (forall c, p c = true -> q c = true) -> all_chars p w = true -> all_chars q w = true.
Proof.
  intros Hpq. induction w as [|c r IH]; simpl; [reflexivity |].
  intros H. apply andb_true_iff in H as [Hc Hr].
  now rewrite (Hpq _ Hc), IH.
Qed.

Lemma existsb_ext_in {A : Type} (f g : A -> bool) (l : list A) :
  (forall x, In x l -> f x = g x) -> existsb f l = existsb g l.
Proof.
  induction l as [|x l IH]; intros H; simpl; [reflexivity |].
  rewrite (H x (or_introl eq_refl)), IH; [reflexivity |].
  intros y Hy. apply H. now right.
Qed.

Lemma last_char_cons (c : char) (r : string) : exists x, last_char (String c r) = Some x.
Proof.
  revert c; induction r as [|d t IH]; intros c; simpl.
  - now exists c.
  - apply IH.
Qed.

Lemma last_or_cons (prev : option char) (c : char) (pre : string) :
  last_or prev (String c pre) = last_or (Some c) pre.
Proof.
  unfold last_or. destruct pre as [|d t]; [reflexivity |].
  change (last_char (String c (String d t))) with (last_char (String d t)).
  destruct (last_char_cons d t) as [x ->]. reflexivity.
Qed.

Lemma is_word_last_or_none (pre : string) :
  is_word_opt (last_or None pre) = is_word_opt (last_char pre).
Proof. unfold last_or. now destruct (last_char pre). Qed.

Lemma deny_keywords_are_words : forall kw, In kw DENY_KEYWORDS -> word_keyword kw.
Proof.
  intros kw H. unfold DENY_KEYWORDS in H. simpl in H.
  repeat (destruct H as [<- | H]; [split; [reflexivity | discriminate] |]).
  contradiction.
Qed.

Lemma keyword_at_prev (p1 p2 : option char) (s kw : string) :
  is_word_opt p1 = is_word_opt p2 -> keyword_at p1 s kw = keyword_at p2 s kw.
Proof. intros H. unfold keyword_at, word_boundary. now rewrite H. Qed.

Lemma keyword_scan_prev (p1 p2 : option char) (s : string) :
  is_word_opt p1 = is_word_opt p2 -> keyword_scan p1 s = keyword_scan p2 s.
Proof.
  intros H. destruct s as [|c r]; simpl; unfold keyword_hit; f_equal;
    apply existsb_ext_in; intros kw _; now apply keyword_at_prev.
Qed.

Lemma keyword_at_append (prev : option char) (a w kw : string) :
  word_keyword kw -> non_word w ->
  keyword_at prev (a ++ w) kw = keyword_at prev a kw.
Proof.
  intros [Hkw _] Hw. unfold keyword_at, word_boundary.
  rewrite (startswith_by_append ci_match ci_match_word a w kw Hkw Hw).
  rewrite (is_word_head_drop_append a w (pred (strlen kw)) Hw).
  rewrite (is_word_head_drop_append a w (strlen kw) Hw).
  pose proof (is_word_head_drop_append a w 0 Hw) as H0. simpl in H0.
  rewrite H0. reflexivity.
Qed.

Lemma keyword_hit_append (prev : option char) (a w : string) :
  non_word w -> keyword_hit prev (a ++ w) = keyword_hit prev a.
Proof.
  intros Hw. unfold keyword_hit. apply existsb_ext_in.
  intros kw Hin. apply keyword_at_append; [now apply deny_keywords_are_words | assumption].
Qed.

Lemma keyword_hit_non_word_head (prev : option char) (s : string) :
  is_word_opt (head s) = false -> keyword_hit prev s = false.
Proof.
  intros Hs. unfold keyword_hit.
  rewrite (existsb_ext_in _ (fun _ => false)).
  - now induction DENY_KEYWORDS.
  - intros kw Hin. unfold keyword_at.
    destruct (startswith_ci s kw) eqn:E; [| now rewrite andb_false_r].
    apply (is_word_first_matched ci_match ci_match_word) in E;
      [congruence | now apply deny_keywords_are_words].
Qed.

Lemma keyword_scan_non_word (prev : option char) (w : string) :
  non_word w -> keyword_scan prev w = false.
Proof.
  revert prev; induction w as [|c r IH]; intros prev Hw; simpl.
  - now rewrite keyword_hit_non_word_head.
  - unfold non_word in Hw. simpl in Hw. apply andb_true_iff in Hw as [Hc Hr].
    rewrite keyword_hit_non_word_head; [now apply IH |].
    simpl. now apply negb_true_iff.
Qed.

Lemma keyword_scan_append (prev : option char) (a w : string) :
  non_word w -> keyword_scan prev (a ++ w) = keyword_scan prev a.
Proof.
  intros Hw. revert prev; induction a as [|c r IH]; intros prev.
  - simpl append. rewrite keyword_scan_non_word by assumption.
    simpl. now rewrite keyword_hit_non_word_head.
  - change (String c r ++ w) with (String c (r ++ w)).
    cbn [keyword_scan].
    change (String c (r ++ w)) with (String c r ++ w).
    now rewrite keyword_hit_append, IH.
Qed.

Lemma keyword_scan_prepend (prev : option char) (w s : string) :
  non_word w -> is_word_opt prev = false ->
  keyword_scan prev (w ++ s) = keyword_scan prev s.
Proof.
  revert prev; induction w as [|c r IH]; intros prev Hw Hp; [reflexivity |].
  unfold non_word in Hw. simpl in Hw. apply andb_true_iff in Hw as [Hc Hr].
  apply negb_true_iff in Hc.
  change (String c r ++ s) with (String c (r ++ s)). cbn [keyword_scan].
  rewrite keyword_hit_non_word_head by exact Hc.
  rewrite (IH (Some c) Hr Hc). simpl.
  apply keyword_scan_prev. simpl. congruence.
Qed.

Lemma keyword_scan_rstrip_by (p : char -> bool) (prev : option char) (s : string) :
  (forall c, p c = true -> is_word c = false) ->
  keyword_scan prev (rstrip_by p s) = keyword_scan prev s.
Proof.
  intros Hp. destruct (rstrip_by_split p s) as (w & E & Hw).
  rewrite E at 2. symmetry. apply keyword_scan_append.
  apply (all_chars_impl p); [| assumption].
  intros c Hc. now rewrite (Hp c Hc).
Qed.

Lemma keyword_scan_lstrip_by (p : char -> bool) (s : string) :
  (forall c, p c = true -> is_word c = false) ->
  keyword_scan None (lstrip_by p s) = keyword_scan None s.
Proof.
  intros Hp. destruct (lstrip_by_split p s) as (w & E & Hw).
  rewrite E at 2. symmetry. apply keyword_scan_prepend; [| reflexivity].
  apply (all_chars_impl p); [| assumption].
  intros c Hc. now rewrite (Hp c Hc).
Qed.

Lemma keyword_scan_strip (s : string) : keyword_scan None (strip s) = keyword_scan None s.
Proof.
  unfold strip.
  rewrite keyword_scan_rstrip_by by apply space_not_word.
  apply keyword_scan_lstrip_by, space_not_word.
Qed.

(** The gate's trimming neither hides nor creates a keyword match. *)
Lemma keyword_scan_gate_candidate (s : string) :
  keyword_scan None (gate_candidate s) = keyword_scan None s.
Proof.
  unfold gate_candidate, rstrip_semicolon.
  rewrite keyword_scan_strip.
  rewrite keyword_scan_rstrip_by by apply semicolon_not_word.
  apply keyword_scan_strip.
Qed.

Lemma deny_scan_split (prev : option char) (s : string) :
  deny_scan prev s = keyword_scan prev s || contains ";" s || contains "--" s.
Proof.
  revert prev; induction s as [|c r IH]; intros prev.
  - simpl. unfold deny_at, keyword_hit. simpl. now rewrite !orb_false_r.
  - cbn [deny_scan keyword_scan contains]. rewrite IH. unfold deny_at.
    fold (keyword_hit prev (String c r)).
    destruct (startswith (String c r) ";"), (startswith (String c r) "--"),
      (keyword_hit prev (String c r)), (keyword_scan (Some c) r),
      (contains ";" r), (contains "--" r); reflexivity.
Qed.

(** The search finds every whole-word occurrence of a deny-listed keyword. *)
Lemma keyword_scan_complete (kw w post pre : string) (prev : option char) :
  In kw DENY_KEYWORDS -> matches_by ci_match w kw = true ->
  is_word_opt (last_or prev pre) = false -> is_word_opt (head post) = false ->
  keyword_scan prev (pre ++ w ++ post) = true.
Proof.
  intros Hin Hw Hpre Hpost. pose proof (deny_keywords_are_words kw Hin) as Hk.
  revert prev Hpre; induction pre as [|c r IH]; intros prev Hpre.
  - simpl append. unfold last_or in Hpre; simpl in Hpre.
    assert (Hm : startswith_ci (w ++ post) kw = true)
      by (now apply startswith_by_variant).
    assert (Hhit : keyword_hit prev (w ++ post) = true).
    { unfold keyword_hit. apply existsb_exists. exists kw. split; [assumption |].
      unfold keyword_at, word_boundary.
      rewrite Hm, Hpre, (is_word_first_matched ci_match ci_match_word _ _ Hk Hm).
      destruct Hk as [Hk1 Hk2].
      rewrite (is_word_last_matched ci_match ci_match_word _ _ Hk2 Hk1 Hm).
      rewrite <- (matches_by_length _ _ _ Hw), drop_append, Hpost. reflexivity. }
    destruct (w ++ post); simpl; now rewrite Hhit.
  - change (String c r ++ w ++ post) with (String c (r ++ w ++ post)).
    cbn [keyword_scan]. rewrite (IH (Some c)); [apply orb_true_r |].
    now rewrite <- (last_or_cons prev).
Qed.

(** Every match of the search is a whole-word occurrence of a deny-listed
    keyword. *)
Lemma keyword_scan_sound (prev : option char) (s : string) :
  keyword_scan prev s = true ->
  exists kw pre w post,
    In kw DENY_KEYWORDS /\ s = pre ++ w ++ post /\ matches_by ci_match w kw = true
    /\ is_word_opt (last_or prev pre) = false /\ is_word_opt (head post) = false.
Proof.
  assert (Hhit : forall prev s, keyword_hit prev s = true ->
    exists kw w post, In kw DENY_KEYWORDS /\ s = w ++ post /\ matches_by ci_match w kw = true
      /\ is_word_opt prev = false /\ is_word_opt (head post) = false).
  { clear. intros prev s H. unfold keyword_hit in H.
    apply existsb_exists in H as (kw & Hin & Hat).
    pose proof (deny_keywords_are_words kw Hin) as Hk.
    unfold keyword_at, word_boundary in Hat.
    apply andb_true_iff in Hat as [Hat H3]. apply andb_true_iff in Hat as [H1 Hm].
    rewrite (is_word_first_matched ci_match ci_match_word _ _ Hk Hm) in H1.
    destruct Hk as [Hk1 Hk2].
    rewrite (is_word_last_matched ci_match ci_match_word _ _ Hk2 Hk1 Hm) in H3.
    destruct (startswith_by_split _ _ _ Hm) as (w & post & -> & Hw).
    rewrite <- (matches_by_length _ _ _ Hw), drop_append in H3.
    exists kw, w, post. repeat split; try assumption.
    - now destruct (is_word_opt prev).
    - now destruct (is_word_opt (head post)). }
  revert prev; induction s as [|c r IH]; intros prev H; simpl in H.
  - rewrite orb_false_r in H.
    destruct (Hhit _ _ H) as (kw & w & post & Hin & E & Hw & Hp & Hpost).
    exists kw, "", w, post. repeat split; assumption.
  - apply orb_true_iff in H as [H | H].
    + destruct (Hhit _ _ H) as (kw & w & post & Hin & E & Hw & Hp & Hpost).
      exists kw, "", w, post. repeat split; assumption.
    + destruct (IH _ H) as (kw & pre & w & post & Hin & E & Hw & Hp & Hpost).
      exists kw, (String c pre), w, post. repeat split; try assumption.
      * simpl. now rewrite E.
      * now rewrite last_or_cons.
Qed.

Lemma keyword_scan_whole_word (s : string) :
  keyword_scan None s = true <-> exists kw, In kw DENY_KEYWORDS /\ whole_word_ci kw s.
Proof.
  split.
  - intros H. destruct (keyword_scan_sound _ _ H) as (kw & pre & w & post & Hin & E & Hw & Hp & Hq).
    exists kw. split; [assumption |]. exists pre, w, post.
    rewrite is_word_last_or_none in Hp. repeat split; assumption.
  - intros (kw & Hin & pre & w & post & -> & Hw & Hp & Hq).
    apply (keyword_scan_complete kw); try assumption.
    now rewrite is_word_last_or_none.
Qed.

(** A keyword in any letter case is a keyword for the pattern. *)
Lemma whole_word_ci_of_lower (kw s : string) :
  word_keyword kw -> whole_word kw s -> whole_word_ci kw s.
Proof.
  intros Hk (pre & w & post & E & Hw & Hp & Hq).
  exists pre, w, post. repeat split; try assumption.
  apply matches_lower_ci; [apply Hk |].
  apply lower_matches; [now apply word_keyword_ascii | assumption].
Qed.

Lemma keyword_scan_of_whole_word (kw s : string) :
  In kw DENY_KEYWORDS -> whole_word kw s \/ whole_word_ci kw s ->
  keyword_scan None s = true.
Proof.
  intros Hin H. apply keyword_scan_whole_word. exists kw. split; [assumption |].
  destruct H as [H | H]; [| assumption].
  apply whole_word_ci_of_lower; [now apply deny_keywords_are_words | assumption].
Qed.

(** An occurrence in any letter case is found by the scan under the
    lower-case comparison. *)
Lemma whole_word_contains_lower (kw s : string) :
  ascii_text kw -> whole_word kw s -> contains_by lower_match kw s = true.
Proof.
  intros Hk (pre & w & post & -> & Hw & _).
  apply (lower_matches _ _ Hk) in Hw.
  induction pre as [|c r IH].
  - simpl append. pose proof (startswith_by_variant lower_match w post kw Hw) as H.
    destruct (w ++ post); simpl; now rewrite H.
  - simpl. rewrite IH. apply orb_true_r.
Qed.

End DenyPattern.

(** ** The safety gate *)

Section SafetyGate.

Lemma select_word_keyword : word_keyword "select".
Proof. split; [reflexivity | discriminate]. Qed.

Lemma begins_with_variant_lower (kw s : string) :
  ascii_text kw ->
  begins_with_variant kw s <-> startswith_by lower_match s kw = true.
Proof.
  intros Hk. split.
  - intros (v & rest & -> & Hv). apply startswith_by_variant.
    now apply (lower_matches v kw Hk).
  - intros H. destruct (startswith_by_split _ _ _ H) as (w & rest & E & Hw).
    exists w, rest. split; [assumption |]. now apply (lower_matches w kw Hk).
Qed.

Lemma begins_with_ci_iff (kw s : string) :
  begins_with_ci kw s <-> startswith_ci s kw = true.
Proof.
  split.
  - intros (v & rest & -> & Hv). now apply startswith_by_variant.
  - intros H. destruct (startswith_by_split _ _ _ H) as (w & rest & E & Hw).
    now exists w, rest.
Qed.

Lemma strip_head (s : string) (c : char) : head (strip s) = Some c -> is_space c = false.
Proof.
  unfold strip. intros H. apply (lstrip_by_head is_space s).
  rewrite <- (rstrip_by_head is_space); [assumption |].
  intros E. rewrite E in H. discriminate.
Qed.

Lemma strip_last (s : string) (c : char) : last_char (strip s) = Some c -> is_space c = false.
Proof. exact (rstrip_by_last is_space (lstrip_by is_space s) c). Qed.

Lemma strip_fixed (s : string) :
  (forall c, head s = Some c -> is_space c = false) ->
  (forall c, last_char s = Some c -> is_space c = false) ->
  strip s = s.
Proof.
  intros Hh Hl. unfold strip.
  rewrite lstrip_by_fixed by assumption. now apply rstrip_by_fixed.
Qed.

Lemma strip_idem (s : string) : strip (strip s) = strip s.
Proof. apply strip_fixed; [apply strip_head | apply strip_last]. Qed.

Lemma lstrip_rstrip_semicolon_strip (s : string) :
  lstrip_by is_space (rstrip_semicolon (strip s)) = rstrip_semicolon (strip s).
Proof.
  apply lstrip_by_fixed. intros c H. apply (strip_head s).
  unfold rstrip_semicolon in *. rewrite <- (rstrip_by_head is_semicolon); [assumption |].
  intros E. rewrite E in H. discriminate.
Qed.

(** The gate's second trimming only shortens the right end of
    [sql_text.strip()]. *)
Lemma gate_candidate_rstrip (s : string) :
  gate_candidate s = rstrip_by is_space (rstrip_semicolon (strip s)).
Proof. unfold gate_candidate, strip at 1. now rewrite lstrip_rstrip_semicolon_strip. Qed.

Lemma contains_strip (sub s : string) : contains sub (strip s) = true -> contains sub s = true.
Proof. intros H. now apply contains_rstrip_by, contains_lstrip_by in H. Qed.

Lemma contains_gate_candidate (sub s : string) :
  contains sub (gate_candidate s) = true -> contains sub s = true.
Proof.
  intros H. unfold gate_candidate, rstrip_semicolon in H.
  now apply contains_strip, contains_rstrip_by, contains_strip in H.
Qed.

End SafetyGate.

(** The trimming and a keyword at the start, under a comparison whose
    letters are word characters. *)
Section TrimmedPrefix.

Variable m : char -> char -> bool.
Hypothesis m_word : forall c k, m c k = true -> is_lower_letter k = true -> is_word c = true.

Lemma startswith_by_rstrip_by (p : char -> bool) (s kw : string) :
  (forall c, p c = true -> is_word c = false) -> word_keyword kw ->
  startswith_by m (rstrip_by p s) kw = startswith_by m s kw.
Proof.
  intros Hp [Hkw _]. destruct (rstrip_by_split p s) as (w & E & Hw).
  rewrite E at 2. symmetry. apply (startswith_by_append m m_word); [assumption |].
  apply (all_chars_impl p); [| assumption].
  intros c Hc. now rewrite (Hp c Hc).
Qed.

Lemma startswith_by_gate_candidate (s kw : string) :
  word_keyword kw ->
  startswith_by m (gate_candidate s) kw = startswith_by m (strip s) kw.
Proof.
  intros Hk. rewrite gate_candidate_rstrip.
  rewrite startswith_by_rstrip_by by (assumption || apply space_not_word).
  unfold rstrip_semicolon.
  now rewrite startswith_by_rstrip_by by (assumption || apply semicolon_not_word).
Qed.

Lemma startswith_by_strip (s kw : string) :
  word_keyword kw -> startswith_by m s kw = true -> startswith_by m (strip s) kw = true.
Proof.
  intros Hk H. unfold strip.
  rewrite startswith_by_rstrip_by by (assumption || apply space_not_word).
  rewrite lstrip_by_fixed; [assumption |].
  intros c Hc. pose proof (is_word_first_matched m m_word _ _ Hk H) as Hw.
  rewrite Hc in Hw. simpl in Hw.
  destruct (is_space c) eqn:E; [| reflexivity].
  apply space_not_word in E. congruence.
Qed.

End TrimmedPrefix.

Section SafetyGateClaims.

Lemma is_sql_safe_true (s : string) :
  is_sql_safe s = true ->
  startswith_by lower_match (gate_candidate s) "select" = true
  /\ DENY_PATTERN_search (gate_candidate s) = false
  /\ contains ";" (gate_candidate s) = false.
Proof.
  unfold is_sql_safe. destruct (is_empty s); [discriminate |].
  unfold lower. rewrite startswith_lower_from by reflexivity.
  destruct (startswith_by lower_match (gate_candidate s) "select"); [| discriminate].
  destruct (DENY_PATTERN_search (gate_candidate s)); [discriminate |].
  destruct (contains ";" (gate_candidate s)); [discriminate |].
  now intros _.
Qed.

(** C6. The gate answers unsafe for every candidate that is empty after
    trimming and for every candidate whose trimmed text does not begin with
    a case variant of [select]. *)
Theorem safety_gate_rejects_empty_and_non_select (sql_text : string) :
  strip sql_text = "" \/ ~ begins_with_variant "select" (strip sql_text) ->
  is_sql_safe sql_text = false.
Proof.
  intros H. destruct (is_sql_safe sql_text) eqn:E; [| reflexivity].
  apply is_sql_safe_true in E as (Hs & _ & _).
  rewrite (startswith_by_gate_candidate lower_match lower_match_word) in Hs
    by apply select_word_keyword.
  destruct H as [H | H].
  - rewrite H in Hs. discriminate.
  - exfalso. apply H. now apply begins_with_variant_lower.
Qed.

Lemma safety_gate_rejects_update :
  ~ begins_with_variant "select" (strip "UPDATE data SET x=1")
  /\ is_sql_safe "UPDATE data SET x=1" = false.
Proof.
  assert (H : ~ begins_with_variant "select" (strip "UPDATE data SET x=1")).
  { intros H. apply begins_with_variant_lower in H; [| reflexivity].
    vm_compute in H. discriminate. }
  split; [exact H |].
  apply (safety_gate_rejects_empty_and_non_select "UPDATE data SET x=1").
  right. exact H.
Defined.

Lemma gate_candidate_clean (s : string) :
  startswith_by lower_match (strip s) "select" = true ->
  keyword_scan None s = false ->
  ~ occurs "--" (gate_candidate s) -> ~ occurs ";" (gate_candidate s) ->
  is_sql_safe s = true.
Proof.
  intros Hsel Hkw Hdash Hsemi.
  rewrite <- (startswith_by_gate_candidate lower_match lower_match_word s "select"
                select_word_keyword) in Hsel.
  assert (Hk : keyword_scan None (gate_candidate s) = false)
    by now rewrite keyword_scan_gate_candidate.
  assert (Hs : contains ";" (gate_candidate s) = false).
  { destruct (contains ";" (gate_candidate s)) eqn:E; [| reflexivity].
    apply contains_occurs in E. contradiction. }
  assert (Hd : contains "--" (gate_candidate s) = false).
  { destruct (contains "--" (gate_candidate s)) eqn:E; [| reflexivity].
    apply contains_occurs in E. contradiction. }
  unfold is_sql_safe, DENY_PATTERN_search, lower.
  rewrite startswith_lower_from by reflexivity.
  rewrite Hsel, deny_scan_split, Hk, Hs, Hd.
  destruct s; [discriminate | reflexivity].
Qed.

Lemma no_keyword_scan (s : string) :
  (forall kw, In kw DENY_KEYWORDS -> ~ whole_word_ci kw s) -> keyword_scan None s = false.
Proof.
  intros Hkw. destruct (keyword_scan None s) eqn:E; [| reflexivity].
  apply keyword_scan_whole_word in E as (kw & Hin & Hw). now destruct (Hkw kw Hin).
Qed.

(** The claim of C3 read literally fails, whichever way a case variant is
    read. Read through [str.lower], the candidate [select 1 as inſert]
    (with the long s, U+017F) begins with [select] and has no deny-listed
    keyword, line comment or terminator, and the gate answers unsafe: the
    pattern's case-insensitive matching takes the long s for [s]. Read
    through that matching, [ſelect 1] begins with [select], and the gate
    answers unsafe: its prefix test goes through [str.lower], which leaves
    the long s alone. *)
Lemma safety_gate_case_folding_counterexample :
  let s1 := "select 1 as in" ++ String 383%N "ert" in
  let s2 := String 383%N "elect 1" in
  (begins_with_variant "select" s1
   /\ (forall kw, In kw DENY_KEYWORDS -> ~ whole_word kw s1)
   /\ ~ occurs "--" s1 /\ ~ occurs ";" s1
   /\ is_sql_safe s1 = false)
  /\ (begins_with_ci "select" s2
      /\ (forall kw, In kw DENY_KEYWORDS -> ~ whole_word_ci kw s2)
      /\ ~ occurs "--" s2 /\ ~ occurs ";" s2
      /\ is_sql_safe s2 = false).
Proof.
  intros s1 s2. split; repeat split.
  - apply begins_with_variant_lower; reflexivity.
  - intros kw Hin Hw.
    apply whole_word_contains_lower in Hw;
      [| apply word_keyword_ascii; now apply deny_keywords_are_words].
    unfold DENY_KEYWORDS in Hin. simpl in Hin.
    repeat (destruct Hin as [<- | Hin]; [vm_compute in Hw; discriminate |]).
    contradiction.
  - intros H. apply contains_occurs in H. vm_compute in H. discriminate.
  - intros H. apply contains_occurs in H. vm_compute in H. discriminate.
  - apply begins_with_ci_iff. reflexivity.
  - intros kw Hin Hw.
    assert (E : keyword_scan None s2 = true)
      by (apply keyword_scan_whole_word; now exists kw).
    vm_compute in E. discriminate.
  - intros H. apply contains_occurs in H. vm_compute in H. discriminate.
  - intros H. apply contains_occurs in H. vm_compute in H. discriminate.
Qed.

(** C3, amended. Whatever begins with a case variant of [select] and has no
    deny-listed keyword as a whole word under the pattern's
    case-insensitive matching, no line-comment marker and no statement
    terminator is safe; whatever has a deny-listed keyword as a whole word,
    in any letter case or as that matching takes it, is unsafe, wherever
    [select] stands. *)
Theorem safety_gate_select_and_deny_list :
  (forall s : string,
      begins_with_variant "select" s ->
      (forall kw, In kw DENY_KEYWORDS -> ~ whole_word_ci kw s) ->
      ~ occurs "--" s -> ~ occurs ";" s ->
      is_sql_safe s = true)
  /\ (forall (s kw : string),
      In kw DENY_KEYWORDS -> whole_word kw s \/ whole_word_ci kw s ->
      is_sql_safe s = false).
Proof.
  split.
  - intros s Hsel Hkw Hdash Hsemi.
    apply begins_with_variant_lower in Hsel; [| reflexivity].
    apply gate_candidate_clean.
    + apply (startswith_by_strip lower_match lower_match_word);
        [apply select_word_keyword | assumption].
    + now apply no_keyword_scan.
    + intros H. apply Hdash. apply contains_occurs.
      apply contains_occurs in H. now apply contains_gate_candidate in H.
    + intros H. apply Hsemi. apply contains_occurs.
      apply contains_occurs in H. now apply contains_gate_candidate in H.
  - intros s kw Hin Hw.
    destruct (is_sql_safe s) eqn:E; [| reflexivity].
    apply is_sql_safe_true in E as (_ & Hdeny & _).
    unfold DENY_PATTERN_search in Hdeny.
    rewrite deny_scan_split, keyword_scan_gate_candidate in Hdeny.
    rewrite (keyword_scan_of_whole_word kw s Hin Hw) in Hdeny. discriminate.
Qed.

Lemma safety_gate_select_and_deny_list_witness :
  is_sql_safe "Select id from data" = true
  /\ is_sql_safe "DROP TABLE data select" = false.
Proof.
  destruct safety_gate_select_and_deny_list as [Hsafe Hdeny]. split.
  - apply Hsafe.
    + apply begins_with_variant_lower; reflexivity.
    + intros kw Hin Hw.
      assert (E : keyword_scan None "Select id from data" = true)
        by (apply keyword_scan_whole_word; now exists kw).
      vm_compute in E. discriminate.
    + intros H. apply contains_occurs in H. vm_compute in H. discriminate.
    + intros H. apply contains_occurs in H. vm_compute in H. discriminate.
  - apply (Hdeny _ "drop").
    + simpl. tauto.
    + left. exists "", "DROP", " TABLE data select". repeat split.
Defined.




(** C10. The deny keywords are matched on the whole candidate, quoted text
    included: a single [SELECT] whose only deny-listed word is the content
    of a string literal is marked unsafe, and the same statement with
    another literal is safe. *)
Theorem safety_gate_ignores_quoting :
  exists pre post : string,
    is_sql_safe (pre ++ "'drop'" ++ post) = false
    /\ pre ++ "'drop'" ++ post = "SELECT * FROM data WHERE name = 'drop'"
    /\ begins_with_variant "select" pre
    /\ contains ";" (pre ++ "'drop'" ++ post) = false
    /\ contains "--" (pre ++ "'drop'" ++ post) = false
    /\ keyword_scan None pre = false /\ keyword_scan None post = false
    /\ whole_word "drop" (pre ++ "'drop'" ++ post)
    /\ is_sql_safe (pre ++ "'x'" ++ post) = true.
Proof.
  exists "SELECT * FROM data WHERE name = ", "".
  repeat split.
  - apply begins_with_variant_lower; reflexivity.
  - exists "SELECT * FROM data WHERE name = '", "drop", "'". repeat split.
Qed.

End SafetyGateClaims.
(** ** The extractor *)

Section Extractor.

Lemma length_drop (n : nat) (s : string) : strlen (drop n s) = strlen s - n.
Proof.
  revert s; induction n as [|n IH]; intros [|c r]; simpl; try reflexivity.
  apply IH.
Qed.

Lemma at_dollar_length (s : string) : at_dollar s = true -> strlen s <= 1.
Proof.
  destruct s as [|c [|d t]]; simpl; intros H; try lia; discriminate.
Qed.

Lemma last_char_append (a b : string) : b <> "" -> last_char (a ++ b) = last_char b.
Proof.
  intros Hb. induction a as [|c r IH]; [reflexivity |].
  simpl append. destruct (r ++ b) as [|d t] eqn:E.
  - destruct r; [simpl in E; congruence | discriminate].
  - change (last_char (String c (String d t))) with (last_char (String d t)).
    exact IH.
Qed.

Lemma rstrip_by_empty_all (p : char -> bool) (s : string) :
  rstrip_by p s = "" -> all_chars p s = true.
Proof.
  intros H. destruct (rstrip_by_split p s) as (w & E & Hw).
  rewrite H in E. simpl in E. now subst w.
Qed.

Lemma sub_closing_fence_from_short (k : nat) (t : string) :
  strlen t <= k -> sub_closing_fence_from k t = "".
Proof.
  revert k; induction t as [|c r IH]; intros k H; [reflexivity |].
  simpl in H. destruct k as [|k]; [lia |].
  simpl. apply IH. lia.
Qed.

Lemma sub_closing_fence_from_0 (c : char) (r : string) :
  sub_closing_fence_from 0 (String c r) =
  match closing_fence_len (String c r) with
  | Some (S k) => sub_closing_fence_from k r
  | _ => String c (sub_closing_fence_from 0 r)
  end.
Proof. reflexivity. Qed.

Lemma closing_fence_len_all_space (u : string) :
  all_chars is_space u = true ->
  closing_fence_len (u ++ closing_fence) = Some (strlen u + 4).
Proof.
  induction u as [|c r IH]; intros H; [reflexivity |].
  simpl in H. apply andb_true_iff in H as [Hc Hr].
  simpl. now rewrite Hc, (IH Hr).
Qed.

Lemma closing_fence_len_text (u : string) :
  rstrip_by is_space u <> "" -> closing_fence_len (u ++ closing_fence) = None.
Proof.
  induction u as [|c r IH]; intros H; [now destruct H |].
  simpl in H. simpl append. cbn [closing_fence_len].
  destruct (is_space c) eqn:Hc.
  - simpl in H. destruct (rstrip_by is_space r) as [|d t] eqn:Er;
      [now destruct H |].
    rewrite IH; [reflexivity | discriminate].
  - unfold fence_end.
    destruct (at_dollar (drop 3 (String c (r ++ closing_fence)))) eqn:E;
      [| now rewrite andb_false_r].
    apply at_dollar_length in E. rewrite length_drop in E.
    simpl in E. rewrite length_append in E. simpl in E. lia.
Qed.

(** On a text that ends with a line break and a closing fence, the second
    substitution removes the fence and the white space before it. *)
Lemma sub_closing_fence_fenced (u : string) :
  sub_closing_fence (u ++ closing_fence) = rstrip_by is_space u.
Proof.
  unfold sub_closing_fence. induction u as [|c r IH]; [reflexivity |].
  change (String c r ++ closing_fence) with (String c (r ++ closing_fence)).
  rewrite sub_closing_fence_from_0.
  change (String c (r ++ closing_fence)) with (String c r ++ closing_fence).
  simpl rstrip_by.
  destruct (is_space c && is_empty (rstrip_by is_space r)) eqn:E.
  - apply andb_true_iff in E as [Hc He]. apply is_empty_true in He.
    rewrite closing_fence_len_all_space
      by (simpl; now rewrite Hc, (rstrip_by_empty_all _ _ He)).
    simpl. apply sub_closing_fence_from_short. rewrite length_append. simpl. lia.
  - rewrite closing_fence_len_text.
    + now rewrite IH.
    + simpl. rewrite E. discriminate.
Qed.

Lemma sub_closing_fence_lstrip (x : string) :
  sub_closing_fence (lstrip_by is_space (x ++ closing_fence)) = strip x.
Proof.
  induction x as [|c r IH]; [reflexivity |].
  unfold strip. simpl. destruct (is_space c) eqn:Hc.
  - exact IH.
  - change (String c (r ++ closing_fence)) with (String c r ++ closing_fence).
    apply sub_closing_fence_fenced.
Qed.

Lemma sub_opening_fence_fenced (tag x : string) :
  fence_tag tag ->
  sub_opening_fence (fenced tag x) = lstrip_by is_space (x ++ closing_fence).
Proof.
  intros [-> | Htag].
  - reflexivity.
  - apply (lower_matches tag "sql" eq_refl) in Htag.
    pose proof (matches_by_length _ _ _ Htag) as Hlen.
    apply (matches_lower_ci tag "sql" eq_refl) in Htag.
    unfold sub_opening_fence, fenced.
    change (startswith ("```" ++ tag ++ String "010" x ++ String "010" "```") "```")
      with true.
    change (drop 3 ("```" ++ tag ++ String "010" x ++ String "010" "```"))
      with (tag ++ String "010" x ++ String "010" "```").
    cbv iota zeta.
    rewrite (startswith_by_variant ci_match tag _ "sql" Htag).
    change 3 with (strlen "sql"). rewrite <- Hlen, drop_append.
    reflexivity.
Qed.

Lemma strip_fenced (tag x : string) : strip (fenced tag x) = fenced tag x.
Proof.
  apply strip_fixed.
  - simpl. now intros c [= <-].
  - replace (fenced tag x) with (("```" ++ tag ++ String "010" x) ++ closing_fence)
      by (unfold fenced; now rewrite !append_assoc).
    rewrite last_char_append by discriminate.
    simpl. now intros c [= <-].
Qed.

(** What the extractor does after the fences: lines 47 to 52. *)
Lemma clean_sql_from_model_fenced (tag x : string) :
  fence_tag tag ->
  clean_sql_from_model (fenced tag x) =
  collapse_lines (select_anchor (strip_terminator (strip x))).
Proof.
  intros Htag. unfold clean_sql_from_model.
  replace (is_empty (fenced tag x)) with false by reflexivity. cbv zeta.
  rewrite strip_fenced. unfold strip_fences.
  rewrite (sub_opening_fence_fenced _ _ Htag), sub_closing_fence_lstrip.
  now rewrite strip_idem.
Qed.

Lemma closing_fence_len_ends (q : string) (n : nat) :
  closing_fence_len q = Some n ->
  endswith q "```" = true \/ last_char q = Some "010"%char.
Proof.
  revert n; induction q as [|c r IH]; intros n H; [discriminate |].
  cbn [closing_fence_len] in H. destruct (is_space c).
  - destruct (closing_fence_len r) as [m|] eqn:E; [| discriminate].
    destruct (IH _ eq_refl) as [He | Hl].
    + left. simpl. rewrite He. apply orb_true_r.
    + right. destruct r as [|d t]; [discriminate | exact Hl].
  - unfold fence_end in H.
    destruct (startswith (String c r) "```") eqn:Es; [| discriminate].
    destruct (at_dollar (drop 3 (String c r))) eqn:Ed; [| discriminate].
    apply startswith_split in Es as [rest Er]. rewrite Er in *. simpl in Ed.
    destruct rest as [|d [|e t]]; try discriminate.
    + now left.
    + right. apply char_eqb_eq in Ed. now subst d.
Qed.

Lemma sub_closing_fence_fixed (y : string) :
  endswith y "```" = false -> last_char y <> Some "010"%char ->
  sub_closing_fence y = y.
Proof.
  unfold sub_closing_fence. induction y as [|c r IH]; intros He Hl; [reflexivity |].
  rewrite sub_closing_fence_from_0.
  destruct (closing_fence_len (String c r)) as [n|] eqn:E.
  - apply closing_fence_len_ends in E as [E | E]; congruence.
  - rewrite IH; [reflexivity | |].
    + simpl in He. now apply orb_false_iff in He as [_ He].
    + destruct r as [|d t]; [discriminate | exact Hl].
Qed.

Lemma strip_fences_fixed (x : string) :
  startswith (strip x) "```" = false -> endswith (strip x) "```" = false ->
  strip_fences (strip x) = strip x.
Proof.
  intros Hs He. unfold strip_fences, sub_opening_fence. rewrite Hs.
  rewrite sub_closing_fence_fixed; [apply strip_idem | assumption |].
  intros H. apply strip_last in H. discriminate.
Qed.

(** The claim of C4 read literally fails: an output that is itself a fenced
    block loses one layer of fences only, so wrapping it once more changes
    what the extractor returns. *)
Lemma extractor_fence_counterexample :
  clean_sql_from_model (fenced "sql" (fenced "" "select 1")) = "select 1 ```"
  /\ clean_sql_from_model (fenced "" "select 1") = "select 1"
  /\ clean_sql_from_model (fenced "sql" (fenced "" "select 1"))
     <> clean_sql_from_model (fenced "" "select 1").
Proof. repeat split. vm_compute. discriminate. Qed.

(** C4, amended. For every raw output whose trimmed text neither begins nor
    ends with a fence marker, wrapping it in a fenced block, with no tag or
    with the tag [sql] in any case, does not change the extractor's
    result. *)
Theorem extractor_fence_invariance (tag x : string) :
  fence_tag tag ->
  startswith (strip x) "```" = false ->
  endswith (strip x) "```" = false ->
  clean_sql_from_model (fenced tag x) = clean_sql_from_model x.
Proof.
  intros Htag Hs He. rewrite (clean_sql_from_model_fenced _ _ Htag).
  unfold clean_sql_from_model. destruct x as [|c r]; [reflexivity |].
  cbv zeta. replace (is_empty (String c r)) with false by reflexivity.
  now rewrite (strip_fences_fixed _ Hs He).
Qed.

Lemma extractor_fence_invariance_witness :
  clean_sql_from_model (fenced "SQL" "Select id FROM data;")
  = clean_sql_from_model "Select id FROM data;".
Proof.
  apply extractor_fence_invariance.
  - right. reflexivity.
  - reflexivity.
  - reflexivity.
Defined.

(** The claim of C5 read literally fails: after line 47 a text that ended in
    two terminators has none at its end, where removing one would leave
    one. *)
Lemma extractor_one_terminator_counterexample :
  strip (trim_one_terminator "select 1;;") = "select 1;"
  /\ strip_terminator "select 1;;" = "select 1"
  /\ last_char (strip_terminator "select 1;;") <> Some ";"%char.
Proof. repeat split. vm_compute. discriminate. Qed.

(** C5, amended. Line 47 removes the whole run of statement terminators at
    the end of the fence-stripped text (and then the white space around
    it), before the [SELECT] anchor is searched; a text ending in one
    terminator or in two gives what the text without them gives. *)
Theorem extractor_strips_trailing_run (t : string) :
  (exists run,
      t = rstrip_semicolon t ++ run
      /\ all_chars is_semicolon run = true
      /\ last_char (rstrip_semicolon t) <> Some ";"%char
      /\ strip_terminator t = strip (rstrip_semicolon t))
  /\ strip_terminator (t ++ ";") = strip_terminator t
  /\ strip_terminator (t ++ ";;") = strip_terminator t
  /\ (forall (c : char) (text : string),
        clean_sql_from_model (String c text) =
        collapse_lines (select_anchor (strip_terminator
                                         (strip_fences (strip (String c text)))))).
Proof.
  repeat split.
  - destruct (rstrip_by_split is_semicolon t) as (run & E & Hrun).
    exists run. repeat split; try assumption.
    intros H. apply rstrip_by_last in H. discriminate.
  - unfold strip_terminator, rstrip_semicolon.
    now rewrite rstrip_by_append_all.
  - unfold strip_terminator, rstrip_semicolon.
    now rewrite rstrip_by_append_all.
Qed.

End Extractor.

(** ** The model client *)

Section ModelClient.

Lemma getitem_key_ok (v : json) (k : string) (x : json) :
  getitem_key v k = Ok x <-> exists fields, v = JObj fields /\ lookup_field k fields = Some x.
Proof.
  split.
  - destruct v; simpl; try discriminate.
    destruct (lookup_field k fields) eqn:E; [| discriminate].
    intros [= <-]. now exists fields.
  - intros (fields & -> & E). simpl. now rewrite E.
Qed.

(** The first choice, when it is a dict: a string under [choices] answers
    [[0]] with its first character, which is no dict. *)
Lemma first_choice_ok (data : json) (cfields : list (string * json)) :
  (exists c, getitem_key data "choices" = Ok c /\ getitem_0 c = Ok (JObj cfields))
  <-> first_choice data (JObj cfields).
Proof.
  split.
  - intros (c & Hc & H0). apply getitem_key_ok in Hc as (fields & -> & E).
    exists fields. destruct c as [| | | |s|items|]; try discriminate.
    + destruct s; discriminate.
    + destruct items as [|c0 others]; [discriminate |].
      simpl in H0. injection H0 as ->. now exists others.
  - intros (fields & others & -> & E). exists (JArr (JObj cfields :: others)).
    split; [| reflexivity]. apply getitem_key_ok. now exists fields.
Qed.

Lemma bind_ok {A B : Type} (r : result A) (k : A -> result B) (b : B) :
  bind r k = Ok b <-> exists a, r = Ok a /\ k a = Ok b.
Proof.
  split.
  - destruct r as [a|e]; simpl; [| discriminate]. intros H. now exists a.
  - intros (a & -> & H). exact H.
Qed.

Lemma chat_content_shape (data v : json) : chat_content data = Ok v <-> chat_shape data v.
Proof.
  unfold chat_content. split.
  - intros H. apply bind_ok in H as (c & Hc & H). apply bind_ok in H as (c0 & H0 & H).
    apply bind_ok in H as (m & Hm & H).
    apply getitem_key_ok in Hm as (cfields & -> & Em).
    apply getitem_key_ok in H as (mfields & -> & Ev).
    exists (JObj cfields), cfields, mfields. repeat split; try assumption.
    apply first_choice_ok. now exists c.
  - intros (choice & cfields & mfields & Hf & -> & Em & Ev).
    apply first_choice_ok in Hf as (c & Hc & H0).
    rewrite Hc. simpl. rewrite H0. simpl. rewrite Em. simpl. now rewrite Ev.
Qed.

Lemma flat_text_shape (data v : json) : flat_text data = Ok v <-> flat_shape data v.
Proof.
  unfold flat_text. split.
  - intros H. apply bind_ok in H as (c & Hc & H). apply bind_ok in H as (c0 & H0 & H).
    apply getitem_key_ok in H as (cfields & -> & Ev).
    exists (JObj cfields), cfields. repeat split; try assumption.
    apply first_choice_ok. now exists c.
  - intros (choice & cfields & Hf & -> & Ev).
    apply first_choice_ok in Hf as (c & Hc & H0).
    rewrite Hc. simpl. rewrite H0. simpl. now rewrite Ev.
Qed.

Lemma raise_for_status_error (status_code : Z) :
  error_status status_code <-> exists e, raise_for_status status_code = Raise e.
Proof.
  unfold error_status, raise_for_status.
  destruct (Z.leb 400 status_code) eqn:E1; destruct (Z.ltb status_code 600) eqn:E2;
    simpl; split; intros H;
    try apply Z.leb_le in E1; try apply Z.leb_gt in E1;
    try apply Z.ltb_lt in E2; try apply Z.ltb_ge in E2;
    try lia; try (now eexists); destruct H as [e H]; discriminate.
Qed.

Lemma raise_for_status_ok (status_code : Z) :
  ~ error_status status_code -> raise_for_status status_code = Ok tt.
Proof.
  intros H. destruct (raise_for_status status_code) as [[]|e] eqn:E; [reflexivity |].
  destruct H. apply raise_for_status_error. now exists e.
Qed.

(** The claim of C7 read literally fails twice. A response with the status
    304, which is no success status, and a chat-style body is answered with
    the text, not with an error: only the statuses 400 to 599 raise. And a
    response whose chat-style field is there but holds [null] is answered
    with [None]: no text was extracted, the flat field next to it is not
    tried, and nothing is raised. *)
Lemma model_client_status_and_null_counterexample :
  let chat := chat_reply (JStr "SELECT 1") in
  let null_chat :=
    JObj [("choices", JArr [JObj [("message", JObj [("content", JNull)]);
                                  ("text", JStr "SELECT 1")]])] in
  ~ success_status 304
  /\ call_lmstudio_chat (fun _ => HttpResponse 304 (Ok chat)) "prompt" 256 0%float
     = Ok (JStr "SELECT 1")
  /\ ~ is_text JNull
  /\ call_lmstudio_chat (fun _ => HttpResponse 200 (Ok null_chat)) "prompt" 256 0%float
     = Ok JNull.
Proof.
  intros chat null_chat. repeat split.
  - unfold success_status. lia.
  - intros [s H]. discriminate.
Qed.

(** C7, amended. The client returns the value of the chat-style field when
    the response has it, text or not, and the value of the flat text field
    only when the chat-style field is absent; it raises when the transport
    call raises, when the status is a client or server error (400 to 599),
    when the body is no JSON, and when the response has neither field. *)
Theorem model_client_shapes_and_failures
    (post : Payload -> http_reply) (prompt : string) (max_tokens : Z) (temperature : float) :
  let reply := post {| p_model := LM_CHAT_MODEL; p_content := prompt;
                       p_temperature := temperature; p_max_tokens := max_tokens |} in
  let answer := call_lmstudio_chat post prompt max_tokens temperature in
  (forall e, reply = TransportFailure e -> answer = Raise e)
  /\ (forall status_code body,
        reply = HttpResponse status_code body -> error_status status_code ->
        exists e, answer = Raise e)
  /\ (forall status_code e,
        reply = HttpResponse status_code (Raise e) -> ~ error_status status_code ->
        answer = Raise e)
  /\ (forall status_code data,
        reply = HttpResponse status_code (Ok data) -> ~ error_status status_code ->
        (forall v, chat_shape data v -> answer = Ok v)
        /\ (forall v, (forall u, ~ chat_shape data u) -> flat_shape data v -> answer = Ok v)
        /\ ((forall u, ~ chat_shape data u) -> (forall u, ~ flat_shape data u) ->
            exists e, answer = Raise e)).
Proof.
  intros reply answer. subst answer. unfold call_lmstudio_chat. fold reply.
  split; [| split; [| split]].
  - intros e ->. reflexivity.
  - intros status_code body -> Hst. apply raise_for_status_error in Hst as [e He].
    rewrite He. now exists e.
  - intros status_code e -> Hst. now rewrite (raise_for_status_ok _ Hst).
  - intros status_code data -> Hst. rewrite (raise_for_status_ok _ Hst). simpl.
    split; [| split].
    + intros v Hv. apply chat_content_shape in Hv. now rewrite Hv.
    + intros v Hno Hv. destruct (chat_content data) as [u|e] eqn:E.
      * apply chat_content_shape in E. now destruct (Hno u).
      * simpl. now apply flat_text_shape.
    + intros Hno Hnf. destruct (chat_content data) as [u|e] eqn:E.
      * apply chat_content_shape in E. now destruct (Hno u).
      * simpl. destruct (flat_text data) as [u|e'] eqn:F.
        -- apply flat_text_shape in F. now destruct (Hnf u).
        -- now exists e'.
Qed.

Lemma model_client_fallback_witness :
  call_lmstudio_chat
    (fun _ => HttpResponse 200 (Ok (JObj [("choices", JArr [JObj [("text", JStr "SELECT 1")]])])))
    "prompt" 256 0%float
  = Ok (JStr "SELECT 1").
Proof.
  set (data := JObj [("choices", JArr [JObj [("text", JStr "SELECT 1")]])]).
  set (post := fun _ : Payload => HttpResponse 200 (Ok data)).
  destruct (model_client_shapes_and_failures post "prompt" 256 0%float)
    as (_ & _ & _ & H).
  destruct (H 200%Z data eq_refl) as (_ & Hflat & _).
  - unfold error_status. lia.
  - apply Hflat.
    + intros u Hu. apply chat_content_shape in Hu. vm_compute in Hu. discriminate.
    + apply flat_text_shape. reflexivity.
Defined.

End ModelClient.

(** ** The query executor *)

Section Executor.

Lemma execute_sql_on_df_success (eng : Engine) (df result_df : Dataset)
    (sql_text : string) (db : Db) :
  duckdb_connect eng = None -> con_register eng df = None ->
  con_execute eng df sql_text = Ok result_df ->
  snd (execute_sql_on_df eng df sql_text db) = (Some result_df, None)
  /\ ~ In (next_handle db) (open_handles (fst (execute_sql_on_df eng df sql_text db))).
Proof.
  intros Hc Hr He. unfold execute_sql_on_df. rewrite Hc. simpl. rewrite Hr, He.
  split; [reflexivity |]. simpl. rewrite Nat.eqb_refl. simpl.
  intros H. apply filter_In in H as [_ H]. now rewrite Nat.eqb_refl in H.
Qed.

Lemma execute_sql_on_df_error (eng : Engine) (df : Dataset)
    (sql_text : string) (db : Db) (e : exn) :
  duckdb_connect eng = None -> con_register eng df = None ->
  con_execute eng df sql_text = Raise e ->
  snd (execute_sql_on_df eng df sql_text db) = (None, Some (exn_str e))
  /\ In (next_handle db) (open_handles (fst (execute_sql_on_df eng df sql_text db))).
Proof.
  intros Hc Hr He. unfold execute_sql_on_df. rewrite Hc. simpl. rewrite Hr, He.
  split; [reflexivity |]. simpl. now left.
Qed.

(** C1 fails on the code. With the columns [id] and [name] and the approved
    statement [SELECT ghost FROM data] the engine raises, the executor
    returns the error pair, and the connection it opened is still open;
    on [SELECT id FROM data] the same executor closes it. *)
Theorem executor_leaves_connection_open_on_error :
  let db0 := {| next_handle := 0; open_handles := [] |} in
  let failed := execute_sql_on_df projection_engine sample_df "SELECT ghost FROM data" db0 in
  let passed := execute_sql_on_df projection_engine sample_df "SELECT id FROM data" db0 in
  is_sql_safe "SELECT ghost FROM data" = true
  /\ snd failed = (None, Some "Binder Error: Referenced column not found in FROM clause!")
  /\ open_handles (fst failed) = [0]
  /\ snd passed = (Some {| columns := [("id", "int64")]; rows := [["1"]; ["2"]; ["3"]] |}, None)
  /\ open_handles (fst passed) = [].
Proof. repeat split. Qed.

End Executor.

(** ** The history and the prompt *)

Section Script.

Lemma submit_history (env : Env) (df : Dataset) (user_input : string) (st : Session) :
  history (fst (submit env df user_input st)) = history st
  \/ exists e,
       history (fst (submit env df user_input st)) = (history st ++ [e])%list
       /\ id e = List.length (history st) + 1
       /\ (executed e = true <-> error_text e = None).
Proof.
  unfold submit.
  destruct (is_empty (strip user_input)); [now left |].
  destruct (bind _ _) as [sql_candidate|e]; [| now left].
  destruct (negb (is_sql_safe sql_candidate)); [now left |].
  destruct (execute_sql_on_df _ _ _ _) as [db' [result_df err]].
  right. eexists. split; [reflexivity |]. split; [reflexivity |].
  simpl. destruct err; split; congruence.
Qed.

Lemma log_invariant_append (h : list LogEntry) (e : LogEntry) :
  log_invariant h -> id e = List.length h + 1 ->
  (executed e = true <-> error_text e = None) ->
  log_invariant (h ++ [e]).
Proof.
  intros [Hid Hex] He Hiff. split.
  - rewrite map_app, length_app, seq_app, Hid. simpl. now rewrite He, Nat.add_comm.
  - apply Forall_app. split; [assumption |]. now constructor.
Qed.

Lemma run_from_invariant (subs : list Submission) (st : Session) :
  log_invariant (history st) -> log_invariant (history (run_from st subs)).
Proof.
  revert st; induction subs as [|s rest IH]; intros st H; [exact H |].
  simpl. apply IH.
  destruct (submit_history (sub_env s) (sub_df s) (sub_input s) st)
    as [-> | (e & -> & Hid & Hiff)]; [assumption |].
  now apply log_invariant_append.
Qed.

Lemma run_from_extends (subs : list Submission) (st : Session) :
  exists later, history (run_from st subs) = (history st ++ later)%list.
Proof.
  revert st; induction subs as [|s rest IH]; intros st.
  - exists []. simpl. now rewrite app_nil_r.
  - simpl. destruct (IH (fst (submit (sub_env s) (sub_df s) (sub_input s) st))) as [later ->].
    destruct (submit_history (sub_env s) (sub_df s) (sub_input s) st)
      as [-> | (e & -> & _)].
    + now exists later.
    + exists (e :: later). now rewrite <- app_assoc.
Qed.

Lemma run_from_app (a b : list Submission) (st : Session) :
  run_from st (a ++ b) = run_from (run_from st a) b.
Proof. revert st; induction a as [|s rest IH]; intros st; [reflexivity | apply IH]. Qed.

(** C8. After every sequence of submissions, whatever their outcomes, the
    ids of the history are 1, 2, 3, ... in the order of the entries, every
    entry is marked executed exactly when its error text is absent, and
    later submissions only append to the history. *)
Theorem audit_log_ids_and_executed_flag (subs more : list Submission) :
  map id (history (run subs)) = seq 1 (List.length (history (run subs)))
  /\ Forall (fun e => executed e = true <-> error_text e = None) (history (run subs))
  /\ exists later, history (run (subs ++ more)) = (history (run subs) ++ later)%list.
Proof.
  assert (H : log_invariant (history (run subs)))
    by (apply run_from_invariant; split; [reflexivity | constructor]).
  destruct H as [Hid Hex]. repeat split; try assumption.
  unfold run. rewrite run_from_app. apply run_from_extends.
Qed.

Lemma prompt_sent_submit (env : Env) (df : Dataset) (user_input : string) (st : Session) :
  prompt_sent (snd (submit env df user_input st)) =
  if is_empty (strip user_input) then None
  else Some (build_prompt (get_schema_hint df) (strip user_input)).
Proof.
  unfold submit.
  destruct (is_empty (strip user_input)); [reflexivity |].
  destruct (bind _ _) as [sql_candidate|e]; [| reflexivity].
  destruct (negb (is_sql_safe sql_candidate)); [reflexivity |].
  now destruct (execute_sql_on_df _ _ _ _) as [db' [result_df err]].
Qed.

(** C9. Two runs of the script on datasets with the same schema descriptor
    and on the same request send the same prompt, whatever the service,
    the engine, the clock, the history and the rows are; the prompt is the
    template filled with the descriptor and the request. *)
Theorem prompt_builder_deterministic
    (env1 env2 : Env) (df1 df2 : Dataset) (st1 st2 : Session) (user_input : string) :
  get_schema_hint df1 = get_schema_hint df2 ->
  prompt_sent (snd (submit env1 df1 user_input st1))
  = prompt_sent (snd (submit env2 df2 user_input st2))
  /\ (strip user_input <> "" ->
      prompt_sent (snd (submit env1 df1 user_input st1))
      = Some (build_prompt (get_schema_hint df1) (strip user_input))).
Proof.
  intros H. rewrite !prompt_sent_submit, H. split; [reflexivity |].
  intros Hne. destruct (strip user_input); [congruence | reflexivity].
Qed.

End Script.

Lemma prompt_builder_deterministic_witness :
  prompt_sent (snd (submit env_down sample_df " all ids " new_session))
  = prompt_sent (snd (submit (env_answering "SELECT id FROM data" "2025-02-02T10:00:00")
                             other_rows_df " all ids " (run sample_submissions))).
Proof.
  assert (Hschema : get_schema_hint sample_df = get_schema_hint other_rows_df)
    by reflexivity.
  exact (proj1 (prompt_builder_deterministic env_down
           (env_answering "SELECT id FROM data" "2025-02-02T10:00:00")
           sample_df other_rows_df new_session (run sample_submissions) " all ids "
           Hschema)).
Defined.

(** ** Sample runs *)

Example safe_select : is_sql_safe "SELECT id FROM data WHERE id > 1" = true.
Proof. reflexivity. Qed.

Example safe_despite_keyword_inside_word : is_sql_safe "select updated_at from data" = true.
Proof. reflexivity. Qed.

Example unsafe_line_comment : is_sql_safe "select 1 -- all" = false.
Proof. reflexivity. Qed.

Example splitlines_sample :
  splitlines (String "010" ("a" ++ String "013" (String "010" ("b" ++ String "010" (String "010" "c")))))
  = [""; "a"; "b"; ""; "c"].
Proof. reflexivity. Qed.

Example clean_fenced_answer :
  clean_sql_from_model
    (fenced "SQL" (String "010" "Here you go: select a," ++ String "013" (String "010" "  b from data;;  ")))
  = "select a, b from data".
Proof. vm_compute. reflexivity. Qed.

Example repr_single_quote : repr "it's" = String "034" ("it's" ++ String "034" "").
Proof. reflexivity. Qed.

Example repr_line_break : repr (String "010" "a") = "'" ++ String "092" "na'".
Proof. reflexivity. Qed.

Example schema_hint_sample : get_schema_hint sample_df = "data(id (int64), name (object))".
Proof. reflexivity. Qed.

(** Four submissions: the service is down, a query runs, a statement is
    rejected by the gate, and the engine refuses a column. Only the second
    and the fourth are logged. *)
Example history_sample :
  map (fun e => (id e, generated_sql e, executed e, error_text e))
      (history (run sample_submissions))
  = [ (1, "SELECT id FROM data", true, None);
      (2, "SELECT ghost FROM data", false,
       Some "Binder Error: Referenced column not found in FROM clause!") ].
Proof. vm_compute. reflexivity. Qed.

Example lower_final_sigma :
  lower (String 927%N (String 916%N (String 927%N (String 931%N " A" ++ String 931%N "")))) =
  String 959%N (String 948%N (String 959%N (String 962%N " a" ++ String 962%N ""))).
Proof. reflexivity. Qed.

Example lower_lone_sigma : lower (String 931%N "") = String 963%N "".
Proof. reflexivity. Qed.

Example lower_dotted_capital_i : lower (String 304%N "") = String "i" (String 775%N "").
Proof. reflexivity. Qed.

Example unsafe_long_s_keyword : is_sql_safe ("select 1 as in" ++ String 383%N "ert") = false.
Proof. reflexivity. Qed.

Example unsafe_long_s_select : is_sql_safe (String 383%N "elect 1") = false.
Proof. reflexivity. Qed.

Example safe_no_break_space_trimmed : is_sql_safe (String 160%N "select 1" ++ String 8195%N "") = true.
Proof. reflexivity. Qed.

Example repr_escapes :
  repr (String 7%N (String 173%N (String 8232%N (String 233%N (String 128512%N "")))))
  = "'" ++ String "092" "x07" ++ String "092" "xad" ++ String "092" "u2028"
        ++ String 233%N (String 128512%N "'").
Proof. reflexivity. Qed.

(** * Further properties of the code *)

(** ** The safety gate, continued *)

Section SafetyGateMore.

(** X1. The gate approves a candidate exactly when its trimmed text begins
    with a case variant of [select], the candidate has no deny-listed
    keyword as a whole word under the pattern's case-insensitive matching,
    and the text the gate checks has neither a line-comment marker nor a
    statement terminator. *)
Theorem safety_gate_approval_characterised (s : string) :
  is_sql_safe s = true <->
  begins_with_variant "select" (strip s)
  /\ (forall kw, In kw DENY_KEYWORDS -> ~ whole_word_ci kw s)
  /\ ~ occurs "--" (gate_candidate s)
  /\ ~ occurs ";" (gate_candidate s).
Proof.
  split.
  - intros H. apply is_sql_safe_true in H as (Hsel & Hdeny & Hsemi).
    rewrite (startswith_by_gate_candidate lower_match lower_match_word) in Hsel
      by apply select_word_keyword.
    unfold DENY_PATTERN_search in Hdeny. rewrite deny_scan_split in Hdeny.
    apply orb_false_iff in Hdeny as [Hdeny Hdash].
    apply orb_false_iff in Hdeny as [Hkw _].
    rewrite keyword_scan_gate_candidate in Hkw.
    repeat split.
    + now apply begins_with_variant_lower.
    + intros kw Hin Hw.
      assert (E : keyword_scan None s = true)
        by (apply keyword_scan_whole_word; now exists kw).
      congruence.
    + intros Ho. apply contains_occurs in Ho. congruence.
    + intros Ho. apply contains_occurs in Ho. congruence.
  - intros (Hsel & Hkw & Hdash & Hsemi).
    apply begins_with_variant_lower in Hsel; [| reflexivity].
    apply gate_candidate_clean; try assumption.
    now apply no_keyword_scan.
Qed.

Lemma safety_gate_approval_witness :
  begins_with_variant "select" (strip "SELECT id FROM data WHERE id > 1")
  /\ (forall kw, In kw DENY_KEYWORDS -> ~ whole_word_ci kw "SELECT id FROM data WHERE id > 1")
  /\ ~ occurs "--" (gate_candidate "SELECT id FROM data WHERE id > 1")
  /\ ~ occurs ";" (gate_candidate "SELECT id FROM data WHERE id > 1").
Proof.
  exact (proj1 (safety_gate_approval_characterised "SELECT id FROM data WHERE id > 1") eq_refl).
Defined.

Lemma strip_empty_is_sql_safe (s : string) : strip s = "" -> is_sql_safe s = false.
Proof.
  intros H. unfold is_sql_safe, gate_candidate. rewrite H.
  now destruct (is_empty s).
Qed.

Lemma all_chars_last (p : char -> bool) (s : string) (c : char) :
  all_chars p s = true -> last_char s = Some c -> p c = true.
Proof.
  induction s as [|x y IH]; [discriminate |].
  simpl. intros H. apply andb_true_iff in H as [Hx Hy].
  destruct y as [|z y']; [now intros [= <-] | now apply IH].
Qed.

Lemma gate_candidate_strip (s : string) : gate_candidate (strip s) = gate_candidate s.
Proof. unfold gate_candidate. now rewrite strip_idem. Qed.

(** X2. The gate's answer does not change when the candidate is trimmed,
    nor when statement terminators are appended to a trimmed candidate. *)
Theorem safety_gate_trim_invariance (s run : string) :
  all_chars is_semicolon run = true ->
  is_sql_safe (strip s) = is_sql_safe s
  /\ (trimmed_text s -> is_sql_safe (s ++ run) = is_sql_safe s).
Proof.
  intros Hrun. split.
  - destruct (strip s) as [|c r] eqn:E.
    + now rewrite (strip_empty_is_sql_safe s E).
    + rewrite <- E. unfold is_sql_safe. rewrite gate_candidate_strip, E.
      destruct s; [discriminate | reflexivity].
  - intros (Hne & Hh & Hl).
    assert (Hs : strip s = s) by now apply strip_fixed.
    assert (Hsr : strip (s ++ run) = s ++ run).
    { apply strip_fixed.
      - destruct s; [congruence | exact Hh].
      - destruct run as [|d t]; [now rewrite append_nil_r |].
        rewrite last_char_append by discriminate.
        intros c Hc. apply semicolon_not_space.
        now apply (all_chars_last is_semicolon (String d t)). }
    unfold is_sql_safe, gate_candidate. rewrite Hsr, Hs.
    unfold rstrip_semicolon. rewrite (rstrip_by_append_all _ _ _ Hrun).
    destruct s; [congruence | reflexivity].
Qed.

Lemma safety_gate_trim_invariance_witness :
  is_sql_safe ("select 1" ++ ";;;") = is_sql_safe "select 1".
Proof.
  apply (safety_gate_trim_invariance "select 1" ";;;").
  - reflexivity.
  - repeat split; try discriminate; simpl; now intros c [= <-].
Defined.

End SafetyGateMore.

(** ** The extractor, continued *)

Section ExtractorMore.

Lemma all_chars_append (q : char -> bool) (a b : string) :
  all_chars q (a ++ b) = all_chars q a && all_chars q b.
Proof.
  induction a as [|c r IH]; simpl; [reflexivity |].
  now rewrite IH, andb_assoc.
Qed.

Lemma all_chars_rstrip_by (p q : char -> bool) (s : string) :
  all_chars q s = true -> all_chars q (rstrip_by p s) = true.
Proof.
  destruct (rstrip_by_split p s) as (w & E & _). intros H.
  rewrite E, all_chars_append in H. now apply andb_true_iff in H as [H _].
Qed.

Lemma all_chars_lstrip_by (p q : char -> bool) (s : string) :
  all_chars q s = true -> all_chars q (lstrip_by p s) = true.
Proof.
  destruct (lstrip_by_split p s) as (w & E & _). intros H.
  rewrite E, all_chars_append in H. now apply andb_true_iff in H as [_ H].
Qed.

Lemma all_chars_strip (q : char -> bool) (s : string) :
  all_chars q s = true -> all_chars q (strip s) = true.
Proof. intros H. now apply all_chars_rstrip_by, all_chars_lstrip_by. Qed.

Lemma splitlines_from_no_linebreak (after_cr : bool) (s : string) :
  Forall no_linebreak (splitlines_from after_cr s).
Proof.
  revert after_cr; induction s as [|c r IH]; intros after_cr; simpl; [constructor |].
  destruct (after_cr && char_eqb c "010"); [apply IH |].
  destruct (is_linebreak c) eqn:Ec.
  - constructor; [reflexivity | apply IH].
  - specialize (IH false). destruct (splitlines_from false r) as [|l ls].
    + constructor; [| constructor]. unfold no_linebreak. simpl. now rewrite Ec.
    + inversion IH as [|? ? Hl Hls]; subst. constructor; [| assumption].
      unfold no_linebreak in *. simpl. now rewrite Ec, Hl.
Qed.

Lemma join_cons2 (sep x y : string) (rest : list string) :
  join sep (x :: y :: rest) = x ++ sep ++ join sep (y :: rest).
Proof. reflexivity. Qed.

Lemma join_all_chars (q : char -> bool) (sep : string) (parts : list string) :
  all_chars q sep = true -> Forall (fun x => all_chars q x = true) parts ->
  all_chars q (join sep parts) = true.
Proof.
  intros Hsep. induction parts as [|x [|y rest] IH]; intros H.
  - reflexivity.
  - now inversion H.
  - rewrite join_cons2, !all_chars_append, Hsep.
    inversion H as [|? ? Hx Hrest]; subst. now rewrite Hx, (IH Hrest).
Qed.

Lemma join_trimmed (parts : list string) :
  parts <> [] -> Forall trimmed_text parts -> trimmed_text (join " " parts).
Proof.
  induction parts as [|x [|y rest] IH]; intros Hne H; [congruence | now inversion H |].
  inversion H as [|? ? (Hx & Hh & Hl) Hrest]; subst.
  destruct (IH ltac:(discriminate) Hrest) as (Jne & _ & Jl).
  rewrite join_cons2. repeat split.
  - destruct x; [congruence | discriminate].
  - destruct x; [congruence | exact Hh].
  - rewrite last_char_append by discriminate.
    rewrite last_char_append by exact Jne. exact Jl.
Qed.

Lemma strip_trimmed (l : string) : strip l <> "" -> trimmed_text (strip l).
Proof. intros H. repeat split; [assumption | apply strip_head | apply strip_last]. Qed.

Lemma collapse_lines_parts (candidate : string) :
  let parts := map strip (filter (fun line => negb (is_empty (strip line)))
                                 (splitlines candidate)) in
  Forall trimmed_text parts /\ Forall no_linebreak parts.
Proof.
  intros parts. subst parts. unfold splitlines.
  pose proof (splitlines_from_no_linebreak false candidate) as H.
  induction (splitlines_from false candidate) as [|l ls IH]; [split; constructor |].
  inversion H as [|? ? Hl Hls]; subst. destruct (IH Hls) as [IH1 IH2].
  simpl. destruct (strip l) as [|c r] eqn:E; simpl; [now split |].
  rewrite E. split; constructor; try assumption.
  - rewrite <- E. apply strip_trimmed. now rewrite E.
  - rewrite <- E. now apply all_chars_strip.
Qed.

(** X3. Whatever the model returned, the extractor's candidate is one line
    (it has none of the characters [splitlines] breaks at) with no white
    space at its two ends, and it is empty when the output is blank. *)
Theorem extractor_output_single_trimmed_line (text : string) :
  no_linebreak (clean_sql_from_model text)
  /\ strip (clean_sql_from_model text) = clean_sql_from_model text
  /\ (strip text = "" -> clean_sql_from_model text = "").
Proof.
  assert (Hc : forall c, no_linebreak (collapse_lines c)
                         /\ strip (collapse_lines c) = collapse_lines c).
  { intros c. destruct (collapse_lines_parts c) as [Ht Hn]. unfold collapse_lines.
    split.
    - now apply join_all_chars.
    - destruct (map strip _) as [|x rest] eqn:E; [reflexivity |].
      destruct (join_trimmed (x :: rest) ltac:(discriminate) Ht) as (_ & Hh & Hl).
      now apply strip_fixed. }
  unfold clean_sql_from_model. destruct (is_empty text).
  - repeat split.
  - cbv zeta. destruct (Hc (select_anchor (strip_terminator (strip_fences (strip text)))))
      as [H1 H2].
    repeat split; try assumption.
    intros E. rewrite E. reflexivity.
Qed.

Lemma extractor_blank_output_witness :
  clean_sql_from_model (String "009" (String "010" "  ")) = "".
Proof.
  now apply (extractor_output_single_trimmed_line (String "009" (String "010" "  "))).
Defined.

Lemma word_not_linebreak (c : char) : is_word c = true -> is_linebreak c = false.
Proof.
  intros H. destruct (is_linebreak c) eqn:E; [| reflexivity].
  apply linebreak_is_space, space_not_word in E. congruence.
Qed.

Lemma splitlines_from_prefix (kw c : string) :
  word_keyword kw -> startswith_ci c kw = true ->
  exists l ls, splitlines_from false c = l :: ls /\ startswith_ci l kw = true.
Proof.
  intros [Hkw Hne]. revert c; induction kw as [|k r IH]; intros c H; [congruence |].
  destruct c as [|ch t]; [discriminate |]. simpl in H, Hkw.
  apply andb_true_iff in H as [Hc Ht]. apply andb_true_iff in Hkw as [Hk Hr].
  assert (Hb : is_linebreak ch = false).
  { apply word_not_linebreak. now apply (ci_match_word ch k). }
  cbn [splitlines_from]. rewrite Hb. simpl andb. cbv iota.
  destruct r as [|k' r'].
  - destruct (splitlines_from false t) as [|l ls]; eexists; eexists;
      (split; [reflexivity |]); simpl; now rewrite Hc.
  - destruct (IH Hr ltac:(discriminate) t Ht) as (l & ls & -> & Hl).
    exists (String ch l), ls. split; [reflexivity |].
    simpl in Hl |- *. rewrite Hc. exact Hl.
Qed.

Lemma collapse_lines_prefix (kw c : string) :
  word_keyword kw -> startswith_ci c kw = true ->
  startswith_ci (collapse_lines c) kw = true.
Proof.
  intros Hk H. destruct (splitlines_from_prefix kw c Hk H) as (l & ls & E & Hl).
  unfold collapse_lines, splitlines. rewrite E. simpl filter.
  pose proof (startswith_by_strip ci_match ci_match_word l kw Hk Hl) as Hs.
  destruct (strip l) as [|x y] eqn:El.
  - destruct Hk as [_ Hne]. destruct kw; [congruence | discriminate].
  - simpl negb. cbv iota. simpl map. rewrite El.
    destruct (map strip _) as [|z rest]; [exact Hs |].
    rewrite join_cons2. now apply startswith_by_app.
Qed.

Lemma search_select_some (t g : string) :
  search_select t = Some g -> startswith_ci g "select" = true.
Proof.
  induction t as [|c r IH]; intros H.
  - discriminate.
  - cbn [search_select] in H.
    destruct (startswith_ci (String c r) "select") eqn:E.
    + destruct (word_boundary _ _) in H.
      * simpl in H. injection H as <-. exact E.
      * simpl in H. now apply IH.
    + simpl in H. now apply IH.
Qed.

Lemma search_select_complete (pre w post : string) :
  matches_by ci_match w "select" = true -> is_word_opt (head post) = false ->
  exists g, search_select (pre ++ w ++ post) = Some g.
Proof.
  intros Hw Hp.
  assert (Hm : startswith_ci (w ++ post) "select" = true)
    by (now apply startswith_by_variant).
  assert (Hb : word_boundary (head (drop 5 (w ++ post))) (head (drop 6 (w ++ post))) = true).
  { unfold word_boundary.
    pose proof (is_word_last_matched ci_match ci_match_word (w ++ post) "select"
                  ltac:(discriminate) eq_refl Hm) as H5.
    simpl pred in H5. rewrite H5.
    replace 6 with (strlen w) by (now rewrite (matches_by_length _ _ _ Hw)).
    now rewrite drop_append, Hp. }
  induction pre as [|c r (g & IH)].
  - exists (w ++ post). simpl append.
    destruct (w ++ post) as [|x y]; [discriminate |].
    cbn [search_select]. now rewrite Hm, Hb.
  - change (String c r ++ w ++ post) with (String c (r ++ w ++ post)).
    cbn [search_select].
    destruct (startswith_ci (String c (r ++ w ++ post)) "select"
              && word_boundary (head (drop 5 (String c (r ++ w ++ post))))
                               (head (drop 6 (String c (r ++ w ++ post))))).
    + now eexists.
    + now exists g.
Qed.

(** X4. When the text left after the fences and the trailing terminators
    holds [select], as the pattern's case-insensitive matching takes it,
    with no word character after it, the candidate begins with [select] in
    that same sense: what stood before the keyword is dropped. *)
Theorem extractor_anchors_at_select (text pre w post : string) :
  text <> "" ->
  strip_terminator (strip_fences (strip text)) = pre ++ w ++ post ->
  matches_by ci_match w "select" = true -> is_word_opt (head post) = false ->
  begins_with_ci "select" (clean_sql_from_model text).
Proof.
  intros Hne Ht Hw Hp. apply begins_with_ci_iff.
  unfold clean_sql_from_model. destruct text; [congruence |]. simpl is_empty. cbv iota zeta.
  rewrite Ht. unfold select_anchor.
  destruct (search_select_complete pre w post Hw Hp) as [g Hg]. rewrite Hg.
  apply collapse_lines_prefix; [apply select_word_keyword |].
  apply (startswith_by_strip ci_match ci_match_word); [apply select_word_keyword |].
  now apply (search_select_some _ _ Hg).
Qed.

Lemma extractor_anchors_at_select_witness :
  begins_with_ci "select"
    (clean_sql_from_model
       (fenced "" ("Here is the query: " ++ String 383%N "elect id" ++ String "010" "from data;"))).
Proof.
  apply (extractor_anchors_at_select _ "Here is the query: " (String 383%N "elect")
           (" id" ++ String "010" "from data")).
  - discriminate.
  - reflexivity.
  - reflexivity.
  - reflexivity.
Defined.

End ExtractorMore.

(** ** Schema and prompt, continued *)

Section SchemaPrompt.

Lemma existsb_column_name (col : string) (cols : list (string * string)) :
  existsb (fun p => string_eqb col (fst p)) cols = true <-> In col (map fst cols).
Proof.
  rewrite existsb_exists, in_map_iff. split.
  - intros (p & Hin & E). apply string_eqb_eq in E. now exists p.
  - intros (p & E & Hin). exists p. split; [assumption |]. now apply string_eqb_eq.
Qed.

Lemma dtype_of_lookup (cols : list (string * string)) (col ty : string) :
  NoDup (map fst cols) -> In (col, ty) cols -> dtype_of col cols = ty.
Proof.
  induction cols as [|[c0 t0] rest IH]; intros Hnd Hin; [contradiction |].
  simpl in Hnd. inversion Hnd as [|? ? Hfresh Hrest]; subst.
  simpl. destruct Hin as [[= -> ->] | Hin].
  - destruct (existsb _ rest) eqn:E.
    + apply existsb_column_name in E. contradiction.
    + now rewrite string_eqb_refl.
  - assert (E : existsb (fun p => string_eqb col (fst p)) rest = true).
    { apply existsb_column_name. apply in_map_iff. now exists (col, ty). }
    rewrite E. now apply IH.
Qed.

Lemma dtype_of_missing (cols : list (string * string)) (col : string) :
  ~ In col (map fst cols) -> dtype_of col cols = "".
Proof.
  induction cols as [|[c0 t0] rest IH]; intros H; [reflexivity |].
  simpl in *. destruct (existsb _ rest) eqn:E.
  - apply existsb_column_name in E. tauto.
  - destruct (string_eqb_spec col c0); [subst; tauto | reflexivity].
Qed.

(** X5. For a table whose column names are distinct, the schema descriptor
    is [data(] and [)] around the columns in their order, each as its name
    and, in brackets, its own dtype, separated by a comma and a space; the
    rows play no part. *)
Theorem schema_hint_lists_columns (df : Dataset) :
  NoDup (map fst (columns df)) ->
  get_schema_hint df = "data(" ++ join ", " (map schema_entry (columns df)) ++ ")".
Proof.
  intros Hnd. unfold get_schema_hint. rewrite map_map.
  rewrite (map_ext_in _ schema_entry); [reflexivity |]. intros [c ty] Hin.
  unfold schema_entry. simpl. now rewrite (dtype_of_lookup _ _ _ Hnd Hin).
Qed.

Lemma schema_hint_lists_columns_witness :
  get_schema_hint sample_df = "data(" ++ join ", " (map schema_entry (columns sample_df)) ++ ")".
Proof.
  apply schema_hint_lists_columns. simpl.
  repeat constructor; simpl; intuition discriminate.
Defined.

Lemma hex_digit_printable (n : N) : (n < 16)%N -> is_printable (hex_digit n) = true.
Proof.
  intros H. apply (all_upto_sound 16 0 (fun n => is_printable (hex_digit n))).
  - vm_compute. reflexivity.
  - simpl. lia.
Qed.

Lemma hex_digits_printable (n : nat) (v : N) : all_chars is_printable (hex_digits n v) = true.
Proof.
  revert v; induction n as [|n IH]; intros v; [reflexivity |].
  cbn [hex_digits]. rewrite all_chars_append, IH. cbn [all_chars].
  rewrite hex_digit_printable; [reflexivity |]. now apply N.mod_lt.
Qed.

Lemma repr_char_printable (quote c : char) :
  quote = "'"%char \/ quote = "034"%char ->
  all_chars is_printable (repr_char quote c) = true.
Proof.
  intros Hq. unfold repr_char.
  destruct (char_eqb c quote || char_eqb c "092") eqn:E1.
  - apply orb_true_iff in E1 as [E | E]; apply char_eqb_eq in E; subst c;
      [destruct Hq as [-> | ->] |]; reflexivity.
  - destruct (char_eqb c "009"); [reflexivity |].
    destruct (char_eqb c "010"); [reflexivity |].
    destruct (char_eqb c "013"); [reflexivity |].
    destruct (is_printable c) eqn:Ep; [cbn [all_chars]; now rewrite Ep |].
    destruct (N.ltb c 256); [| destruct (N.ltb c 65536)];
      cbn [all_chars]; now rewrite hex_digits_printable.
Qed.

Lemma repr_body_printable (quote : char) (s : string) :
  quote = "'"%char \/ quote = "034"%char ->
  all_chars is_printable (repr_body quote s) = true.
Proof.
  intros Hq. induction s as [|c r IH]; [reflexivity |].
  simpl. now rewrite all_chars_append, repr_char_printable, IH.
Qed.

Lemma repr_printable (s : string) : all_chars is_printable (repr s) = true.
Proof.
  unfold repr.
  destruct (contains "'" s && negb (contains (String "034" "") s));
    cbn [all_chars]; rewrite all_chars_append, repr_body_printable by tauto; reflexivity.
Qed.

Lemma printable_no_linebreak (s : string) :
  all_chars is_printable s = true -> no_linebreak s.
Proof.
  apply all_chars_impl. intros c Hc.
  destruct (is_linebreak c) eqn:E; [| reflexivity].
  apply linebreak_not_printable in E. congruence.
Qed.

Lemma no_linebreak_append (a b : string) :
  no_linebreak a -> no_linebreak b -> no_linebreak (a ++ b).
Proof. unfold no_linebreak. intros Ha Hb. now rewrite all_chars_append, Ha, Hb. Qed.

(** A text without line breaks that a line feed follows is one line. *)
Lemma splitlines_from_line (a rest : string) :
  no_linebreak a ->
  splitlines_from false (a ++ String "010" rest) = a :: splitlines_from false rest.
Proof.
  induction a as [|c r IH]; intros H; [reflexivity |].
  unfold no_linebreak in H. cbn [all_chars] in H.
  apply andb_true_iff in H as [Hc Hr]. apply negb_true_iff in Hc.
  change (String c r ++ String "010" rest) with (String c (r ++ String "010" rest)).
  cbn [splitlines_from]. rewrite Hc, (IH Hr). reflexivity.
Qed.

(** X6. When the schema descriptor has no line break, the prompt is six
    lines, whatever the user typed: the instruction, an empty line, the
    schema, an empty line, the request as [repr] writes it, and [SQL:]. The
    request cannot add a line to the prompt or end one. *)
Theorem prompt_has_six_lines (schema_hint user_q : string) :
  no_linebreak schema_hint ->
  splitlines (build_prompt schema_hint user_q) =
  [ "You are an SQL writer for a single table named 'data' in PostgreSQL/DuckDB. Convert the user's request into ONE valid SELECT SQL statement only. Use only this table. Return only the SELECT statement (no explanation, no trailing semicolon).";
    "";
    "Schema: " ++ schema_hint;
    "";
    "User request: " ++ repr user_q;
    "SQL:" ].
Proof.
  intros Hs. unfold splitlines, build_prompt.
  assert (Hnl : forall x, nl ++ x = String "010" x) by reflexivity.
  assert (Hlf : forall x, splitlines_from false (String "010" x)
                          = "" :: splitlines_from false x) by reflexivity.
  rewrite !Hnl. unfold nl.
  rewrite splitlines_from_line by reflexivity.
  rewrite Hlf.
  rewrite <- (append_assoc "Schema: " schema_hint).
  rewrite splitlines_from_line by (apply no_linebreak_append; [reflexivity | assumption]).
  rewrite Hlf.
  rewrite <- (append_assoc "User request: " (repr user_q)).
  rewrite splitlines_from_line
    by (apply no_linebreak_append; [reflexivity | apply printable_no_linebreak, repr_printable]).
  rewrite splitlines_from_line by reflexivity.
  reflexivity.
Qed.

Lemma prompt_has_six_lines_witness :
  List.length (splitlines (build_prompt (get_schema_hint sample_df)
                                        ("ids" ++ String "010" "SQL: DROP TABLE data"))) = 6.
Proof.
  rewrite (prompt_has_six_lines (get_schema_hint sample_df)); reflexivity.
Defined.

End SchemaPrompt.

(** ** The query executor, continued *)

Section ExecutorMore.

Lemma filter_fresh_handle (n : nat) (l : list nat) :
  Forall (fun h => h < n) l -> filter (fun h => negb (Nat.eqb h n)) l = l.
Proof.
  induction 1 as [|h l Hh _ IH]; [reflexivity |].
  simpl. rewrite IH. destruct (Nat.eqb_spec h n); [lia | reflexivity].
Qed.

Lemma db_wf_connect (db : Db) : db_wf db -> db_wf (snd (db_connect db)).
Proof.
  unfold db_wf. simpl. intros H. constructor; [lia |].
  eapply Forall_impl; [| exact H]. simpl. intros; lia.
Qed.

Lemma db_close_connect (db : Db) :
  db_wf db ->
  db_close (fst (db_connect db)) (snd (db_connect db))
  = {| next_handle := S (next_handle db); open_handles := open_handles db |}.
Proof.
  intros Hwf. unfold db_close, db_connect. simpl.
  rewrite Nat.eqb_refl. simpl. now rewrite (filter_fresh_handle _ _ Hwf).
Qed.

Lemma execute_sql_on_df_cases (eng : Engine) (df : Dataset) (sql_text : string) (db : Db) :
  db_wf db ->
  let out := execute_sql_on_df eng df sql_text db in
  db_wf (fst out) /\ next_handle db <= next_handle (fst out)
  /\ ((exists result_df,
          snd out = (Some result_df, None) /\ open_handles (fst out) = open_handles db)
      \/ (exists msg,
             snd out = (None, Some msg)
             /\ (open_handles (fst out) = open_handles db
                 \/ open_handles (fst out) = next_handle db :: open_handles db))).
Proof.
  intros Hwf. unfold execute_sql_on_df.
  destruct (duckdb_connect eng) as [e|].
  - simpl. repeat split; [assumption | lia |]. right. exists (exn_str e). tauto.
  - pose proof (db_wf_connect db Hwf) as Hwf1. simpl in *.
    destruct (con_register eng df) as [e|].
    + simpl. repeat split; [assumption | lia |]. right. exists (exn_str e). tauto.
    + destruct (con_execute eng df sql_text) as [result_df|e].
      * change (db_close (next_handle db) _)
          with (db_close (fst (db_connect db)) (snd (db_connect db))).
        rewrite (db_close_connect db Hwf). simpl.
        repeat split.
        -- unfold db_wf. simpl. eapply Forall_impl; [| exact Hwf]. simpl. intros; lia.
        -- lia.
        -- left. now exists result_df.
      * simpl. repeat split; [assumption | lia |]. right. exists (exn_str e). tauto.
Qed.

(** X7. On connections that all come from earlier calls, the executor
    returns either a result and no error, with the open connections as it
    found them, or no result and an error text, with the open connections
    as it found them or with its own connection added to them; it never
    reuses a handle. *)
Theorem executor_outcome_and_connections
    (eng : Engine) (df : Dataset) (sql_text : string) (db : Db) :
  db_wf db ->
  let out := execute_sql_on_df eng df sql_text db in
  db_wf (fst out) /\ next_handle db <= next_handle (fst out)
  /\ ((exists result_df,
          snd out = (Some result_df, None) /\ open_handles (fst out) = open_handles db)
      \/ (exists msg,
             snd out = (None, Some msg)
             /\ (open_handles (fst out) = open_handles db
                 \/ open_handles (fst out) = next_handle db :: open_handles db))).
Proof. exact (execute_sql_on_df_cases eng df sql_text db). Qed.

Lemma executor_outcome_witness :
  let db1 := {| next_handle := 3; open_handles := [2; 0] |} in
  let out := execute_sql_on_df projection_engine sample_df "SELECT name FROM data" db1 in
  db_wf db1 /\ open_handles (fst out) = [2; 0].
Proof.
  assert (Hwf : db_wf {| next_handle := 3; open_handles := [2; 0] |})
    by (repeat constructor).
  split; [exact Hwf |].
  destruct (executor_outcome_and_connections projection_engine sample_df
              "SELECT name FROM data" _ Hwf) as (_ & _ & [(r & _ & H) | (msg & H & _)]).
  - exact H.
  - discriminate.
Defined.

End ExecutorMore.

(** ** The script, continued *)

Section ScriptMore.

Lemma submit_unfold (env : Env) (df : Dataset) (user_input : string) (st : Session) :
  fst (submit env df user_input st) =
  if is_empty (strip user_input) then st
  else
    match candidate_of env df user_input with
    | Raise _ => st
    | Ok sql =>
        if is_sql_safe sql
        then
          let out := execute_sql_on_df (engine env) df sql (db st) in
          {| history := (history st ++ [entry_for env st (strip user_input) sql (snd (snd out))])%list;
             db := fst out |}
        else st
    end.
Proof.
  unfold submit, candidate_of.
  destruct (is_empty (strip user_input)); [reflexivity |].
  destruct (bind _ _) as [sql|e]; [| reflexivity].
  destruct (is_sql_safe sql); [| reflexivity]. simpl negb. cbv iota.
  now destruct (execute_sql_on_df _ _ _ _) as [db' [result_df err]].
Qed.

(** X8. A submission that is blank, whose model call or extraction raises,
    or whose candidate the gate rejects leaves the session as it was: no
    log entry and no connection. Any other submission appends exactly one
    entry, for the trimmed request and the approved candidate, with the
    executor's error text and the clock's time. *)
Theorem submission_logs_only_executed_candidates
    (env : Env) (df : Dataset) (user_input : string) (st : Session) :
  let st' := fst (submit env df user_input st) in
  (strip user_input = "" -> st' = st)
  /\ (forall e, candidate_of env df user_input = Raise e -> st' = st)
  /\ (forall sql, candidate_of env df user_input = Ok sql -> is_sql_safe sql = false -> st' = st)
  /\ (forall sql,
        strip user_input <> "" -> candidate_of env df user_input = Ok sql ->
        is_sql_safe sql = true ->
        let out := execute_sql_on_df (engine env) df sql (db st) in
        history st' = (history st ++ [entry_for env st (strip user_input) sql (snd (snd out))])%list
        /\ db st' = fst out).
Proof.
  intros st'. subst st'. rewrite submit_unfold.
  split; [| split; [| split]].
  - intros ->. reflexivity.
  - intros e ->. now destruct (is_empty (strip user_input)).
  - intros sql -> ->. now destruct (is_empty (strip user_input)).
  - intros sql Hne Hcand Hsafe.
    destruct (strip user_input); [congruence |]. simpl. rewrite Hcand, Hsafe.
    now split.
Qed.

Lemma submission_rejected_witness :
  fst (submit (env_answering "DROP TABLE data" "2025-01-01T09:02:00") sample_df
              "remove everything" new_session) = new_session.
Proof.
  destruct (submission_logs_only_executed_candidates
              (env_answering "DROP TABLE data" "2025-01-01T09:02:00") sample_df
              "remove everything" new_session) as (_ & _ & H & _).
  apply (H "DROP TABLE data"); reflexivity.
Defined.

Lemma submit_step (env : Env) (df : Dataset) (user_input : string) (st : Session) :
  fst (submit env df user_input st) = st
  \/ exists sql,
       strip user_input <> "" /\ is_sql_safe sql = true
       /\ fst (submit env df user_input st) =
          {| history := (history st
                         ++ [entry_for env st (strip user_input) sql
                               (snd (snd (execute_sql_on_df (engine env) df sql (db st))))])%list;
             db := fst (execute_sql_on_df (engine env) df sql (db st)) |}.
Proof.
  rewrite submit_unfold.
  destruct (strip user_input) as [|c r] eqn:E; [now left |]. simpl is_empty. cbv iota.
  destruct (candidate_of env df user_input) as [sql|e]; [| now left].
  destruct (is_sql_safe sql) eqn:Es; [| now left].
  right. exists sql. repeat split; [discriminate | assumption].
Qed.

Lemma run_from_approved (subs : list Submission) (st : Session) :
  Forall approved_entry (history st) ->
  Forall approved_entry (history (run_from st subs)).
Proof.
  revert st; induction subs as [|s rest IH]; intros st H; [exact H |].
  simpl. apply IH.
  destruct (submit_step (sub_env s) (sub_df s) (sub_input s) st)
    as [-> | (sql & Hne & Hsafe & ->)]; [assumption |].
  simpl. apply Forall_app. split; [assumption |].
  constructor; [| constructor]. split; [exact Hsafe |].
  simpl. now apply strip_trimmed.
Qed.

(** X9. After every sequence of submissions, every statement recorded in
    the history is one the gate approved, and every recorded request is a
    text with characters and no white space at its ends. *)
Theorem history_holds_approved_statements (subs : list Submission) :
  Forall (fun e => is_sql_safe (generated_sql e) = true /\ trimmed_text (user_query e))
         (history (run subs)).
Proof. apply (run_from_approved subs new_session). constructor. Qed.

(** X10. The engine's behaviour on statements the gate does not approve has
    no influence on a submission: two engines that agree on the approved
    statements, behind the same service and clock, give the same session
    and the same display. No unapproved statement reaches the engine. *)
Theorem unapproved_statements_never_reach_engine
    (env1 env2 : Env) (df : Dataset) (user_input : string) (st : Session) :
  (forall payload, post env1 payload = post env2 payload) ->
  now env1 = now env2 ->
  duckdb_connect (engine env1) = duckdb_connect (engine env2) ->
  con_register (engine env1) df = con_register (engine env2) df ->
  (forall sql, is_sql_safe sql = true ->
               con_execute (engine env1) df sql = con_execute (engine env2) df sql) ->
  submit env1 df user_input st = submit env2 df user_input st.
Proof.
  intros Hpost Hnow Hc Hr He. unfold submit.
  destruct (is_empty (strip user_input)); [reflexivity |].
  unfold call_lmstudio_chat. rewrite Hpost.
  destruct (bind _ _) as [sql|e]; [| reflexivity].
  destruct (is_sql_safe sql) eqn:Es; [| reflexivity]. simpl negb. cbv iota.
  unfold execute_sql_on_df. rewrite Hc, Hr, (He sql Es), Hnow. reflexivity.
Qed.

Lemma unapproved_statements_witness :
  submit {| post := post (env_answering "DROP TABLE data" "2025-01-01T09:02:00");
            engine := permissive_engine; now := "2025-01-01T09:02:00" |}
         sample_df "remove everything" new_session
  = submit (env_answering "DROP TABLE data" "2025-01-01T09:02:00")
           sample_df "remove everything" new_session.
Proof.
  apply unapproved_statements_never_reach_engine; try reflexivity.
  intros sql Hsafe. simpl. now rewrite Hsafe.
Defined.

Lemma failed_entries_app (h : list LogEntry) (e : LogEntry) :
  failed_entries (h ++ [e]) = failed_entries h + (if executed e then 0 else 1).
Proof.
  unfold failed_entries. rewrite filter_app, length_app. simpl.
  now destruct (executed e).
Qed.

Lemma run_from_connections (subs : list Submission) (st : Session) :
  connections_accounted st -> connections_accounted (run_from st subs).
Proof.
  revert st; induction subs as [|s rest IH]; intros st H; [exact H |].
  simpl. apply IH. destruct H as [Hwf Hlen].
  destruct (submit_step (sub_env s) (sub_df s) (sub_input s) st)
    as [-> | (sql & _ & _ & ->)]; [now split |].
  destruct (execute_sql_on_df_cases (engine (sub_env s)) (sub_df s) sql (db st) Hwf)
    as (Hwf' & _ & Hout).
  split; [exact Hwf' |]. simpl. rewrite failed_entries_app. simpl.
  destruct Hout as [(r & -> & ->) | (msg & -> & [-> | ->])]; simpl; lia.
Qed.

(** X11. After every sequence of submissions the connections still open are
    at most as many as the history entries that are not marked executed: a
    query that ran leaves none behind, and every handle that is open was
    given out by an earlier call. *)
Theorem open_connections_bounded_by_failures (subs : list Submission) :
  db_wf (db (run subs))
  /\ List.length (open_handles (db (run subs))) <= failed_entries (history (run subs)).
Proof.
  apply (run_from_connections subs new_session). split; [constructor | simpl; lia].
Qed.

Lemma code_shown_submit (env : Env) (df : Dataset) (user_input : string) (st : Session) :
  code_shown (snd (submit env df user_input st)) =
  if is_empty (strip user_input) then None
  else match candidate_of env df user_input with
       | Ok sql => Some sql
       | Raise _ => None
       end.
Proof.
  unfold submit, candidate_of.
  destruct (is_empty (strip user_input)); [reflexivity |].
  destruct (bind _ _) as [sql|e]; [| reflexivity].
  destruct (negb (is_sql_safe sql)); [reflexivity |].
  now destruct (execute_sql_on_df _ _ _ _) as [db' [result_df err]].
Qed.

(** X12. A run of the script displays the generated SQL exactly when the
    client and the extractor produced a candidate, also when the gate then
    rejects it or the engine fails on it; when the client or the extractor
    raises, no SQL is displayed and the last thing shown is the error with
    the exception's text. *)
Theorem generated_sql_shown_unless_client_fails
    (env : Env) (df : Dataset) (user_input : string) (st : Session) :
  strip user_input <> "" ->
  (forall sql, candidate_of env df user_input = Ok sql ->
               code_shown (snd (submit env df user_input st)) = Some sql)
  /\ (forall e, candidate_of env df user_input = Raise e ->
                code_shown (snd (submit env df user_input st)) = None
                /\ last (snd (submit env df user_input st)) (EvInfo "")
                   = EvError ("LM Studio error: " ++ exn_str e)).
Proof.
  intros Hne. split.
  - intros sql H. rewrite code_shown_submit, H.
    destruct (strip user_input); [congruence | reflexivity].
  - intros e H. split.
    + rewrite code_shown_submit, H. now destruct (is_empty (strip user_input)).
    + unfold submit. unfold candidate_of in H.
      destruct (strip user_input) eqn:E; [congruence |]. simpl is_empty. cbv iota.
      rewrite H. reflexivity.
Qed.

Lemma generated_sql_shown_witness :
  code_shown (snd (submit (env_answering "DROP TABLE data" "2025-01-01T09:02:00") sample_df
                          "remove everything" new_session)) = Some "DROP TABLE data".
Proof.
  apply (generated_sql_shown_unless_client_fails
           (env_answering "DROP TABLE data" "2025-01-01T09:02:00") sample_df
           "remove everything" new_session); [discriminate | reflexivity].
Defined.

End ScriptMore.
